(** * Capacity and allocation accounting of the resource-management client

    A shallow embedding of the client-side TypeScript sources:
    - [src/lib/utils.ts]            (date helpers, [isDateInRange])
    - [src/contexts/AppContext.tsx] ([appReducer], [getEngineerCapacity],
                                     assignment mutations)
    - [src/pages/AssignmentsPage.tsx] ([assignmentSchema], [onSubmit])
    - [src/pages/EngineerDashboard.tsx], [ManagerDashboard.tsx],
      [AnalyticsPage.tsx], [EngineersPage.tsx] (workload and utilization)
    - [src/contexts/AuthContext.tsx] ([authReducer] and the guards) and
      the skill toggle of [ProfilePage.tsx] and [ProjectsPage.tsx].

    Conventions.
    - Percentages ([maxCapacity], [allocationPercentage], ...) are the
      integer percents of the data model and are kept in [Z]; an optional
      field ([currentAllocation?]) is an [option].
    - The result of a JavaScript division is a [JsNum]: a rational,
      [Infinity], [-Infinity] or [NaN].  The percentages of the pages are
      computed from integer percents and kept exact.  The date helpers
      [getDaysBetween] and [calculateProgress] work on time values, where
      the rounding of doubles decides the result: there every operation
      rounds to the nearest number with a significand of 53 bits, a tie
      going to the even one ([JsNum.rn]).  The exponent range of doubles
      and the sign of zero are not modelled; a time value is an integer
      of magnitude at most 8.64e15, so the quantities rounded lie well
      inside that range.
    - A [Date] object is its time value in milliseconds, [None] being the
      [Invalid Date].  The parsers ([parseISO] of date-fns and the [Date]
      constructor) are library code: they are an interface ([DateLib]).
    - A string is its sequence of code units, taken below 256.
    - Promises are run to completion; the answer of the REST server is an
      [ApiResult] handed to the operation. *)

From Stdlib Require Import ZArith QArith Bool List String Ascii Lia.
From Stdlib Require Import DecimalString.
From Stdlib Require Import Qround Qabs Qpower Qfield Lqa.
Import ListNotations.

#[local] Open Scope string_scope.
#[local] Open Scope Z_scope.

(** ** JavaScript numbers produced by a division *)

Module JsNum.

Inductive t : Type :=
| Fin (q : Q)
| PInf
| NInf
| NaN.

Definition of_Z (z : Z) : t := Fin (inject_Z z).

Definition Qsign (q : Q) : Z := Z.sgn (Qnum q).

(** [x / y]; a zero divisor is the positive zero. *)
Definition div (x y : t) : t :=
  match x, y with
  | NaN, _ | _, NaN => NaN
  | Fin a, Fin b =>
      if Qsign b =? 0 then
        (if Qsign a =? 0 then NaN
         else if 0 <? Qsign a then PInf else NInf)
      else Fin (a / b)%Q
  | Fin _, (PInf | NInf) => Fin 0
  | PInf, Fin b => if Qsign b <? 0 then NInf else PInf
  | NInf, Fin b => if Qsign b <? 0 then PInf else NInf
  | (PInf | NInf), (PInf | NInf) => NaN
  end.

(** [x * y] *)
Definition mul (x y : t) : t :=
  match x, y with
  | NaN, _ | _, NaN => NaN
  | Fin a, Fin b => Fin (a * b)%Q
  | Fin a, PInf | PInf, Fin a =>
      if Qsign a =? 0 then NaN else if 0 <? Qsign a then PInf else NInf
  | Fin a, NInf | NInf, Fin a =>
      if Qsign a =? 0 then NaN else if 0 <? Qsign a then NInf else PInf
  | PInf, PInf | NInf, NInf => PInf
  | PInf, NInf | NInf, PInf => NInf
  end.

(** [x + y] *)
Definition add (x y : t) : t :=
  match x, y with
  | NaN, _ | _, NaN => NaN
  | Fin a, Fin b => Fin (a + b)%Q
  | Fin _, PInf | PInf, Fin _ | PInf, PInf => PInf
  | Fin _, NInf | NInf, Fin _ | NInf, NInf => NInf
  | PInf, NInf | NInf, PInf => NaN
  end.

(** [x > y]: every comparison with [NaN] is false. *)
Definition gt (x y : t) : bool :=
  match x, y with
  | NaN, _ | _, NaN => false
  | Fin a, Fin b => negb (Qle_bool a b)
  | PInf, (Fin _ | NInf) => true
  | PInf, PInf => false
  | Fin _, NInf => true
  | Fin _, PInf => false
  | NInf, _ => false
  end.

Definition lt (x y : t) : bool := gt y x.

(** [x >= y] *)
Definition ge (x y : t) : bool :=
  match x, y with
  | NaN, _ | _, NaN => false
  | Fin a, Fin b => Qle_bool b a
  | PInf, _ => true
  | _, NInf => true
  | Fin _, PInf => false
  | NInf, (Fin _ | PInf) => false
  end.

(** [Number.isFinite] *)
Definition isFinite (x : t) : bool :=
  match x with Fin _ => true | _ => false end.

(** [x - y] *)
Definition sub (x y : t) : t :=
  match x, y with
  | NaN, _ | _, NaN => NaN
  | Fin a, Fin b => Fin (a - b)%Q
  | Fin _, PInf | NInf, Fin _ | NInf, PInf => NInf
  | Fin _, NInf | PInf, Fin _ | PInf, NInf => PInf
  | PInf, PInf | NInf, NInf => NaN
  end.

(** [Math.abs] *)
Definition abs (x : t) : t :=
  match x with
  | Fin q => Fin (Qabs q)
  | PInf | NInf => PInf
  | NaN => NaN
  end.

(** [Math.ceil] *)
Definition ceil (x : t) : t :=
  match x with
  | Fin q => Fin (inject_Z (Qceiling q))
  | other => other
  end.

(** [Math.round]: the nearest integer, a half going up. *)
Definition round (x : t) : t :=
  match x with
  | Fin q => Fin (inject_Z (Qfloor (q + (1 # 2))%Q))
  | other => other
  end.

(** [Math.min] and [Math.max]: [NaN] as soon as an argument is. *)
Definition min (x y : t) : t :=
  match x, y with
  | NaN, _ | _, NaN => NaN
  | _, _ => if gt x y then y else x
  end.

Definition max (x y : t) : t :=
  match x, y with
  | NaN, _ | _, NaN => NaN
  | _, _ => if gt y x then y else x
  end.

(** *** Rounding to a double

    The nearest integer to [x], a tie going to the even one. *)
Definition nearestEven (x : Q) : Z :=
  let f := Qfloor x in
  match Qcompare (x - inject_Z f) (1 # 2) with
  | Lt => f
  | Gt => f + 1
  | Eq => if Z.even f then f else f + 1
  end.

(** The exponent [e] of the unit in the last place of a positive [q]:
    the one with [2^52 <= q / 2^e < 2^53]. *)
Definition ulpExponent (q : Q) : Z :=
  let k := Z.log2 (Qnum q) - Z.log2 (Zpos (Qden q)) - 52 in
  if Qle_bool (inject_Z (2 ^ 52) * 2 ^ k) q then k else k - 1.

Definition rnPositive (q : Q) : Q :=
  let e := ulpExponent q in
  (inject_Z (nearestEven (q / 2 ^ e)) * 2 ^ e)%Q.

(** The number with a significand of 53 bits nearest to [q], a tie
    going to the even significand: what a double holds for [q]. *)
Definition rn (q : Q) : Q :=
  let r := Qred q in
  match Qnum r with
  | 0 => 0%Q
  | Zpos _ => rnPositive r
  | Zneg _ => (- rnPositive (- r))%Q
  end.

Definition round64 (x : t) : t :=
  match x with
  | Fin q => Fin (rn q)
  | other => other
  end.

(** [x - y], [x / y] and [x * y] on doubles: the exact result, rounded. *)
Definition sub64 (x y : t) : t := round64 (sub x y).
Definition div64 (x y : t) : t := round64 (div x y).
Definition mul64 (x y : t) : t := round64 (mul x y).

End JsNum.

(** ** Dates *)

(** The time value of a [Date]; [None] is the [Invalid Date] (NaN). *)
Definition JsDate : Type := option Z.

(** date-fns [isAfter(date, dateToCompare)]: [date > dateToCompare] on the
    time values, false as soon as one of them is invalid. *)
Definition isAfter (date dateToCompare : JsDate) : bool :=
  match date, dateToCompare with
  | Some d, Some c => c <? d
  | _, _ => false
  end.

(** date-fns [isBefore(date, dateToCompare)]. *)
Definition isBefore (date dateToCompare : JsDate) : bool :=
  match date, dateToCompare with
  | Some d, Some c => d <? c
  | _, _ => false
  end.

(** [a > b] on two [Date] objects, as the form schema writes it. *)
Definition date_gt (a b : JsDate) : bool := isAfter a b.

(** The two string-to-date parsers the sources call. *)
Class DateLib : Type := {
  parseISO : string -> JsDate;   (* date-fns *)
  newDate  : string -> JsDate    (* [new Date(s)] *)
}.

(** A [string | Date] argument. *)
Inductive DateArg : Type :=
| DStr (s : string)
| DObj (d : JsDate).

(** ** A concrete parser for the [YYYY-MM-DD] values of a date input *)

Module IsoDate.

Definition digit (c : ascii) : option Z :=
  let n := Z.of_nat (nat_of_ascii c) in
  if (48 <=? n) && (n <=? 57) then Some (n - 48) else None.

Definition is_leap (y : Z) : bool :=
  ((y mod 4 =? 0) && negb (y mod 100 =? 0)) || (y mod 400 =? 0).

Definition days_in_month (y m : Z) : Z :=
  if m =? 2 then (if is_leap y then 29 else 28)
  else if (m =? 4) || (m =? 6) || (m =? 9) || (m =? 11) then 30
  else 31.

(** Days between 1970-01-01 and the civil date [y-m-d]. *)
Definition days_from_civil (y m d : Z) : Z :=
  let y' := if m <=? 2 then y - 1 else y in
  let era := y' / 400 in
  let yoe := y' - era * 400 in
  let mp := if 2 <? m then m - 3 else m + 9 in
  let doy := (153 * mp + 2) / 5 + d - 1 in
  let doe := yoe * 365 + yoe / 4 - yoe / 100 + doy in
  era * 146097 + doe - 719468.

Definition msPerDay : Z := 86400000.

(** Midnight UTC of a [YYYY-MM-DD] string; [Invalid Date] otherwise. *)
Definition parse (s : string) : JsDate :=
  match list_ascii_of_string s with
  | [y1; y2; y3; y4; h1; m1; m2; h2; d1; d2] =>
      match digit y1, digit y2, digit y3, digit y4,
            digit m1, digit m2, digit d1, digit d2 with
      | Some a, Some b, Some c, Some d, Some e, Some f, Some g, Some h =>
          let y := a * 1000 + b * 100 + c * 10 + d in
          let m := e * 10 + f in
          let dd := g * 10 + h in
          if (Ascii.eqb h1 "-") && (Ascii.eqb h2 "-")
             && (1 <=? m) && (m <=? 12)
             && (1 <=? dd) && (dd <=? days_in_month y m)
          then Some (days_from_civil y m dd * msPerDay)
          else None
      | _, _, _, _, _, _, _, _ => None
      end
  | _ => None
  end.

(** The library instance used for concrete runs. *)
Definition lib : DateLib := {| parseISO := parse; newDate := parse |}.

End IsoDate.

(** ** JavaScript conventions *)

(** Truthiness of a string and of a number. *)
Definition truthy_str (s : string) : bool := negb (String.eqb s "").
Definition truthy_num (n : Z) : bool := negb (n =? 0).

(** [x || d] on an optional number: [undefined] and [0] give [d]. *)
Definition num_or (x : option Z) (d : Z) : Z :=
  match x with
  | Some n => if truthy_num n then n else d
  | None => d
  end.

(** Template-literal rendering of an integer. *)
Definition show (n : Z) : string := NilZero.string_of_int (Z.to_int n).

(** ** JavaScript strings

    A string is its sequence of code units, taken below 256. *)

Module JsString.

(** [s.length] *)
Definition len (s : string) : Z := Z.of_nat (String.length s).

Definition code (c : ascii) : Z := Z.of_nat (nat_of_ascii c).

(** The lower-case form of one code unit: the letters [A-Z] and the
    accented capitals of Latin-1 move up by 32. *)
Definition lower (c : ascii) : ascii :=
  let n := code c in
  if ((65 <=? n) && (n <=? 90))
     || ((192 <=? n) && (n <=? 222) && negb (n =? 215))
  then ascii_of_nat (Z.to_nat (n + 32))
  else c.

(** [s.toLowerCase()] *)
Fixpoint toLowerCase (s : string) : string :=
  match s with
  | EmptyString => EmptyString
  | String c r => String (lower c) (toLowerCase r)
  end.

(** [s.includes(sub)] *)
Fixpoint includes (s sub : string) : bool :=
  String.prefix sub s
  || match s with
     | EmptyString => false
     | String _ r => includes r sub
     end.

(** [s.slice(0, e)]: a negative [e] counts from the end. *)
Definition slice0 (s : string) (e : Z) : string :=
  let n := if e <? 0 then Z.max (len s + e) 0 else Z.min e (len s) in
  String.substring 0 (Z.to_nat n) s.

(** [s.split(sep)[0]] for a separator of one code unit: what stands
    before its first occurrence, the whole string when there is none. *)
Fixpoint split_head (sep : ascii) (s : string) : string :=
  match s with
  | EmptyString => EmptyString
  | String c r =>
      if Ascii.eqb c sep then EmptyString else String c (split_head sep r)
  end.

End JsString.

(** ** Records of [src/services/apiService.ts] *)

Inductive Role : Type := engineer | manager.
Inductive Seniority : Type := junior | mid | senior.
Inductive ProjectStatus : Type := planning | active | completed.

Module User.
Record t : Type := {
  _id : string;
  id : option string;
  email : string;
  name : string;
  role : Role;
  skills : option (list string);
  seniority : option Seniority;
  maxCapacity : Z;
  department : string;
  availableCapacity : option Z;
  currentAllocation : option Z
}.
End User.

Module ManagerRef.
Record t : Type := { _id : string; name : string; email : string }.
End ManagerRef.

Module Project.
Record t : Type := {
  _id : string;
  name : string;
  description : string;
  startDate : string;
  endDate : string;
  requiredSkills : list string;
  teamSize : Z;
  status : ProjectStatus;
  managerId : ManagerRef.t;
  createdAt : string;
  updatedAt : string
}.
End Project.

Module EngineerRef.
Record t : Type := {
  _id : string;
  name : string;
  email : string;
  skills : list string;
  seniority : string
}.
End EngineerRef.

Module ProjectRef.
Record t : Type := {
  _id : string;
  name : string;
  description : string;
  status : string
}.
End ProjectRef.

Module Assignment.
Record t : Type := {
  _id : string;
  engineerId : EngineerRef.t;
  projectId : ProjectRef.t;
  allocationPercentage : Z;
  startDate : string;
  endDate : string;
  role : string;
  createdAt : string;
  updatedAt : string
}.
End Assignment.

Module AssignmentCreate.
Record t : Type := {
  engineerId : string;
  projectId : string;
  allocationPercentage : Z;
  startDate : string;
  endDate : string;
  role : string
}.
End AssignmentCreate.

Module UtilizationData.
Record t : Type := {
  engineerId : string;
  name : string;
  maxCapacity : Z;
  currentAllocation : Z;
  utilizationPercentage : Z
}.
End UtilizationData.

(** The outcome of a request: the response body, or the [Error] that the
    service's [handleError] builds and throws. *)
Inductive ApiResult (A : Type) : Type :=
| ApiOk (body : A)
| ApiErr (message : string).
Arguments ApiOk {A} body.
Arguments ApiErr {A} message.

(** ** [src/lib/utils.ts] *)

Module Utils.
Section WithDateLib.
Context {DL : DateLib}.

Definition toDate (d : DateArg) : JsDate :=
  match d with
  | DStr s => parseISO s
  | DObj o => o
  end.

(** [isDateInRange(startDate, endDate)], read at the instant [now] of
    its [new Date()].  Its [catch] branch answers [false]; the parsers
    do not throw on a string, they return the [Invalid Date]. *)
Definition isDateInRange (now : Z) (startDate endDate : DateArg) : bool :=
  let start := toDate startDate in
  let end_ := toDate endDate in
  isAfter (Some now) start && isBefore (Some now) end_.

(** [d.getTime()] *)
Definition getTime (d : JsDate) : JsNum.t :=
  match d with
  | Some t => JsNum.of_Z t
  | None => JsNum.NaN
  end.

(** [calculateProgress(startDate, endDate)] at the instant [now].  The
    two differences, the quotient and the product are operations on
    doubles; [Math.round] is exact on the double it receives.  The
    parsers do not throw, so the [catch] branch is not reached. *)
Definition calculateProgress (now : Z) (startDate endDate : DateArg)
  : JsNum.t :=
  let start := toDate startDate in
  let end_ := toDate endDate in
  if isBefore (Some now) start then JsNum.of_Z 0
  else if isAfter (Some now) end_ then JsNum.of_Z 100
  else
    let totalDuration := JsNum.sub64 (getTime end_) (getTime start) in
    let elapsed := JsNum.sub64 (getTime (Some now)) (getTime start) in
    JsNum.round
      (JsNum.mul64 (JsNum.div64 elapsed totalDuration) (JsNum.of_Z 100)).

(** [getDaysBetween(startDate, endDate)]: the difference and the quotient
    are operations on doubles, [Math.abs] and [Math.ceil] are exact. *)
Definition getDaysBetween (startDate endDate : DateArg) : JsNum.t :=
  let start := toDate startDate in
  let end_ := toDate endDate in
  let diffTime := JsNum.abs (JsNum.sub64 (getTime end_) (getTime start)) in
  JsNum.ceil (JsNum.div64 diffTime (JsNum.of_Z (1000 * 60 * 60 * 24))).

End WithDateLib.

(** [getCapacityColor(utilizationPercentage)] *)
Definition getCapacityColor (utilizationPercentage : JsNum.t) : string :=
  if JsNum.ge utilizationPercentage (JsNum.of_Z 100)
  then "text-red-600 bg-red-50"
  else if JsNum.ge utilizationPercentage (JsNum.of_Z 80)
  then "text-orange-600 bg-orange-50"
  else if JsNum.ge utilizationPercentage (JsNum.of_Z 60)
  then "text-green-600 bg-green-50"
  else "text-blue-600 bg-blue-50".

(** [truncateText(text, maxLength)] *)
Definition truncateText (text : string) (maxLength : Z) : string :=
  if JsString.len text <=? maxLength then text
  else (JsString.slice0 text maxLength ++ "...")%string.

Inductive Strength : Type := weak | medium | strong.

Record PasswordCheck : Type := {
  isValid : bool;
  message : string;
  strength : Strength
}.

Definition in_range (lo hi : Z) (c : ascii) : bool :=
  (lo <=? JsString.code c) && (JsString.code c <=? hi).

(** The code units of the class of special characters of
    [validatePassword], in the order of the regular expression. *)
Definition specialChars : list Z :=
  [33; 64; 35; 36; 37; 94; 38; 42; 40; 41; 44; 46; 63; 34; 58;
   123; 125; 124; 60; 62].

Definition hasUpperCase (password : string) : bool :=
  existsb (in_range 65 90) (list_ascii_of_string password).
Definition hasLowerCase (password : string) : bool :=
  existsb (in_range 97 122) (list_ascii_of_string password).
Definition hasNumbers (password : string) : bool :=
  existsb (in_range 48 57) (list_ascii_of_string password).
Definition hasSpecialChar (password : string) : bool :=
  existsb (fun c => existsb (Z.eqb (JsString.code c)) specialChars)
          (list_ascii_of_string password).

(** [[...].filter(Boolean).length] *)
Definition criteriaCount (password : string) : Z :=
  Z.of_nat (List.length
              (filter (fun b : bool => b)
                 [hasUpperCase password; hasLowerCase password;
                  hasNumbers password; hasSpecialChar password])).

Definition validatePassword (password : string) : PasswordCheck :=
  if JsString.len password <? 8 then
    {| isValid := false;
       message := "Password must be at least 8 characters long";
       strength := weak |}
  else if criteriaCount password <? 2 then
    {| isValid := false;
       message := "Password should include uppercase, lowercase, numbers, and special characters";
       strength := weak |}
  else if criteriaCount password <? 3 then
    {| isValid := true; message := "Password strength: Medium";
       strength := medium |}
  else
    {| isValid := true; message := "Password strength: Strong";
       strength := strong |}.

(** [ToInt32] on an integer. *)
Definition toInt32 (z : Z) : Z := (z + 2 ^ 31) mod 2 ^ 32 - 2 ^ 31.

(** [hash << 5] *)
Definition shl5 (hash : Z) : Z := toInt32 (toInt32 hash * 32).

Definition avatarColors : list string :=
  ["bg-red-500"; "bg-blue-500"; "bg-green-500"; "bg-yellow-500";
   "bg-purple-500"; "bg-pink-500"; "bg-indigo-500"; "bg-teal-500"].

(** The hash loop of [generateAvatarColor]:
    [hash = seed.charCodeAt(i) + ((hash << 5) - hash)]. *)
Definition avatarHash (seed : string) : Z :=
  fold_left (fun hash c => JsString.code c + (shl5 hash - hash))
            (list_ascii_of_string seed) 0.

(** [generateAvatarColor(seed)]: [colors[Math.abs(hash) % colors.length]],
    [None] standing for [undefined]. *)
Definition generateAvatarColor (seed : string) : option string :=
  let index := Z.abs (avatarHash seed)
               mod Z.of_nat (List.length avatarColors) in
  nth_error avatarColors (Z.to_nat index).

End Utils.

(** ** Observable effects

    The requests sent to the REST server and what the page shows. *)
Inductive Event : Type :=
| GetEngineers
| GetEngineerCapacity (engineerId startDate endDate : string)
| PostAssignment (data : AssignmentCreate.t)
| PutAssignment (id : string) (data : AssignmentCreate.t)
| DeleteAssignment (id : string)
| ConsoleError (msg : string)
| Alert (msg : string)
| FormReset.

(** ** [src/contexts/AppContext.tsx] *)

Module AppContext.

Record AppState : Type := {
  engineers : list User.t;
  engineersLoading : bool;
  engineersError : option string;
  projects : list Project.t;
  projectsLoading : bool;
  projectsError : option string;
  assignments : list Assignment.t;
  assignmentsLoading : bool;
  assignmentsError : option string;
  utilizationData : list UtilizationData.t;
  analyticsLoading : bool;
  analyticsError : option string;
  isCreating : bool;
  isUpdating : bool;
  isDeleting : bool
}.

Inductive AppAction : Type :=
| LOAD_ENGINEERS_START
| LOAD_ENGINEERS_SUCCESS (payload : list User.t)
| LOAD_ENGINEERS_FAILURE (payload : string)
| LOAD_PROJECTS_START
| LOAD_PROJECTS_SUCCESS (payload : list Project.t)
| LOAD_PROJECTS_FAILURE (payload : string)
| CREATE_PROJECT_START
| CREATE_PROJECT_SUCCESS (payload : Project.t)
| CREATE_PROJECT_FAILURE (payload : string)
| UPDATE_PROJECT_START
| UPDATE_PROJECT_SUCCESS (payload : Project.t)
| UPDATE_PROJECT_FAILURE (payload : string)
| DELETE_PROJECT_START
| DELETE_PROJECT_SUCCESS (payload : string)
| DELETE_PROJECT_FAILURE (payload : string)
| LOAD_ASSIGNMENTS_START
| LOAD_ASSIGNMENTS_SUCCESS (payload : list Assignment.t)
| LOAD_ASSIGNMENTS_FAILURE (payload : string)
| CREATE_ASSIGNMENT_START
| CREATE_ASSIGNMENT_SUCCESS (payload : Assignment.t)
| CREATE_ASSIGNMENT_FAILURE (payload : string)
| UPDATE_ASSIGNMENT_START
| UPDATE_ASSIGNMENT_SUCCESS (payload : Assignment.t)
| UPDATE_ASSIGNMENT_FAILURE (payload : string)
| DELETE_ASSIGNMENT_START
| DELETE_ASSIGNMENT_SUCCESS (payload : string)
| DELETE_ASSIGNMENT_FAILURE (payload : string)
| LOAD_ANALYTICS_START
| LOAD_ANALYTICS_SUCCESS (payload : list UtilizationData.t)
| LOAD_ANALYTICS_FAILURE (payload : string)
| CLEAR_ERROR (payload : string)
| RESET_STATE.

Definition initialState : AppState := {|
  engineers := []; engineersLoading := false; engineersError := None;
  projects := []; projectsLoading := false; projectsError := None;
  assignments := []; assignmentsLoading := false; assignmentsError := None;
  utilizationData := []; analyticsLoading := false; analyticsError := None;
  isCreating := false; isUpdating := false; isDeleting := false |}.

(** The object spread [{ ...state, field: v }], one setter per field. *)

Definition set_engineers (v : list User.t) (s : AppState) : AppState :=
  {|
     engineers := v; engineersLoading := engineersLoading s; engineersError := engineersError s;
     projects := projects s; projectsLoading := projectsLoading s; projectsError := projectsError s;
     assignments := assignments s; assignmentsLoading := assignmentsLoading s; assignmentsError := assignmentsError s;
     utilizationData := utilizationData s; analyticsLoading := analyticsLoading s; analyticsError := analyticsError s;
     isCreating := isCreating s; isUpdating := isUpdating s; isDeleting := isDeleting s |}.

Definition set_engineersLoading (v : bool) (s : AppState) : AppState :=
  {|
     engineers := engineers s; engineersLoading := v; engineersError := engineersError s;
     projects := projects s; projectsLoading := projectsLoading s; projectsError := projectsError s;
     assignments := assignments s; assignmentsLoading := assignmentsLoading s; assignmentsError := assignmentsError s;
     utilizationData := utilizationData s; analyticsLoading := analyticsLoading s; analyticsError := analyticsError s;
     isCreating := isCreating s; isUpdating := isUpdating s; isDeleting := isDeleting s |}.

Definition set_engineersError (v : option string) (s : AppState) : AppState :=
  {|
     engineers := engineers s; engineersLoading := engineersLoading s; engineersError := v;
     projects := projects s; projectsLoading := projectsLoading s; projectsError := projectsError s;
     assignments := assignments s; assignmentsLoading := assignmentsLoading s; assignmentsError := assignmentsError s;
     utilizationData := utilizationData s; analyticsLoading := analyticsLoading s; analyticsError := analyticsError s;
     isCreating := isCreating s; isUpdating := isUpdating s; isDeleting := isDeleting s |}.

Definition set_projects (v : list Project.t) (s : AppState) : AppState :=
  {|
     engineers := engineers s; engineersLoading := engineersLoading s; engineersError := engineersError s;
     projects := v; projectsLoading := projectsLoading s; projectsError := projectsError s;
     assignments := assignments s; assignmentsLoading := assignmentsLoading s; assignmentsError := assignmentsError s;
     utilizationData := utilizationData s; analyticsLoading := analyticsLoading s; analyticsError := analyticsError s;
     isCreating := isCreating s; isUpdating := isUpdating s; isDeleting := isDeleting s |}.

Definition set_projectsLoading (v : bool) (s : AppState) : AppState :=
  {|
     engineers := engineers s; engineersLoading := engineersLoading s; engineersError := engineersError s;
     projects := projects s; projectsLoading := v; projectsError := projectsError s;
     assignments := assignments s; assignmentsLoading := assignmentsLoading s; assignmentsError := assignmentsError s;
     utilizationData := utilizationData s; analyticsLoading := analyticsLoading s; analyticsError := analyticsError s;
     isCreating := isCreating s; isUpdating := isUpdating s; isDeleting := isDeleting s |}.

Definition set_projectsError (v : option string) (s : AppState) : AppState :=
  {|
     engineers := engineers s; engineersLoading := engineersLoading s; engineersError := engineersError s;
     projects := projects s; projectsLoading := projectsLoading s; projectsError := v;
     assignments := assignments s; assignmentsLoading := assignmentsLoading s; assignmentsError := assignmentsError s;
     utilizationData := utilizationData s; analyticsLoading := analyticsLoading s; analyticsError := analyticsError s;
     isCreating := isCreating s; isUpdating := isUpdating s; isDeleting := isDeleting s |}.

Definition set_assignments (v : list Assignment.t) (s : AppState) : AppState :=
  {|
     engineers := engineers s; engineersLoading := engineersLoading s; engineersError := engineersError s;
     projects := projects s; projectsLoading := projectsLoading s; projectsError := projectsError s;
     assignments := v; assignmentsLoading := assignmentsLoading s; assignmentsError := assignmentsError s;
     utilizationData := utilizationData s; analyticsLoading := analyticsLoading s; analyticsError := analyticsError s;
     isCreating := isCreating s; isUpdating := isUpdating s; isDeleting := isDeleting s |}.

Definition set_assignmentsLoading (v : bool) (s : AppState) : AppState :=
  {|
     engineers := engineers s; engineersLoading := engineersLoading s; engineersError := engineersError s;
     projects := projects s; projectsLoading := projectsLoading s; projectsError := projectsError s;
     assignments := assignments s; assignmentsLoading := v; assignmentsError := assignmentsError s;
     utilizationData := utilizationData s; analyticsLoading := analyticsLoading s; analyticsError := analyticsError s;
     isCreating := isCreating s; isUpdating := isUpdating s; isDeleting := isDeleting s |}.

Definition set_assignmentsError (v : option string) (s : AppState) : AppState :=
  {|
     engineers := engineers s; engineersLoading := engineersLoading s; engineersError := engineersError s;
     projects := projects s; projectsLoading := projectsLoading s; projectsError := projectsError s;
     assignments := assignments s; assignmentsLoading := assignmentsLoading s; assignmentsError := v;
     utilizationData := utilizationData s; analyticsLoading := analyticsLoading s; analyticsError := analyticsError s;
     isCreating := isCreating s; isUpdating := isUpdating s; isDeleting := isDeleting s |}.

Definition set_utilizationData (v : list UtilizationData.t) (s : AppState) : AppState :=
  {|
     engineers := engineers s; engineersLoading := engineersLoading s; engineersError := engineersError s;
     projects := projects s; projectsLoading := projectsLoading s; projectsError := projectsError s;
     assignments := assignments s; assignmentsLoading := assignmentsLoading s; assignmentsError := assignmentsError s;
     utilizationData := v; analyticsLoading := analyticsLoading s; analyticsError := analyticsError s;
     isCreating := isCreating s; isUpdating := isUpdating s; isDeleting := isDeleting s |}.

Definition set_analyticsLoading (v : bool) (s : AppState) : AppState :=
  {|
     engineers := engineers s; engineersLoading := engineersLoading s; engineersError := engineersError s;
     projects := projects s; projectsLoading := projectsLoading s; projectsError := projectsError s;
     assignments := assignments s; assignmentsLoading := assignmentsLoading s; assignmentsError := assignmentsError s;
     utilizationData := utilizationData s; analyticsLoading := v; analyticsError := analyticsError s;
     isCreating := isCreating s; isUpdating := isUpdating s; isDeleting := isDeleting s |}.

Definition set_analyticsError (v : option string) (s : AppState) : AppState :=
  {|
     engineers := engineers s; engineersLoading := engineersLoading s; engineersError := engineersError s;
     projects := projects s; projectsLoading := projectsLoading s; projectsError := projectsError s;
     assignments := assignments s; assignmentsLoading := assignmentsLoading s; assignmentsError := assignmentsError s;
     utilizationData := utilizationData s; analyticsLoading := analyticsLoading s; analyticsError := v;
     isCreating := isCreating s; isUpdating := isUpdating s; isDeleting := isDeleting s |}.

Definition set_isCreating (v : bool) (s : AppState) : AppState :=
  {|
     engineers := engineers s; engineersLoading := engineersLoading s; engineersError := engineersError s;
     projects := projects s; projectsLoading := projectsLoading s; projectsError := projectsError s;
     assignments := assignments s; assignmentsLoading := assignmentsLoading s; assignmentsError := assignmentsError s;
     utilizationData := utilizationData s; analyticsLoading := analyticsLoading s; analyticsError := analyticsError s;
     isCreating := v; isUpdating := isUpdating s; isDeleting := isDeleting s |}.

Definition set_isUpdating (v : bool) (s : AppState) : AppState :=
  {|
     engineers := engineers s; engineersLoading := engineersLoading s; engineersError := engineersError s;
     projects := projects s; projectsLoading := projectsLoading s; projectsError := projectsError s;
     assignments := assignments s; assignmentsLoading := assignmentsLoading s; assignmentsError := assignmentsError s;
     utilizationData := utilizationData s; analyticsLoading := analyticsLoading s; analyticsError := analyticsError s;
     isCreating := isCreating s; isUpdating := v; isDeleting := isDeleting s |}.

Definition set_isDeleting (v : bool) (s : AppState) : AppState :=
  {|
     engineers := engineers s; engineersLoading := engineersLoading s; engineersError := engineersError s;
     projects := projects s; projectsLoading := projectsLoading s; projectsError := projectsError s;
     assignments := assignments s; assignmentsLoading := assignmentsLoading s; assignmentsError := assignmentsError s;
     utilizationData := utilizationData s; analyticsLoading := analyticsLoading s; analyticsError := analyticsError s;
     isCreating := isCreating s; isUpdating := isUpdating s; isDeleting := v |}.

(** The computed key of [CLEAR_ERROR]: [`${errorType}Error`] names one of
    the four error fields, or a property no component reads. *)
Definition clear_error_key (errorType : string) (s : AppState) : AppState :=
  if String.eqb errorType "engineers" then set_engineersError None s
  else if String.eqb errorType "projects" then set_projectsError None s
  else if String.eqb errorType "assignments" then set_assignmentsError None s
  else if String.eqb errorType "analytics" then set_analyticsError None s
  else s.

Definition appReducer (state : AppState) (action : AppAction) : AppState :=
  match action with
  | LOAD_ENGINEERS_START =>
      set_engineersError None (set_engineersLoading true state)
  | LOAD_ENGINEERS_SUCCESS payload =>
      set_engineersError None
        (set_engineersLoading false (set_engineers payload state))
  | LOAD_ENGINEERS_FAILURE payload =>
      set_engineersError (Some payload) (set_engineersLoading false state)

  | LOAD_PROJECTS_START =>
      set_projectsError None (set_projectsLoading true state)
  | LOAD_PROJECTS_SUCCESS payload =>
      set_projectsError None
        (set_projectsLoading false (set_projects payload state))
  | LOAD_PROJECTS_FAILURE payload =>
      set_projectsError (Some payload) (set_projectsLoading false state)

  | CREATE_PROJECT_START =>
      set_projectsError None (set_isCreating true state)
  | CREATE_PROJECT_SUCCESS payload =>
      set_projectsError None
        (set_isCreating false (set_projects (payload :: projects state) state))
  | CREATE_PROJECT_FAILURE payload =>
      set_projectsError (Some payload) (set_isCreating false state)

  | UPDATE_PROJECT_START =>
      set_projectsError None (set_isUpdating true state)
  | UPDATE_PROJECT_SUCCESS payload =>
      set_projectsError None
        (set_isUpdating false
           (set_projects
              (map (fun project =>
                      if String.eqb (Project._id project) (Project._id payload)
                      then payload else project)
                   (projects state))
              state))
  | UPDATE_PROJECT_FAILURE payload =>
      set_projectsError (Some payload) (set_isUpdating false state)

  | DELETE_PROJECT_START =>
      set_projectsError None (set_isDeleting true state)
  | DELETE_PROJECT_SUCCESS payload =>
      set_projectsError None
        (set_isDeleting false
           (set_projects
              (filter (fun project =>
                         negb (String.eqb (Project._id project) payload))
                      (projects state))
              state))
  | DELETE_PROJECT_FAILURE payload =>
      set_projectsError (Some payload) (set_isDeleting false state)

  | LOAD_ASSIGNMENTS_START =>
      set_assignmentsError None (set_assignmentsLoading true state)
  | LOAD_ASSIGNMENTS_SUCCESS payload =>
      set_assignmentsError None
        (set_assignmentsLoading false (set_assignments payload state))
  | LOAD_ASSIGNMENTS_FAILURE payload =>
      set_assignmentsError (Some payload) (set_assignmentsLoading false state)

  | CREATE_ASSIGNMENT_START =>
      set_assignmentsError None (set_isCreating true state)
  | CREATE_ASSIGNMENT_SUCCESS payload =>
      set_assignmentsError None
        (set_isCreating false
           (set_assignments (payload :: assignments state) state))
  | CREATE_ASSIGNMENT_FAILURE payload =>
      set_assignmentsError (Some payload) (set_isCreating false state)

  | UPDATE_ASSIGNMENT_START =>
      set_assignmentsError None (set_isUpdating true state)
  | UPDATE_ASSIGNMENT_SUCCESS payload =>
      set_assignmentsError None
        (set_isUpdating false
           (set_assignments
              (map (fun assignment =>
                      if String.eqb (Assignment._id assignment)
                                    (Assignment._id payload)
                      then payload else assignment)
                   (assignments state))
              state))
  | UPDATE_ASSIGNMENT_FAILURE payload =>
      set_assignmentsError (Some payload) (set_isUpdating false state)

  | DELETE_ASSIGNMENT_START =>
      set_assignmentsError None (set_isDeleting true state)
  | DELETE_ASSIGNMENT_SUCCESS payload =>
      set_assignmentsError None
        (set_isDeleting false
           (set_assignments
              (filter (fun assignment =>
                         negb (String.eqb (Assignment._id assignment) payload))
                      (assignments state))
              state))
  | DELETE_ASSIGNMENT_FAILURE payload =>
      set_assignmentsError (Some payload) (set_isDeleting false state)

  | LOAD_ANALYTICS_START =>
      set_analyticsError None (set_analyticsLoading true state)
  | LOAD_ANALYTICS_SUCCESS payload =>
      set_analyticsError None
        (set_analyticsLoading false (set_utilizationData payload state))
  | LOAD_ANALYTICS_FAILURE payload =>
      set_analyticsError (Some payload) (set_analyticsLoading false state)

  | CLEAR_ERROR errorType => clear_error_key errorType state
  | RESET_STATE => initialState
  end.

(** [dispatch] of several actions in program order. *)
Definition dispatch_all (actions : list AppAction) (s : AppState) : AppState :=
  fold_left appReducer actions s.

(** A settled [Promise<void>]. *)
Inductive Settled : Type :=
| Resolved
| Rejected (message : string).

(** The state after an operation, what it emitted, and how it settled. *)
Record Run : Type := {
  state_after : AppState;
  emitted : list Event;
  settled : Settled
}.

(** [loadEngineers]: never rejects. *)
Definition loadEngineers (resp : ApiResult (list User.t)) (s : AppState)
  : AppState * list Event :=
  let s1 := appReducer s LOAD_ENGINEERS_START in
  match resp with
  | ApiOk engineers =>
      (appReducer s1 (LOAD_ENGINEERS_SUCCESS engineers), [GetEngineers])
  | ApiErr message =>
      (appReducer s1 (LOAD_ENGINEERS_FAILURE message), [GetEngineers])
  end.

(** [getEngineerCapacity]: the available capacity the server answers, and
    [0] when the request fails. *)
Definition getEngineerCapacity (engineerId startDate endDate : string)
    (resp : ApiResult Z) : Z * list Event :=
  match resp with
  | ApiOk availableCapacity =>
      (availableCapacity, [GetEngineerCapacity engineerId startDate endDate])
  | ApiErr _ =>
      (0, [GetEngineerCapacity engineerId startDate endDate;
           ConsoleError "Failed to get engineer capacity:"])
  end.

Definition createAssignment (assignmentData : AssignmentCreate.t)
    (resp : ApiResult Assignment.t) (engineersResp : ApiResult (list User.t))
    (s : AppState) : Run :=
  let s1 := appReducer s CREATE_ASSIGNMENT_START in
  match resp with
  | ApiOk assignment =>
      let s2 := appReducer s1 (CREATE_ASSIGNMENT_SUCCESS assignment) in
      let '(s3, ev) := loadEngineers engineersResp s2 in
      {| state_after := s3;
         emitted := PostAssignment assignmentData :: ev;
         settled := Resolved |}
  | ApiErr message =>
      {| state_after := appReducer s1 (CREATE_ASSIGNMENT_FAILURE message);
         emitted := [PostAssignment assignmentData];
         settled := Rejected message |}
  end.

Definition updateAssignment (id : string) (assignmentData : AssignmentCreate.t)
    (resp : ApiResult Assignment.t) (engineersResp : ApiResult (list User.t))
    (s : AppState) : Run :=
  let s1 := appReducer s UPDATE_ASSIGNMENT_START in
  match resp with
  | ApiOk assignment =>
      let s2 := appReducer s1 (UPDATE_ASSIGNMENT_SUCCESS assignment) in
      let '(s3, ev) := loadEngineers engineersResp s2 in
      {| state_after := s3;
         emitted := PutAssignment id assignmentData :: ev;
         settled := Resolved |}
  | ApiErr message =>
      {| state_after := appReducer s1 (UPDATE_ASSIGNMENT_FAILURE message);
         emitted := [PutAssignment id assignmentData];
         settled := Rejected message |}
  end.

Definition deleteAssignment (id : string)
    (resp : ApiResult unit) (engineersResp : ApiResult (list User.t))
    (s : AppState) : Run :=
  let s1 := appReducer s DELETE_ASSIGNMENT_START in
  match resp with
  | ApiOk _ =>
      let s2 := appReducer s1 (DELETE_ASSIGNMENT_SUCCESS id) in
      let '(s3, ev) := loadEngineers engineersResp s2 in
      {| state_after := s3;
         emitted := DeleteAssignment id :: ev;
         settled := Resolved |}
  | ApiErr message =>
      {| state_after := appReducer s1 (DELETE_ASSIGNMENT_FAILURE message);
         emitted := [DeleteAssignment id];
         settled := Rejected message |}
  end.

(** [loadProjects], [loadAssignments] and [loadAnalytics]: like
    [loadEngineers] they catch the failure and never reject. *)
Definition loadProjects (resp : ApiResult (list Project.t)) (s : AppState)
  : AppState :=
  let s1 := appReducer s LOAD_PROJECTS_START in
  match resp with
  | ApiOk projects => appReducer s1 (LOAD_PROJECTS_SUCCESS projects)
  | ApiErr message => appReducer s1 (LOAD_PROJECTS_FAILURE message)
  end.

Definition loadAssignments (resp : ApiResult (list Assignment.t))
    (s : AppState) : AppState :=
  let s1 := appReducer s LOAD_ASSIGNMENTS_START in
  match resp with
  | ApiOk assignments => appReducer s1 (LOAD_ASSIGNMENTS_SUCCESS assignments)
  | ApiErr message => appReducer s1 (LOAD_ASSIGNMENTS_FAILURE message)
  end.

Definition loadAnalytics (resp : ApiResult (list UtilizationData.t))
    (s : AppState) : AppState :=
  let s1 := appReducer s LOAD_ANALYTICS_START in
  match resp with
  | ApiOk utilizationData =>
      appReducer s1 (LOAD_ANALYTICS_SUCCESS utilizationData)
  | ApiErr message => appReducer s1 (LOAD_ANALYTICS_FAILURE message)
  end.

(** [createProject], [updateProject] and [deleteProject]: the state they
    leave and how they settle, given the answer of the server.  The body
    of the request does not reach the reducer and is left out.  They do
    not reload the engineers. *)
Definition createProject (resp : ApiResult Project.t) (s : AppState)
  : AppState * Settled :=
  let s1 := appReducer s CREATE_PROJECT_START in
  match resp with
  | ApiOk project => (appReducer s1 (CREATE_PROJECT_SUCCESS project), Resolved)
  | ApiErr message =>
      (appReducer s1 (CREATE_PROJECT_FAILURE message), Rejected message)
  end.

Definition updateProject (id : string) (resp : ApiResult Project.t)
    (s : AppState) : AppState * Settled :=
  let s1 := appReducer s UPDATE_PROJECT_START in
  match resp with
  | ApiOk project => (appReducer s1 (UPDATE_PROJECT_SUCCESS project), Resolved)
  | ApiErr message =>
      (appReducer s1 (UPDATE_PROJECT_FAILURE message), Rejected message)
  end.

Definition deleteProject (id : string) (resp : ApiResult unit) (s : AppState)
  : AppState * Settled :=
  let s1 := appReducer s DELETE_PROJECT_START in
  match resp with
  | ApiOk _ => (appReducer s1 (DELETE_PROJECT_SUCCESS id), Resolved)
  | ApiErr message =>
      (appReducer s1 (DELETE_PROJECT_FAILURE message), Rejected message)
  end.

(** [clearError(errorType)] *)
Definition clearError (errorType : string) (s : AppState) : AppState :=
  appReducer s (CLEAR_ERROR errorType).

End AppContext.

(** ** [src/contexts/AuthContext.tsx] *)

Module AuthContext.

Record AuthState : Type := {
  user : option User.t;
  isLoading : bool;
  isAuthenticated : bool;
  error : option string
}.

Inductive AuthAction : Type :=
| LOGIN_START
| LOGIN_SUCCESS (payload : User.t)
| LOGIN_FAILURE (payload : string)
| LOGOUT
| REGISTER_START
| REGISTER_SUCCESS (payload : User.t)
| REGISTER_FAILURE (payload : string)
| LOAD_USER_START
| LOAD_USER_SUCCESS (payload : User.t)
| LOAD_USER_FAILURE (payload : string)
| CLEAR_ERROR.

Definition initialState : AuthState :=
  {| user := None; isLoading := false; isAuthenticated := false;
     error := None |}.

Definition authReducer (state : AuthState) (action : AuthAction) : AuthState :=
  match action with
  | LOGIN_START | REGISTER_START | LOAD_USER_START =>
      {| user := user state; isLoading := true;
         isAuthenticated := isAuthenticated state; error := None |}
  | LOGIN_SUCCESS payload | REGISTER_SUCCESS payload
  | LOAD_USER_SUCCESS payload =>
      {| user := Some payload; isLoading := false;
         isAuthenticated := true; error := None |}
  | LOGIN_FAILURE payload | REGISTER_FAILURE payload
  | LOAD_USER_FAILURE payload =>
      {| user := None; isLoading := false;
         isAuthenticated := false; error := Some payload |}
  | LOGOUT => initialState
  | CLEAR_ERROR =>
      {| user := user state; isLoading := isLoading state;
         isAuthenticated := isAuthenticated state; error := None |}
  end.

(** [state.user?.role === "manager"] and [=== "engineer"] *)
Definition isManager (state : AuthState) : bool :=
  match user state with
  | Some u => match User.role u with manager => true | engineer => false end
  | None => false
  end.

Definition isEngineer (state : AuthState) : bool :=
  match user state with
  | Some u => match User.role u with engineer => true | manager => false end
  | None => false
  end.

(** [login] and [register]: how the reducer state ends and how the
    promise settles, given the answer of the auth service.  The
    credentials only travel to the service, and the token the service
    keeps in local storage is not part of this state. *)
Definition login (resp : ApiResult User.t) (s : AuthState)
  : AuthState * AppContext.Settled :=
  let s1 := authReducer s LOGIN_START in
  match resp with
  | ApiOk u => (authReducer s1 (LOGIN_SUCCESS u), AppContext.Resolved)
  | ApiErr message =>
      (authReducer s1 (LOGIN_FAILURE message), AppContext.Rejected message)
  end.

Definition register (resp : ApiResult User.t) (s : AuthState)
  : AuthState * AppContext.Settled :=
  let s1 := authReducer s REGISTER_START in
  match resp with
  | ApiOk u => (authReducer s1 (REGISTER_SUCCESS u), AppContext.Resolved)
  | ApiErr message =>
      (authReducer s1 (REGISTER_FAILURE message), AppContext.Rejected message)
  end.

(** [initializeAuth], [hasToken] being [authService.isAuthenticated()]
    and [resp] the answer to the profile request. *)
Definition initializeAuth (hasToken : bool) (resp : ApiResult User.t)
    (s : AuthState) : AuthState :=
  if hasToken then
    let s1 := authReducer s LOAD_USER_START in
    match resp with
    | ApiOk u => authReducer s1 (LOAD_USER_SUCCESS u)
    | ApiErr _ =>
        authReducer s1
          (LOAD_USER_FAILURE "Session expired. Please log in again.")
    end
  else s.

Definition logout (s : AuthState) : AuthState := authReducer s LOGOUT.

(** What a guarded component shows. *)
Inductive Shown : Type :=
| Spinner
| AuthenticationRequired
| ManagerAccessRequired
| Component.

Definition withAuth (state : AuthState) : Shown :=
  if isLoading state then Spinner
  else if negb (isAuthenticated state) then AuthenticationRequired
  else Component.

Definition withManagerAuth (state : AuthState) : Shown :=
  if isLoading state then Spinner
  else if negb (isAuthenticated state) then AuthenticationRequired
  else if negb (isManager state) then ManagerAccessRequired
  else Component.

End AuthContext.

(** ** [src/pages/AssignmentsPage.tsx] *)

Module AssignmentsPage.

(** The values of the form before validation; the percentage input is
    read with [valueAsNumber], an empty input being [NaN] ([None]). *)
Record FormValues : Type := {
  engineerId : string;
  projectId : string;
  allocationPercentage : option Z;
  startDate : string;
  endDate : string;
  role : string
}.

(** [AssignmentFormData], the type the schema infers. *)
Definition AssignmentFormData : Type := AssignmentCreate.t.

Definition min1 (s : string) : bool := 1 <=? Z.of_nat (String.length s).

Section WithDateLib.
Context {DL : DateLib}.

(** The [.refine] of [assignmentSchema]: [end > start]. *)
Definition refine_dates (startDate endDate : string) : bool :=
  let start := newDate startDate in
  let end_ := newDate endDate in
  date_gt end_ start.

(** [assignmentSchema]: the parsed data when every field check and the
    refinement pass, and nothing otherwise. *)
Definition assignmentSchema (v : FormValues) : option AssignmentFormData :=
  match allocationPercentage v with
  | Some p =>
      if min1 (engineerId v) && min1 (projectId v)
         && (1 <=? p) && (p <=? 100)
         && min1 (startDate v) && min1 (endDate v) && min1 (role v)
         && refine_dates (startDate v) (endDate v)
      then Some {| AssignmentCreate.engineerId := engineerId v;
                   AssignmentCreate.projectId := projectId v;
                   AssignmentCreate.allocationPercentage := p;
                   AssignmentCreate.startDate := startDate v;
                   AssignmentCreate.endDate := endDate v;
                   AssignmentCreate.role := role v |}
      else None
  | None => None
  end.

End WithDateLib.

Record CapacityInfo : Type := {
  available : Z;
  message : string
}.

(** The [useState] cells of the page. *)
Record PageState : Type := {
  isCreateDialogOpen : bool;
  isEditDialogOpen : bool;
  editingAssignment : option Assignment.t;
  capacityInfo : option CapacityInfo
}.

Definition setCapacityInfo (c : option CapacityInfo) (p : PageState)
  : PageState :=
  {| isCreateDialogOpen := isCreateDialogOpen p;
     isEditDialogOpen := isEditDialogOpen p;
     editingAssignment := editingAssignment p;
     capacityInfo := c |}.

(** The two dialogs receive [setIsCreateDialogOpen] and
    [setIsEditDialogOpen] as their [onOpenChange]: opening a dialog by
    its trigger, or closing it by its own controls, runs the setter and
    nothing else. *)
Definition setIsCreateDialogOpen (b : bool) (p : PageState) : PageState :=
  {| isCreateDialogOpen := b;
     isEditDialogOpen := isEditDialogOpen p;
     editingAssignment := editingAssignment p;
     capacityInfo := capacityInfo p |}.

Definition setIsEditDialogOpen (b : bool) (p : PageState) : PageState :=
  {| isCreateDialogOpen := isCreateDialogOpen p;
     isEditDialogOpen := b;
     editingAssignment := editingAssignment p;
     capacityInfo := capacityInfo p |}.

Definition setEditingAssignment (a : option Assignment.t) (p : PageState)
  : PageState :=
  {| isCreateDialogOpen := isCreateDialogOpen p;
     isEditDialogOpen := isEditDialogOpen p;
     editingAssignment := a;
     capacityInfo := capacityInfo p |}.

(** The [checkCapacity] effect, run when the engineer or the dates of the
    form change.  [getEngineerCapacity] catches its own failure, so the
    [catch] branch of the effect is never taken. *)
Definition checkCapacity (engineers : list User.t)
    (watchedEngineerId watchedStartDate watchedEndDate : string)
    (resp : ApiResult Z) (p : PageState) : PageState * list Event :=
  if truthy_str watchedEngineerId && truthy_str watchedStartDate
     && truthy_str watchedEndDate
  then
    let '(capacity, ev) :=
      AppContext.getEngineerCapacity
        watchedEngineerId watchedStartDate watchedEndDate resp in
    match find (fun e => String.eqb (User._id e) watchedEngineerId) engineers
    with
    | Some _ =>
        (setCapacityInfo
           (Some {| available := capacity;
                    message :=
                      if 0 <? capacity
                      then show capacity ++ "% capacity available during this period"
                      else "Engineer is fully allocated during this period" |})
           p, ev)
    | None => (p, ev)
    end
  else (p, []).

(** The guard at the head of [onSubmit]:
    [!editingAssignment && capacityInfo &&
     data.allocationPercentage > capacityInfo.available]. *)
Definition exceedsAvailable (p : PageState) (data : AssignmentFormData)
  : option CapacityInfo :=
  match editingAssignment p, capacityInfo p with
  | None, Some ci =>
      if available ci <? AssignmentCreate.allocationPercentage data
      then Some ci else None
  | _, _ => None
  end.

(** What a run of a handler leaves behind. *)
Record Outcome : Type := {
  page_after : PageState;
  app_after : AppContext.AppState;
  events : list Event
}.

Definition onSubmit (data : AssignmentFormData)
    (resp : ApiResult Assignment.t) (engineersResp : ApiResult (list User.t))
    (p : PageState) (app : AppContext.AppState) : Outcome :=
  match exceedsAvailable p data with
  | Some ci =>
      {| page_after := p;
         app_after := app;
         events :=
           [Alert ("Engineer only has " ++ show (available ci)
                   ++ "% capacity available. Please reduce the allocation percentage.")] |}
  | None =>
      match editingAssignment p with
      | Some editing =>
          let r := AppContext.updateAssignment
                     (Assignment._id editing) data resp engineersResp app in
          match AppContext.settled r with
          | AppContext.Resolved =>
              {| page_after :=
                   setCapacityInfo None
                     (setEditingAssignment None (setIsEditDialogOpen false p));
                 app_after := AppContext.state_after r;
                 events :=
                   AppContext.emitted r
                   ++ [Alert "Assignment updated successfully!"; FormReset] |}
          | AppContext.Rejected _ =>
              {| page_after := p;
                 app_after := AppContext.state_after r;
                 events :=
                   AppContext.emitted r
                   ++ [ConsoleError "Failed to save assignment:";
                       Alert "Failed to update assignment. Please check the details and try again."] |}
          end
      | None =>
          let r := AppContext.createAssignment data resp engineersResp app in
          match AppContext.settled r with
          | AppContext.Resolved =>
              {| page_after :=
                   setCapacityInfo None (setIsCreateDialogOpen false p);
                 app_after := AppContext.state_after r;
                 events :=
                   AppContext.emitted r
                   ++ [Alert "Assignment created successfully!"; FormReset] |}
          | AppContext.Rejected _ =>
              {| page_after := p;
                 app_after := AppContext.state_after r;
                 events :=
                   AppContext.emitted r
                   ++ [ConsoleError "Failed to save assignment:";
                       Alert "Failed to create assignment. Please check the details and try again."] |}
          end
      end
  end.

(** [handleSubmit(onSubmit)]: the resolver validates the form values with
    [assignmentSchema] and [onSubmit] runs only on the parsed data. *)
Definition handleSubmit {DL : DateLib} (v : FormValues)
    (resp : ApiResult Assignment.t) (engineersResp : ApiResult (list User.t))
    (p : PageState) (app : AppContext.AppState) : Outcome :=
  match assignmentSchema v with
  | Some data => onSubmit data resp engineersResp p app
  | None => {| page_after := p; app_after := app; events := [] |}
  end.

(** [handleEditAssignment]: the assignment becomes the one being edited,
    the form is filled from it (the dates cut at the first [T]) and the
    edit dialog opens. *)
Definition handleEditAssignment (assignment : Assignment.t) (p : PageState)
  : PageState * FormValues :=
  (setIsEditDialogOpen true (setEditingAssignment (Some assignment) p),
   {| engineerId := EngineerRef._id (Assignment.engineerId assignment);
      projectId := ProjectRef._id (Assignment.projectId assignment);
      allocationPercentage := Some (Assignment.allocationPercentage assignment);
      startDate := JsString.split_head "T" (Assignment.startDate assignment);
      endDate := JsString.split_head "T" (Assignment.endDate assignment);
      role := Assignment.role assignment |}).

(** [handleDialogClose(isEdit)], run by the Cancel button of the form;
    the form is reset as well. *)
Definition handleDialogClose (isEdit : bool) (p : PageState) : PageState :=
  setCapacityInfo None
    (if isEdit then setEditingAssignment None (setIsEditDialogOpen false p)
     else setIsCreateDialogOpen false p).

(** [handleDeleteAssignment], [confirmed] being the answer to
    [window.confirm]; the two names it receives only appear in the
    question asked. *)
Definition handleDeleteAssignment (assignmentId : string) (confirmed : bool)
    (resp : ApiResult unit) (engineersResp : ApiResult (list User.t))
    (p : PageState) (app : AppContext.AppState) : Outcome :=
  if confirmed then
    let r := AppContext.deleteAssignment assignmentId resp engineersResp app in
    match AppContext.settled r with
    | AppContext.Resolved =>
        {| page_after := p; app_after := AppContext.state_after r;
           events := AppContext.emitted r
                     ++ [Alert "Assignment removed successfully!"] |}
    | AppContext.Rejected _ =>
        {| page_after := p; app_after := AppContext.state_after r;
           events := AppContext.emitted r
                     ++ [ConsoleError "Failed to delete assignment:";
                         Alert "Failed to remove assignment. Please try again."] |}
    end
  else {| page_after := p; app_after := app; events := [] |}.

End AssignmentsPage.

(** ** [src/pages/EngineerDashboard.tsx] *)

Module EngineerDashboard.
Section WithDateLib.
Context {DL : DateLib}.

(** [authState.user?._id || authState.user?.id] *)
Definition userId (user : option User.t) : option string :=
  match user with
  | Some u => if truthy_str (User._id u) then Some (User._id u) else User.id u
  | None => None
  end.

(** [a.engineerId._id === userId] *)
Definition belongsTo (uid : option string) (a : Assignment.t) : bool :=
  match uid with
  | Some s => String.eqb (EngineerRef._id (Assignment.engineerId a)) s
  | None => false
  end.

Definition myAssignments (user : option User.t)
    (assignments : list Assignment.t) : list Assignment.t :=
  filter (belongsTo (userId user)) assignments.

(** [isDateInRange(a.startDate, a.endDate)] on the two date strings. *)
Definition isActive (now : Z) (a : Assignment.t) : bool :=
  Utils.isDateInRange now
    (DStr (Assignment.startDate a)) (DStr (Assignment.endDate a)).

Definition activeAssignments (now : Z) (user : option User.t)
    (assignments : list Assignment.t) : list Assignment.t :=
  filter (isActive now) (myAssignments user assignments).

(** The [reduce] that adds up the allocation percentages. *)
Definition currentWorkload (now : Z) (user : option User.t)
    (assignments : list Assignment.t) : Z :=
  fold_left (fun sum assignment =>
               sum + Assignment.allocationPercentage assignment)
            (activeAssignments now user assignments) 0.

(** The filter of [upcomingAssignments]:
    [new Date(a.startDate) > new Date()]. *)
Definition isUpcoming (now : Z) (a : Assignment.t) : bool :=
  date_gt (newDate (Assignment.startDate a)) (Some now).

Definition upcomingAssignments (now : Z) (user : option User.t)
    (assignments : list Assignment.t) : list Assignment.t :=
  filter (isUpcoming now) (myAssignments user assignments).

End WithDateLib.

(** [authState.user?.maxCapacity || 100] *)
Definition maxCapacity (user : option User.t) : Z :=
  num_or (option_map User.maxCapacity user) 100.

(** [Math.max(0, maxCapacity - currentWorkload)] *)
Definition availableCapacity {DL : DateLib} (now : Z) (user : option User.t)
    (assignments : list Assignment.t) : Z :=
  Z.max 0 (maxCapacity user - currentWorkload now user assignments).

End EngineerDashboard.

(** ** [src/pages/EngineersPage.tsx] *)

Module EngineersPage.

(** [engineer.currentAllocation
       ? (engineer.currentAllocation / engineer.maxCapacity) * 100 : 0] *)
Definition utilizationPercentage (engineer : User.t) : JsNum.t :=
  match User.currentAllocation engineer with
  | Some a =>
      if truthy_num a
      then JsNum.mul
             (JsNum.div (JsNum.of_Z a) (JsNum.of_Z (User.maxCapacity engineer)))
             (JsNum.of_Z 100)
      else JsNum.of_Z 0
  | None => JsNum.of_Z 0
  end.

(** The text under the capacity bar of an engineer's card. *)
Definition utilizationLabel (utilizationPercentage : JsNum.t) : string :=
  if JsNum.gt utilizationPercentage (JsNum.of_Z 100) then "Over-allocated"
  else if JsNum.gt utilizationPercentage (JsNum.of_Z 80)
  then "High utilization"
  else if JsNum.gt utilizationPercentage (JsNum.of_Z 60)
  then "Good utilization"
  else "Available".

(** The figure next to it:
    [engineer.maxCapacity - (engineer.currentAllocation || 0)]. *)
Definition availableShown (engineer : User.t) : Z :=
  User.maxCapacity engineer - num_or (User.currentAllocation engineer) 0.

(** The predicate of [filteredEngineers]; a missing [skills] makes the
    last disjunct [undefined], which the filter reads as false. *)
Definition matchesSearch (searchTerm : string) (engineer : User.t) : bool :=
  JsString.includes (JsString.toLowerCase (User.name engineer))
                    (JsString.toLowerCase searchTerm)
  || JsString.includes (JsString.toLowerCase (User.email engineer))
                       (JsString.toLowerCase searchTerm)
  || match User.skills engineer with
     | Some skills =>
         existsb (fun skill =>
                    JsString.includes (JsString.toLowerCase skill)
                                      (JsString.toLowerCase searchTerm))
                 skills
     | None => false
     end.

Definition filteredEngineers (searchTerm : string) (engineers : list User.t)
  : list User.t :=
  filter (matchesSearch searchTerm) engineers.

End EngineersPage.

(** ** [src/pages/ManagerDashboard.tsx] *)

Module ManagerDashboard.

(** The filter of [overAllocatedEngineers]:
    [e.currentAllocation && e.currentAllocation > e.maxCapacity]. *)
Definition isOverAllocated (e : User.t) : bool :=
  match User.currentAllocation e with
  | Some a => truthy_num a && (User.maxCapacity e <? a)
  | None => false
  end.

Definition overAllocatedEngineers (engineers : list User.t) : Z :=
  Z.of_nat (List.length (filter isOverAllocated engineers)).

(** One term of the [reduce] of [averageUtilization]. *)
Definition utilizationTerm (engineer : User.t) : JsNum.t :=
  let utilization := num_or (User.currentAllocation engineer) 0 in
  JsNum.mul
    (JsNum.div (JsNum.of_Z utilization)
               (JsNum.of_Z (User.maxCapacity engineer)))
    (JsNum.of_Z 100).

Definition averageUtilization (engineers : list User.t) : JsNum.t :=
  if 0 <? Z.of_nat (List.length engineers)
  then JsNum.div
         (fold_left (fun sum engineer =>
                       JsNum.add sum (utilizationTerm engineer))
                    engineers (JsNum.of_Z 0))
         (JsNum.of_Z (Z.of_nat (List.length engineers)))
  else JsNum.of_Z 0.

(** The [utilization] of one point of [utilizationChartData]. *)
Definition chartUtilization (engineer : User.t) : JsNum.t :=
  EngineersPage.utilizationPercentage engineer.

Definition status_eqb (a b : ProjectStatus) : bool :=
  match a, b with
  | planning, planning | active, active | completed, completed => true
  | _, _ => false
  end.

(** [state.projects.filter((p) => p.status === st).length] *)
Definition countStatus (st : ProjectStatus) (projects : list Project.t) : Z :=
  Z.of_nat (List.length
              (filter (fun p => status_eqb (Project.status p) st) projects)).

(** The values of [projectStatusData]: active, planning, completed. *)
Definition projectStatusData (projects : list Project.t) : list (string * Z) :=
  [("Active", countStatus active projects);
   ("Planning", countStatus planning projects);
   ("Completed", countStatus completed projects)].

End ManagerDashboard.

(** ** [src/pages/AnalyticsPage.tsx] *)

Module AnalyticsPage.

(** The page computes everything inside one [useMemo] callback, which
    returns [null] at once unless engineers, projects and assignments
    are all loaded.  The definitions below are the constants of that
    callback, as functions of the collections; [analyticsData], at the
    end of the module, puts them behind the test. *)

(** The numeric fields of one row of [utilizationAnalysis]. *)
Record UtilizationRow : Type := {
  fullName : string;
  utilization : JsNum.t;
  capacity : Z;
  allocated : Z;
  available : Z
}.

Definition utilizationRow (engineer : User.t) : UtilizationRow :=
  let currentAllocation := num_or (User.currentAllocation engineer) 0 in
  let utilizationPercentage :=
    JsNum.mul
      (JsNum.div (JsNum.of_Z currentAllocation)
                 (JsNum.of_Z (User.maxCapacity engineer)))
      (JsNum.of_Z 100) in
  {| fullName := User.name engineer;
     utilization := utilizationPercentage;
     capacity := User.maxCapacity engineer;
     allocated := currentAllocation;
     available := User.maxCapacity engineer - currentAllocation |}.

Definition utilizationAnalysis (engineers : list User.t)
  : list UtilizationRow :=
  map utilizationRow engineers.

(** The filter of the KPI [overAllocatedEngineers]:
    [eng.utilization > 100]. *)
Definition isOverAllocated (eng : UtilizationRow) : bool :=
  JsNum.gt (utilization eng) (JsNum.of_Z 100).

Definition overAllocatedEngineers (engineers : list User.t) : Z :=
  Z.of_nat (List.length (filter isOverAllocated (utilizationAnalysis engineers))).

(** The test at the head of the callback, negated: the three
    collections are all non-empty. *)
Definition hasData (engineers : list User.t) (projects : list Project.t)
    (assignments : list Assignment.t) : bool :=
  negb (Nat.eqb (List.length engineers) 0)
  && negb (Nat.eqb (List.length projects) 0)
  && negb (Nat.eqb (List.length assignments) 0).

(** One entry of [projectStatusData], with the percentage that the
    [forEach] writes into it. *)
Record StatusRow : Type := {
  statusName : string;
  value : Z;
  percentage : JsNum.t
}.

Definition statusRow (name : string) (st : ProjectStatus)
    (projects : list Project.t) : StatusRow :=
  let v := ManagerDashboard.countStatus st projects in
  let totalProjects := Z.of_nat (List.length projects) in
  {| statusName := name;
     value := v;
     percentage :=
       if 0 <? totalProjects
       then JsNum.mul (JsNum.div (JsNum.of_Z v) (JsNum.of_Z totalProjects))
                      (JsNum.of_Z 100)
       else JsNum.of_Z 0 |}.

(** [projectStatusData]; inside the callback the project list is not
    empty, so that the [: 0] of the percentage is not reached there. *)
Definition projectStatusData (projects : list Project.t) : list StatusRow :=
  [statusRow "Planning" planning projects;
   statusRow "Active" active projects;
   statusRow "Completed" completed projects].

(** The accumulator of [seniorityWorkload], in insertion order. *)
Record Workload : Type := {
  count : Z;
  totalAllocation : Z;
  totalCapacity : Z
}.

(** [engineer.seniority || "unknown"] *)
Definition seniorityKey (engineer : User.t) : string :=
  match User.seniority engineer with
  | Some junior => "junior"
  | Some mid => "mid"
  | Some senior => "senior"
  | None => "unknown"
  end.

(** One step of the [reduce]: the entry of the key is created with
    zeros when missing, then the engineer is added to it. *)
Fixpoint addTo (key : string) (engineer : User.t)
    (acc : list (string * Workload)) : list (string * Workload) :=
  let add w :=
    {| count := count w + 1;
       totalAllocation :=
         totalAllocation w + num_or (User.currentAllocation engineer) 0;
       totalCapacity :=
         totalCapacity w + num_or (Some (User.maxCapacity engineer)) 100 |} in
  match acc with
  | [] =>
      [(key, add {| count := 0; totalAllocation := 0; totalCapacity := 0 |})]
  | (k, w) :: rest =>
      if String.eqb k key then (k, add w) :: rest
      else (k, w) :: addTo key engineer rest
  end.

Definition seniorityWorkload (engineers : list User.t)
  : list (string * Workload) :=
  fold_left (fun acc engineer => addTo (seniorityKey engineer) engineer acc)
            engineers [].

Record SeniorityRow : Type := {
  level : string;
  engineers : Z;
  avgUtilization : JsNum.t;
  rowCapacity : Z
}.

(** [level.charAt(0).toUpperCase() + level.slice(1)] on the four keys. *)
Definition capitalizeLevel (key : string) : string :=
  match key with
  | String c rest =>
      String (if (97 <=? JsString.code c) && (JsString.code c <=? 122)
              then ascii_of_nat (Z.to_nat (JsString.code c - 32)) else c)
             rest
  | EmptyString => EmptyString
  end.

Definition seniorityData (engineers : list User.t) : list SeniorityRow :=
  map (fun '(key, data) =>
         {| level := capitalizeLevel key;
            engineers := count data;
            avgUtilization :=
              if 0 <? count data
              then JsNum.mul
                     (JsNum.div (JsNum.of_Z (totalAllocation data))
                                (JsNum.of_Z (totalCapacity data)))
                     (JsNum.of_Z 100)
              else JsNum.of_Z 0;
            rowCapacity := totalCapacity data |})
      (seniorityWorkload engineers).

(** The skill match of one row of [assignmentEfficiency]. *)
Definition skillMatch (engineers : list User.t) (projects : list Project.t)
    (assignment : Assignment.t) : JsNum.t :=
  let engineer :=
    find (fun e => match User.id e with
                   | Some i =>
                       String.eqb i
                         (EngineerRef._id (Assignment.engineerId assignment))
                   | None => false
                   end) engineers in
  let project :=
    find (fun p => String.eqb (Project._id p)
                     (ProjectRef._id (Assignment.projectId assignment)))
         projects in
  let engineerSkills :=
    match engineer with
    | Some e => match User.skills e with Some l => l | None => [] end
    | None => []
    end in
  let requiredSkills :=
    match project with
    | Some p => Project.requiredSkills p
    | None => []
    end in
  let matchingSkills :=
    Z.of_nat (List.length
                (filter (fun skill => existsb (String.eqb skill) engineerSkills)
                        requiredSkills)) in
  if 0 <? Z.of_nat (List.length requiredSkills)
  then JsNum.mul
         (JsNum.div (JsNum.of_Z matchingSkills)
                    (JsNum.of_Z (Z.of_nat (List.length requiredSkills))))
         (JsNum.of_Z 100)
  else JsNum.of_Z 0.

(** The [progress] of one row of [projectTimelines]. *)
Definition timelineProgress {DL : DateLib} (now : Z) (project : Project.t)
  : JsNum.t :=
  match Project.status project with
  | active =>
      let totalDuration :=
        Utils.getDaysBetween (DStr (Project.startDate project))
                             (DStr (Project.endDate project)) in
      let elapsed :=
        Utils.getDaysBetween (DStr (Project.startDate project))
                             (DObj (Some now)) in
      JsNum.min (JsNum.of_Z 100)
        (JsNum.max (JsNum.of_Z 0)
           (JsNum.mul (JsNum.div elapsed totalDuration) (JsNum.of_Z 100)))
  | completed => JsNum.of_Z 100
  | planning => JsNum.of_Z 0
  end.

(** The filter of the KPI [underUtilizedEngineers]:
    [eng.utilization < 60]. *)
Definition isUnderUtilized (eng : UtilizationRow) : bool :=
  JsNum.lt (utilization eng) (JsNum.of_Z 60).

Definition underUtilizedEngineers (engineers : list User.t) : Z :=
  Z.of_nat (List.length (filter isUnderUtilized (utilizationAnalysis engineers))).

(** The KPIs [totalTeamCapacity] and [totalAllocatedCapacity]. *)
Definition totalTeamCapacity (engineers : list User.t) : Z :=
  fold_left (fun sum eng => sum + User.maxCapacity eng) engineers 0.

Definition totalAllocatedCapacity (engineers : list User.t) : Z :=
  fold_left (fun sum eng => sum + num_or (User.currentAllocation eng) 0)
            engineers 0.

(** The fields of [kpis] that are counts and sums. *)
Module Kpis.
Record t : Type := {
  overAllocatedEngineers : Z;
  underUtilizedEngineers : Z;
  activeProjectCount : Z;
  totalTeamCapacity : Z;
  totalAllocatedCapacity : Z
}.
End Kpis.

(** The object the [useMemo] returns, without [skillsData] (its keys
    live in a plain object), the rows that read the clock
    ([projectTimelines], [assignmentEfficiency]) and the three averages
    of [kpis]. *)
Module Data.
Record t : Type := {
  utilizationAnalysis : list UtilizationRow;
  projectStatusData : list StatusRow;
  seniorityData : list SeniorityRow;
  kpis : Kpis.t
}.
End Data.

(** [analyticsData]: [None] is the [null] of the early return.  The page
    shows its figures only when this is not [null] (and the analytics
    are not loading); otherwise it shows a spinner. *)
Definition analyticsData (engineers : list User.t) (projects : list Project.t)
    (assignments : list Assignment.t) : option Data.t :=
  if hasData engineers projects assignments then
    Some {| Data.utilizationAnalysis := utilizationAnalysis engineers;
            Data.projectStatusData := projectStatusData projects;
            Data.seniorityData := seniorityData engineers;
            Data.kpis :=
              {| Kpis.overAllocatedEngineers :=
                   overAllocatedEngineers engineers;
                 Kpis.underUtilizedEngineers :=
                   underUtilizedEngineers engineers;
                 Kpis.activeProjectCount :=
                   ManagerDashboard.countStatus active projects;
                 Kpis.totalTeamCapacity := totalTeamCapacity engineers;
                 Kpis.totalAllocatedCapacity :=
                   totalAllocatedCapacity engineers |} |}
  else None.

End AnalyticsPage.

(** ** [src/pages/ProfilePage.tsx] and [src/pages/ProjectsPage.tsx] *)

Module ProfilePage.

(** The state update of [handleSkillToggle]:
    [prev.includes(skill) ? prev.filter((s) => s !== skill)
                          : [...prev, skill]]. *)
Definition handleSkillToggle (skill : string) (prev : list string)
  : list string :=
  if existsb (String.eqb skill) prev
  then filter (fun s => negb (String.eqb s skill)) prev
  else prev ++ [skill].

End ProfilePage.

(** ** The spec's wording of the accounting rules

    Stated here to be compared with what the sources compute. *)

(** The sum of a list of percentages. *)
Definition sumZ (l : list Z) : Z := fold_right Z.add 0 l.

Module Spec.

(** "Overlap test: assignment.startDate <= rangeEnd AND
    assignment.endDate >= rangeStart." *)
Definition overlaps (startDate endDate rangeStart rangeEnd : Z) : bool :=
  (startDate <=? rangeEnd) && (rangeStart <=? endDate).

(** "computeAllocation(engineer, assignments, rangeStart, rangeEnd) ->
    allocated: sums allocationPercentage for every assignment belonging to
    the engineer whose date interval overlaps [rangeStart, rangeEnd]." *)
Definition computeAllocation {DL : DateLib} (engineerId : string)
    (assignments : list Assignment.t) (rangeStart rangeEnd : string) : Z :=
  sumZ (map Assignment.allocationPercentage
          (filter
             (fun a =>
                String.eqb (EngineerRef._id (Assignment.engineerId a)) engineerId
                && match parseISO (Assignment.startDate a),
                         parseISO (Assignment.endDate a),
                         parseISO rangeStart, parseISO rangeEnd with
                   | Some s, Some e, Some rs, Some re => overlaps s e rs re
                   | _, _, _, _ => false
                   end)
             assignments)).

(** "availableCapacity(engineer, allocated) ->
    max(0, maxCapacity - allocated)" on the engineer's own [maxCapacity]. *)
Definition availableCapacity (engineer : User.t) (allocated : Z) : Z :=
  Z.max 0 (User.maxCapacity engineer - allocated).

(** "isOverAllocated(engineer, allocated) -> allocated > maxCapacity" *)
Definition isOverAllocated (engineer : User.t) (allocated : Z) : Prop :=
  User.maxCapacity engineer < allocated.

End Spec.

(** What one assignment adds to the workload of [user] at [now]. *)
Definition contribution {DL : DateLib} (now : Z) (user : option User.t)
    (a : Assignment.t) : Z :=
  if EngineerDashboard.belongsTo (EngineerDashboard.userId user) a
     && EngineerDashboard.isActive now a
  then Assignment.allocationPercentage a
  else 0.

(** The allocation a page reads off an engineer:
    [engineer.currentAllocation || 0]. *)
Definition allocated (e : User.t) : Z := num_or (User.currentAllocation e) 0.

(** The percentage [(a / m) * 100] as the pages compute it. *)
Definition percent_of (a m : Z) : JsNum.t :=
  JsNum.mul (JsNum.div (JsNum.of_Z a) (JsNum.of_Z m)) (JsNum.of_Z 100).

(** A request that creates or updates an assignment. *)
Definition is_write (e : Event) : bool :=
  match e with
  | PostAssignment _ | PutAssignment _ _ => true
  | _ => false
  end.

(** Capacity information is present and the proposed percentage exceeds
    the available capacity. *)
Definition blocked (p : AssignmentsPage.PageState)
    (data : AssignmentsPage.AssignmentFormData) : bool :=
  match AssignmentsPage.capacityInfo p with
  | Some ci =>
      AssignmentsPage.available ci
      <? AssignmentCreate.allocationPercentage data
  | None => false
  end.

(** The assignments other than the one called [id]. *)
Definition others (id : string) (l : list Assignment.t) : list Assignment.t :=
  filter (fun a => negb (String.eqb (Assignment._id a) id)) l.

(** Two states that differ at most in the three operation flags and in
    the assignments error. *)
Definition same_data (s s' : AppContext.AppState) : Prop :=
  AppContext.engineers s' = AppContext.engineers s
  /\ AppContext.engineersLoading s' = AppContext.engineersLoading s
  /\ AppContext.engineersError s' = AppContext.engineersError s
  /\ AppContext.projects s' = AppContext.projects s
  /\ AppContext.projectsLoading s' = AppContext.projectsLoading s
  /\ AppContext.projectsError s' = AppContext.projectsError s
  /\ AppContext.assignments s' = AppContext.assignments s
  /\ AppContext.assignmentsLoading s' = AppContext.assignmentsLoading s
  /\ AppContext.utilizationData s' = AppContext.utilizationData s
  /\ AppContext.analyticsLoading s' = AppContext.analyticsLoading s
  /\ AppContext.analyticsError s' = AppContext.analyticsError s.

(** A day in milliseconds. *)
Definition msPerDay : Z := 86400000.

(** Whole days covering [ms] milliseconds. *)
Definition daysCovering (ms : Z) : Z := - ((- ms) / msPerDay).

(** The largest magnitude of the time value of a valid [Date]. *)
Definition maxTimeValue : Z := 8640000000000000.

(** The numbers a double can hold, the exponent range left aside. *)
Definition representable (f : Q) : Prop :=
  exists m e : Z, Z.abs m <= 2 ^ 53 /\ (f == inject_Z m * 2 ^ e)%Q.

(** What [getDaysBetween] makes of the difference [ms] of two time
    values. *)
Definition daysOf (ms : Z) : Z :=
  Qceiling (JsNum.rn (Qabs (JsNum.rn (inject_Z ms)) / inject_Z msPerDay)).

(** What [calculateProgress] makes of the time elapsed and the total
    duration. *)
Definition progressOf (elapsed total : Z) : Z :=
  Qfloor (JsNum.rn (JsNum.rn (JsNum.rn (inject_Z elapsed)
                              / JsNum.rn (inject_Z total))
                    * inject_Z 100)
          + (1 # 2)).

(** The projects other than the one called [id]. *)
Definition other_projects (id : string) (l : list Project.t)
  : list Project.t :=
  filter (fun p => negb (String.eqb (Project._id p) id)) l.

(** The resource whose collection an action may replace. *)
Inductive Resource : Type := Engineers | Projects | Assignments | Analytics.

Definition writes (r : Resource) (action : AppContext.AppAction) : bool :=
  match action, r with
  | AppContext.RESET_STATE, _ => true
  | AppContext.LOAD_ENGINEERS_SUCCESS _, Engineers => true
  | (AppContext.LOAD_PROJECTS_SUCCESS _ | AppContext.CREATE_PROJECT_SUCCESS _
     | AppContext.UPDATE_PROJECT_SUCCESS _
     | AppContext.DELETE_PROJECT_SUCCESS _), Projects => true
  | (AppContext.LOAD_ASSIGNMENTS_SUCCESS _
     | AppContext.CREATE_ASSIGNMENT_SUCCESS _
     | AppContext.UPDATE_ASSIGNMENT_SUCCESS _
     | AppContext.DELETE_ASSIGNMENT_SUCCESS _), Assignments => true
  | AppContext.LOAD_ANALYTICS_SUCCESS _, Analytics => true
  | _, _ => false
  end.

(** The invariant of the authentication state: a user is present exactly
    when the state is authenticated, and never together with an error. *)
Definition auth_consistent (s : AuthContext.AuthState) : Prop :=
  (AuthContext.isAuthenticated s = true <-> AuthContext.user s <> None)
  /\ (AuthContext.error s <> None -> AuthContext.user s = None).

(** ** Sample records for concrete runs *)

Module Samples.

Definition mkEngineer (uid : string) (cap : Z) (alloc : option Z) : User.t :=
  {| User._id := uid; User.id := None;
     User.email := "ada@example.com"; User.name := "Ada Byron";
     User.role := engineer; User.skills := Some ["React"];
     User.seniority := Some senior; User.maxCapacity := cap;
     User.department := "Platform";
     User.availableCapacity := None; User.currentAllocation := alloc |}.

Definition mkAssignment (aid uid : string) (pct : Z) (from to : string)
  : Assignment.t :=
  {| Assignment._id := aid;
     Assignment.engineerId :=
       {| EngineerRef._id := uid; EngineerRef.name := "Ada Byron";
          EngineerRef.email := "ada@example.com";
          EngineerRef.skills := ["React"]; EngineerRef.seniority := "senior" |};
     Assignment.projectId :=
       {| ProjectRef._id := "p1"; ProjectRef.name := "Portal";
          ProjectRef.description := "Customer portal";
          ProjectRef.status := "active" |};
     Assignment.allocationPercentage := pct;
     Assignment.startDate := from; Assignment.endDate := to;
     Assignment.role := "Developer";
     Assignment.createdAt := "2024-12-01"; Assignment.updatedAt := "2024-12-01" |}.

Definition mkData (uid : string) (pct : Z) (from to : string)
  : AssignmentCreate.t :=
  {| AssignmentCreate.engineerId := uid; AssignmentCreate.projectId := "p1";
     AssignmentCreate.allocationPercentage := pct;
     AssignmentCreate.startDate := from; AssignmentCreate.endDate := to;
     AssignmentCreate.role := "Developer" |}.

Definition mkValues (uid : string) (pct : option Z) (from to : string)
  : AssignmentsPage.FormValues :=
  {| AssignmentsPage.engineerId := uid; AssignmentsPage.projectId := "p1";
     AssignmentsPage.allocationPercentage := pct;
     AssignmentsPage.startDate := from; AssignmentsPage.endDate := to;
     AssignmentsPage.role := "Developer" |}.

(** An engineer of capacity 100 with 50 allocated, and her assignment. *)
Definition ada : User.t := mkEngineer "u1" 100 (Some 50).
Definition january : Assignment.t :=
  mkAssignment "a1" "u1" 50 "2025-01-01" "2025-01-31".
Definition february : Assignment.t :=
  mkAssignment "a2" "u1" 30 "2025-02-01" "2025-02-28".
Definition other_engineer : Assignment.t :=
  mkAssignment "a3" "u2" 40 "2025-01-01" "2025-01-31".

(** An engineer whose capacity is 0. *)
Definition idle : User.t := mkEngineer "u0" 0 (Some 0).

(** An engineer with 120 allocated of a capacity of 100, and one with
    exactly 100. *)
Definition overbooked : User.t := mkEngineer "u4" 100 (Some 120).
Definition full : User.t := mkEngineer "u3" 100 (Some 100).

(** The project of the sample assignments. *)
Definition portal : Project.t :=
  {| Project._id := "p1"; Project.name := "Portal";
     Project.description := "Customer portal";
     Project.startDate := "2025-01-01"; Project.endDate := "2025-02-10";
     Project.requiredSkills := ["React"]; Project.teamSize := 3;
     Project.status := active;
     Project.managerId :=
       {| ManagerRef._id := "m1"; ManagerRef.name := "Grace Hopper";
          ManagerRef.email := "grace@example.com" |};
     Project.createdAt := "2024-12-01"; Project.updatedAt := "2024-12-01" |}.

(** Midnight UTC of 2025-01-01 and of 2025-01-15. *)
Definition jan01 : Z := 1735689600000.
Definition jan15 : Z := 1736899200000.

(** The application state holding the sample engineer and assignments. *)
Definition app : AppContext.AppState :=
  AppContext.set_assignments [january; february; other_engineer]
    (AppContext.set_engineers [ada] AppContext.initialState).

(** A freshly opened create dialog, no capacity checked yet. *)
Definition fresh : AssignmentsPage.PageState :=
  {| AssignmentsPage.isCreateDialogOpen := true;
     AssignmentsPage.isEditDialogOpen := false;
     AssignmentsPage.editingAssignment := None;
     AssignmentsPage.capacityInfo := None |}.

(** The create dialog, the server having reported [available] percent. *)
Definition creating (available : Z) : AssignmentsPage.PageState :=
  {| AssignmentsPage.isCreateDialogOpen := true;
     AssignmentsPage.isEditDialogOpen := false;
     AssignmentsPage.editingAssignment := None;
     AssignmentsPage.capacityInfo :=
       Some {| AssignmentsPage.available := available;
               AssignmentsPage.message := "" |} |}.

(** The edit dialog on [february]. *)
Definition editing (available : Z) : AssignmentsPage.PageState :=
  {| AssignmentsPage.isCreateDialogOpen := false;
     AssignmentsPage.isEditDialogOpen := true;
     AssignmentsPage.editingAssignment := Some february;
     AssignmentsPage.capacityInfo :=
       Some {| AssignmentsPage.available := available;
               AssignmentsPage.message := "" |} |}.

End Samples.

(** * Properties *)

(** ** The reducer and the assignment mutations *)

Section Reducer.
Import AppContext.

Lemma failure_keeps_assignments (s : AppState) (msg : string) :
  assignments (appReducer s (CREATE_ASSIGNMENT_FAILURE msg)) = assignments s
  /\ assignments (appReducer s (UPDATE_ASSIGNMENT_FAILURE msg)) = assignments s
  /\ assignments (appReducer s (DELETE_ASSIGNMENT_FAILURE msg)) = assignments s.
Proof. repeat split. Qed.

Lemma start_keeps_assignments (s : AppState) :
  assignments (appReducer s CREATE_ASSIGNMENT_START) = assignments s
  /\ assignments (appReducer s UPDATE_ASSIGNMENT_START) = assignments s
  /\ assignments (appReducer s DELETE_ASSIGNMENT_START) = assignments s.
Proof. repeat split. Qed.

Lemma others_idem (id : string) (l : list Assignment.t) :
  others id (others id l) = others id l.
Proof.
  unfold others. induction l as [|a l IH]; simpl; [reflexivity|].
  destruct (String.eqb (Assignment._id a) id) eqn:E; simpl.
  - exact IH.
  - rewrite E. simpl. now rewrite IH.
Qed.

Lemma others_In (id : string) (l : list Assignment.t) (a : Assignment.t) :
  In a (others id l) <-> In a l /\ Assignment._id a <> id.
Proof.
  unfold others. rewrite filter_In, negb_true_iff.
  split; intros [H1 H2]; split; auto.
  - intros E. apply String.eqb_eq in E. congruence.
  - destruct (String.eqb (Assignment._id a) id) eqn:E; auto.
    apply String.eqb_eq in E. contradiction.
Qed.

Lemma others_app (id : string) (l1 l2 : list Assignment.t) :
  others id (l1 ++ l2) = (others id l1 ++ others id l2)%list.
Proof. unfold others. apply filter_app. Qed.

Lemma others_all (id : string) (l : list Assignment.t) :
  (forall b, In b l -> Assignment._id b <> id) -> others id l = l.
Proof.
  unfold others. induction l as [|a l IH]; intros H; simpl; [reflexivity|].
  destruct (String.eqb (Assignment._id a) id) eqn:E.
  - apply String.eqb_eq in E. exfalso. apply (H a); simpl; auto.
  - simpl. f_equal. apply IH. intros b Hb. apply H. simpl; auto.
Qed.

(** C10. A failed create, update or delete of an assignment leaves the
    assignments collection, and every field but the operation's loading
    flag and the assignments error, as it was: this holds of the failure
    action and of the whole operation (start action, rejected request,
    failure action), which ends with the flag cleared and the message
    stored.  A successful delete action leaves no assignment with the
    given id and keeps all the others, in their order. *)
Theorem assignment_mutations_atomic
    (s : AppState) (msg id : string) (data : AssignmentCreate.t)
    (engineersResp : ApiResult (list User.t)) :
  (* the failure actions *)
  (let s' := appReducer s (CREATE_ASSIGNMENT_FAILURE msg) in
   same_data s s' /\ isCreating s' = false /\ assignmentsError s' = Some msg
   /\ isUpdating s' = isUpdating s /\ isDeleting s' = isDeleting s)
  /\ (let s' := appReducer s (UPDATE_ASSIGNMENT_FAILURE msg) in
      same_data s s' /\ isUpdating s' = false /\ assignmentsError s' = Some msg
      /\ isCreating s' = isCreating s /\ isDeleting s' = isDeleting s)
  /\ (let s' := appReducer s (DELETE_ASSIGNMENT_FAILURE msg) in
      same_data s s' /\ isDeleting s' = false /\ assignmentsError s' = Some msg
      /\ isCreating s' = isCreating s /\ isUpdating s' = isUpdating s)
  (* the failed operations *)
  /\ (let r := createAssignment data (ApiErr msg) engineersResp s in
      same_data s (state_after r) /\ settled r = Rejected msg
      /\ isCreating (state_after r) = false
      /\ assignmentsError (state_after r) = Some msg)
  /\ (let r := updateAssignment id data (ApiErr msg) engineersResp s in
      same_data s (state_after r) /\ settled r = Rejected msg
      /\ isUpdating (state_after r) = false
      /\ assignmentsError (state_after r) = Some msg)
  /\ (let r := deleteAssignment id (ApiErr msg) engineersResp s in
      same_data s (state_after r) /\ settled r = Rejected msg
      /\ isDeleting (state_after r) = false
      /\ assignmentsError (state_after r) = Some msg)
  (* the successful delete *)
  /\ (let s' := appReducer s (DELETE_ASSIGNMENT_SUCCESS id) in
      (forall a, In a (assignments s') <->
                 In a (assignments s) /\ Assignment._id a <> id)
      /\ others id (assignments s') = others id (assignments s)
      /\ (forall l1 a l2,
             assignments s = (l1 ++ a :: l2)%list ->
             Assignment._id a = id ->
             (forall b, In b (l1 ++ l2)%list -> Assignment._id b <> id) ->
             assignments s' = (l1 ++ l2)%list)).
Proof.
  assert (Hsame : forall s', 
             engineers s' = engineers s ->
             engineersLoading s' = engineersLoading s ->
             engineersError s' = engineersError s ->
             projects s' = projects s ->
             projectsLoading s' = projectsLoading s ->
             projectsError s' = projectsError s ->
             assignments s' = assignments s ->
             assignmentsLoading s' = assignmentsLoading s ->
             utilizationData s' = utilizationData s ->
             analyticsLoading s' = analyticsLoading s ->
             analyticsError s' = analyticsError s ->
             same_data s s')
    by (intros; unfold same_data; tauto).
  split; [|split; [|split; [|split; [|split; [|split]]]]]; cbv zeta.
  1-6: split; [apply Hsame; reflexivity | repeat split].
  split; [|split].
  - intros a. simpl. apply others_In.
  - simpl. apply others_idem.
  - intros l1 a l2 Hs Ha Hb. simpl. fold (others id (assignments s)).
    rewrite Hs, others_app. simpl.
    replace (String.eqb (Assignment._id a) id) with true
      by (symmetry; now apply String.eqb_eq).
    simpl. fold (others id l2). rewrite <- others_app. now apply others_all.
Qed.

End Reducer.

(** ** The activity test and the engineer's workload *)

Section Workload.
Context {DL : DateLib}.
Import EngineerDashboard.

Lemma isAfter_spec (now : Z) (d : JsDate) :
  isAfter (Some now) d = true <-> exists s, d = Some s /\ s < now.
Proof.
  destruct d as [s|]; simpl.
  - rewrite Z.ltb_lt. split.
    + intros H. exists s. auto.
    + intros [s' [E H]]. injection E as ->. exact H.
  - split; [discriminate | intros [s [E _]]; discriminate].
Qed.

Lemma isBefore_spec (now : Z) (d : JsDate) :
  isBefore (Some now) d = true <-> exists e, d = Some e /\ now < e.
Proof.
  destruct d as [e|]; simpl.
  - rewrite Z.ltb_lt. split.
    + intros H. exists e. auto.
    + intros [e' [E H]]. injection E as ->. exact H.
  - split; [discriminate | intros [e [E _]]; discriminate].
Qed.

Lemma isDateInRange_iff (now : Z) (startDate endDate : DateArg) :
  Utils.isDateInRange now startDate endDate = true <->
  exists s e, Utils.toDate startDate = Some s
              /\ Utils.toDate endDate = Some e
              /\ s < now /\ now < e.
Proof.
  unfold Utils.isDateInRange. cbv zeta.
  rewrite andb_true_iff, isAfter_spec, isBefore_spec. split.
  - intros [[s [Es Hs]] [e [Ee He]]]. exists s, e. auto.
  - intros [s [e [Es [Ee [Hs He]]]]]. split; eauto.
Qed.

(** C4, as the code has it.  [isDateInRange] holds exactly when both
    dates are valid and the evaluation instant lies strictly between
    them: [startDate < now] and [now < endDate].  On valid dates it is
    the spec's inclusive overlap test against the range [now, now] minus
    the two boundary cases, so a range that starts or ends exactly at the
    instant is not selected. *)
Theorem isDateInRange_strict (now : Z) (startDate endDate : DateArg) :
  (Utils.isDateInRange now startDate endDate = true <->
   exists s e, Utils.toDate startDate = Some s
               /\ Utils.toDate endDate = Some e
               /\ s < now /\ now < e)
  /\ Utils.isDateInRange now startDate endDate
     = match Utils.toDate startDate, Utils.toDate endDate with
       | Some s, Some e =>
           Spec.overlaps s e now now && negb (s =? now) && negb (e =? now)
       | _, _ => false
       end.
Proof.
  split.
  - apply isDateInRange_iff.
  - unfold Utils.isDateInRange, Spec.overlaps. cbv zeta.
    destruct (Utils.toDate startDate) as [s|],
             (Utils.toDate endDate) as [e|]; simpl;
      try reflexivity; try apply andb_false_r.
    destruct (Z.ltb_spec s now), (Z.ltb_spec now e),
             (Z.leb_spec s now), (Z.leb_spec now e),
             (Z.eqb_spec s now), (Z.eqb_spec e now);
      simpl; try reflexivity; lia.
Qed.

Lemma fold_left_add_acc {A : Type} (f : A -> Z) (l : list A) (acc : Z) :
  fold_left (fun sum a => sum + f a) l acc = acc + sumZ (map f l).
Proof.
  revert acc. induction l as [|a l IH]; intros acc; simpl.
  - lia.
  - rewrite IH. lia.
Qed.

Lemma sumZ_filter {A : Type} (p : A -> bool) (f : A -> Z) (l : list A) :
  sumZ (map f (filter p l)) = sumZ (map (fun a => if p a then f a else 0) l).
Proof.
  induction l as [|a l IH]; simpl; [reflexivity|].
  destruct (p a); simpl; rewrite IH; reflexivity.
Qed.

Lemma filter_filter {A : Type} (p q : A -> bool) (l : list A) :
  filter q (filter p l) = filter (fun a => p a && q a) l.
Proof.
  induction l as [|a l IH]; simpl; [reflexivity|].
  destruct (p a); simpl; [destruct (q a)|]; rewrite IH; reflexivity.
Qed.

Lemma sumZ_app (l1 l2 : list Z) : sumZ (l1 ++ l2) = sumZ l1 + sumZ l2.
Proof. induction l1 as [|x l1 IH]; simpl; [reflexivity | rewrite IH; lia]. Qed.

Lemma currentWorkload_sum (now : Z) (user : option User.t)
    (l : list Assignment.t) :
  currentWorkload now user l = sumZ (map (contribution now user) l).
Proof.
  unfold currentWorkload, activeAssignments, myAssignments.
  rewrite fold_left_add_acc, filter_filter, sumZ_filter. reflexivity.
Qed.

(** C6, as the code has it.  The workload of the signed-in engineer at
    the evaluation instant is the sum of [allocationPercentage] over
    exactly the assignments that carry the engineer's id and whose two
    dates are valid and strictly enclose the instant: every assignment
    adds its percentage when both hold and nothing otherwise, wherever it
    stands in the collection. *)
Theorem currentWorkload_exact (now : Z) (user : option User.t)
    (l l1 l2 : list Assignment.t) (a : Assignment.t) :
  currentWorkload now user l
  = sumZ (map (fun a =>
                 if belongsTo (userId user) a && isActive now a
                 then Assignment.allocationPercentage a else 0) l)
  /\ currentWorkload now user (l1 ++ a :: l2)
     = currentWorkload now user (l1 ++ l2)
       + (if belongsTo (userId user) a && isActive now a
          then Assignment.allocationPercentage a else 0)
  /\ (isActive now a = true <->
      exists s e, parseISO (Assignment.startDate a) = Some s
                  /\ parseISO (Assignment.endDate a) = Some e
                  /\ s < now /\ now < e).
Proof.
  split; [|split].
  - apply currentWorkload_sum.
  - rewrite !currentWorkload_sum, !map_app. simpl.
    rewrite !sumZ_app. simpl. unfold contribution. lia.
  - unfold isActive. apply isDateInRange_iff.
Qed.

(** C5, as the code has it.  The available capacity is never negative.
    For an engineer whose [maxCapacity] is not zero it is
    [max(0, maxCapacity - allocated)] on the engineer's own capacity; when
    the user is absent or the capacity is zero the page computes it from
    a capacity of 100.  The part of the workload that fits the capacity
    the page uses and the available capacity add up to that capacity. *)
Theorem availableCapacity_accounting (now : Z) (user : option User.t)
    (l : list Assignment.t) :
  let workload := currentWorkload now user l in
  let avail := availableCapacity now user l in
  0 <= avail
  /\ avail = match user with
             | Some u =>
                 if User.maxCapacity u =? 0
                 then Z.max 0 (100 - workload)
                 else Spec.availableCapacity u workload
             | None => Z.max 0 (100 - workload)
             end
  /\ Z.min workload (maxCapacity user) + avail = maxCapacity user.
Proof.
  cbv zeta. unfold availableCapacity, Spec.availableCapacity, maxCapacity.
  repeat split.
  - apply Z.le_max_l.
  - destruct user as [u|]; simpl; [|reflexivity].
    unfold truthy_num. destruct (User.maxCapacity u =? 0); reflexivity.
  - lia.
Qed.

End Workload.

(** ** Utilization and over-allocation *)

Section Utilization.

Lemma Qsign_inject_Z (z : Z) : JsNum.Qsign (inject_Z z) = Z.sgn z.
Proof. reflexivity. Qed.

Lemma percent_of_finite (a m : Z) :
  JsNum.isFinite (percent_of a m) = negb (m =? 0).
Proof.
  unfold percent_of, JsNum.of_Z, JsNum.div. rewrite !Qsign_inject_Z.
  destruct (Z.eqb_spec m 0) as [->|Hm].
  - simpl. destruct a; reflexivity.
  - destruct m; try contradiction; reflexivity.
Qed.

Lemma percent_of_gt_100 (a m : Z) :
  0 <= m -> (JsNum.gt (percent_of a m) (JsNum.of_Z 100) = true <-> m < a).
Proof.
  intros Hm. unfold percent_of, JsNum.of_Z, JsNum.div.
  rewrite !Qsign_inject_Z.
  destruct m as [|p|p]; [| |lia].
  - destruct a; simpl; split; intros H; try reflexivity;
      try discriminate; lia.
  - simpl. rewrite negb_true_iff. unfold Qle_bool. simpl.
    rewrite Z.leb_gt. lia.
Qed.

Lemma add_finite (x y : JsNum.t) :
  JsNum.isFinite (JsNum.add x y) = JsNum.isFinite x && JsNum.isFinite y.
Proof. destruct x, y; reflexivity. Qed.

Lemma div_count_finite (x : JsNum.t) (n : Z) :
  0 < n ->
  JsNum.isFinite (JsNum.div x (JsNum.of_Z n)) = JsNum.isFinite x.
Proof.
  intros Hn. destruct n as [|p|p]; try lia.
  destruct x; simpl; reflexivity.
Qed.

Lemma fold_terms_finite (f : User.t -> JsNum.t) (l : list User.t)
    (acc : JsNum.t) :
  JsNum.isFinite (fold_left (fun sum e => JsNum.add sum (f e)) l acc)
  = JsNum.isFinite acc && forallb (fun e => JsNum.isFinite (f e)) l.
Proof.
  revert acc. induction l as [|e l IH]; intros acc; simpl.
  - now rewrite andb_true_r.
  - rewrite IH, add_finite, andb_assoc. reflexivity.
Qed.

Lemma forallb_pointwise {A : Type} (f g : A -> bool) (l : list A) :
  (forall x, f x = g x) -> forallb f l = forallb g l.
Proof.
  intros H. induction l as [|x l IH]; simpl; [reflexivity|].
  now rewrite H, IH.
Qed.

Lemma percent_of_zero_capacity (a : Z) :
  percent_of a 0
  = (if a =? 0 then JsNum.NaN else if 0 <? a then JsNum.PInf else JsNum.NInf).
Proof. destruct a; reflexivity. Qed.

(** C9, as the code has it.  The utilization of a row of the analytics
    page and the term an engineer adds to the average of the manager
    dashboard divide by [maxCapacity] with no guard: they are finite
    exactly when [maxCapacity] is not zero, whatever the allocation (for
    a zero capacity they are [NaN] when the allocation is zero and
    infinite otherwise), and the average is finite exactly when no
    engineer has a zero capacity.  The percentage of the engineers page
    and of the dashboard chart divides only for a present, non-zero
    allocation: it is 0 when the allocation is missing or zero, whatever
    the capacity, and for a zero capacity and a non-zero allocation it is
    infinite. *)
Theorem utilization_finite_iff (e : User.t) (engineers : list User.t) :
  JsNum.isFinite (AnalyticsPage.utilization (AnalyticsPage.utilizationRow e))
  = negb (User.maxCapacity e =? 0)
  /\ JsNum.isFinite (ManagerDashboard.utilizationTerm e)
     = negb (User.maxCapacity e =? 0)
  /\ JsNum.isFinite (ManagerDashboard.averageUtilization engineers)
     = forallb (fun x => negb (User.maxCapacity x =? 0)) engineers
  /\ JsNum.isFinite (EngineersPage.utilizationPercentage e)
     = negb (User.maxCapacity e =? 0) || (allocated e =? 0)
  /\ JsNum.isFinite (ManagerDashboard.chartUtilization e)
     = negb (User.maxCapacity e =? 0) || (allocated e =? 0)
  /\ (allocated e = 0 ->
      EngineersPage.utilizationPercentage e = JsNum.of_Z 0
      /\ ManagerDashboard.chartUtilization e = JsNum.of_Z 0)
  /\ (User.maxCapacity e = 0 ->
      let unguarded :=
        if allocated e =? 0 then JsNum.NaN
        else if 0 <? allocated e then JsNum.PInf else JsNum.NInf in
      let guarded :=
        if allocated e =? 0 then JsNum.of_Z 0
        else if 0 <? allocated e then JsNum.PInf else JsNum.NInf in
      AnalyticsPage.utilization (AnalyticsPage.utilizationRow e) = unguarded
      /\ ManagerDashboard.utilizationTerm e = unguarded
      /\ EngineersPage.utilizationPercentage e = guarded
      /\ ManagerDashboard.chartUtilization e = guarded).
Proof.
  assert (Hshape : EngineersPage.utilizationPercentage e
                   = if allocated e =? 0 then JsNum.of_Z 0
                     else percent_of (allocated e) (User.maxCapacity e)).
  { unfold EngineersPage.utilizationPercentage, allocated, num_or, truthy_num.
    destruct (User.currentAllocation e) as [a|]; [|reflexivity].
    destruct (a =? 0) eqn:Ha; cbn [negb]; [reflexivity|].
    rewrite Ha. reflexivity. }
  assert (Heng : JsNum.isFinite (EngineersPage.utilizationPercentage e)
                 = negb (User.maxCapacity e =? 0) || (allocated e =? 0)).
  { rewrite Hshape. destruct (allocated e =? 0).
    - now rewrite orb_true_r.
    - rewrite percent_of_finite. now rewrite orb_false_r. }
  assert (Hzero : allocated e = 0 ->
                  EngineersPage.utilizationPercentage e = JsNum.of_Z 0).
  { intros H. rewrite Hshape, H. reflexivity. }
  assert (Hguard : User.maxCapacity e = 0 ->
            EngineersPage.utilizationPercentage e
            = if allocated e =? 0 then JsNum.of_Z 0
              else if 0 <? allocated e then JsNum.PInf else JsNum.NInf).
  { intros H. rewrite Hshape, H, percent_of_zero_capacity.
    destruct (allocated e =? 0); reflexivity. }
  split; [apply percent_of_finite|]. split; [apply percent_of_finite|].
  split; [|split; [exact Heng|split; [exact Heng|split]]].
  - unfold ManagerDashboard.averageUtilization.
    destruct engineers as [|x l]; [reflexivity|].
    replace (0 <? Z.of_nat (List.length (x :: l))) with true
      by (symmetry; apply Z.ltb_lt; simpl; lia).
    rewrite div_count_finite by (simpl; lia).
    rewrite fold_terms_finite. simpl JsNum.isFinite at 1.
    rewrite andb_true_l. apply forallb_pointwise. intros y.
    apply percent_of_finite.
  - intros H. split; apply Hzero, H.
  - intros H. cbv zeta.
    split; [|split; [|split; apply Hguard, H]].
    + change (percent_of (allocated e) (User.maxCapacity e)
              = if allocated e =? 0 then JsNum.NaN
                else if 0 <? allocated e then JsNum.PInf else JsNum.NInf).
      rewrite H. apply percent_of_zero_capacity.
    + change (percent_of (allocated e) (User.maxCapacity e)
              = if allocated e =? 0 then JsNum.NaN
                else if 0 <? allocated e then JsNum.PInf else JsNum.NInf).
      rewrite H. apply percent_of_zero_capacity.
Qed.

Lemma utilizationLabel_over (u : JsNum.t) :
  EngineersPage.utilizationLabel u = "Over-allocated"
  <-> JsNum.gt u (JsNum.of_Z 100) = true.
Proof.
  unfold EngineersPage.utilizationLabel.
  destruct (JsNum.gt u (JsNum.of_Z 100)).
  - split; reflexivity.
  - split; [|discriminate].
    destruct (JsNum.gt u (JsNum.of_Z 80)); [discriminate|].
    destruct (JsNum.gt u (JsNum.of_Z 60)); discriminate.
Qed.

Lemma over_bool_manager (e : User.t) :
  0 <= User.maxCapacity e ->
  ManagerDashboard.isOverAllocated e = (User.maxCapacity e <? allocated e).
Proof.
  intros Hcap.
  unfold ManagerDashboard.isOverAllocated, allocated, num_or, truthy_num.
  destruct (User.currentAllocation e) as [a|].
  - destruct (Z.eqb_spec a 0) as [->|Ha]; simpl; [|reflexivity].
    symmetry. apply Z.ltb_ge. exact Hcap.
  - symmetry. apply Z.ltb_ge. exact Hcap.
Qed.

Lemma over_bool_analytics (e : User.t) :
  0 <= User.maxCapacity e ->
  AnalyticsPage.isOverAllocated (AnalyticsPage.utilizationRow e)
  = (User.maxCapacity e <? allocated e).
Proof.
  intros Hcap.
  pose proof (percent_of_gt_100 (allocated e) (User.maxCapacity e) Hcap) as H.
  change (JsNum.gt (percent_of (allocated e) (User.maxCapacity e))
                   (JsNum.of_Z 100)
          = (User.maxCapacity e <? allocated e)).
  destruct (Z.ltb_spec (User.maxCapacity e) (allocated e)) as [L|L].
  - apply H, L.
  - apply not_true_is_false. intros T. apply H in T. lia.
Qed.

Lemma over_bool_label (e : User.t) :
  0 <= User.maxCapacity e ->
  (EngineersPage.utilizationLabel (EngineersPage.utilizationPercentage e)
   = "Over-allocated" <-> User.maxCapacity e < allocated e).
Proof.
  intros Hcap. rewrite utilizationLabel_over.
  unfold EngineersPage.utilizationPercentage, allocated, num_or, truthy_num.
  destruct (User.currentAllocation e) as [a|].
  - destruct (a =? 0) eqn:E; cbn [negb].
    + split; [discriminate | lia].
    + apply (percent_of_gt_100 a (User.maxCapacity e) Hcap).
  - split; [discriminate | lia].
Qed.

Lemma length_filter_map {A B : Type} (g : A -> B) (f : B -> bool)
    (l : list A) :
  List.length (filter f (map g l))
  = List.length (filter (fun x => f (g x)) l).
Proof.
  induction l as [|x l IH]; simpl; [reflexivity|].
  destruct (f (g x)); simpl; now rewrite IH.
Qed.

Lemma length_filter_zero {A : Type} (f : A -> bool) (l : list A) :
  List.length (filter f l) = 0%nat <-> forall x, In x l -> f x = false.
Proof.
  induction l as [|x l IH]; simpl.
  - split; [intros _ y [] | reflexivity].
  - destruct (f x) eqn:E; simpl.
    + split; [discriminate|]. intros H.
      specialize (H x (or_introl eq_refl)). congruence.
    + rewrite IH. split.
      * intros H y [<-|Hy]; auto.
      * intros H y Hy. apply H. auto.
Qed.

Lemma analyticsData_none (engineers : list User.t) (projects : list Project.t)
    (assignments : list Assignment.t) :
  AnalyticsPage.analyticsData engineers projects assignments = None <->
  engineers = [] \/ projects = [] \/ assignments = [].
Proof.
  unfold AnalyticsPage.analyticsData, AnalyticsPage.hasData.
  destruct engineers, projects, assignments; simpl; split;
    try reflexivity; try discriminate; auto;
    intros [H|[H|H]]; discriminate.
Qed.

(** C7.  On engineers whose [maxCapacity] is not negative, the count of
    over-allocated engineers that the manager dashboard shows is the
    number of engineers whose allocation is strictly greater than their
    [maxCapacity], and so is the count among the KPIs of the analytics
    page whenever that page has its data (it computes nothing until
    engineers, projects and assignments are all loaded).  The count is 0
    exactly when no engineer exceeds the capacity.  For each engineer the
    tests of the two counts and the label of the engineers page hold
    exactly when the allocation is strictly greater than [maxCapacity]:
    an engineer allocated at exactly the capacity is not counted and not
    labelled. *)
Theorem over_allocated_iff (engineers : list User.t)
    (projects : list Project.t) (assignments : list Assignment.t)
    (Hcap : forall e, In e engineers -> 0 <= User.maxCapacity e) :
  let over := filter (fun e => User.maxCapacity e <? allocated e) engineers in
  ManagerDashboard.overAllocatedEngineers engineers
  = Z.of_nat (List.length over)
  /\ match AnalyticsPage.analyticsData engineers projects assignments with
     | Some d =>
         AnalyticsPage.Kpis.overAllocatedEngineers (AnalyticsPage.Data.kpis d)
         = Z.of_nat (List.length over)
     | None => engineers = [] \/ projects = [] \/ assignments = []
     end
  /\ (ManagerDashboard.overAllocatedEngineers engineers = 0 <->
      forall e, In e engineers -> allocated e <= User.maxCapacity e)
  /\ (forall e, In e engineers ->
        (In e over <-> Spec.isOverAllocated e (allocated e))
        /\ (ManagerDashboard.isOverAllocated e = true
            <-> Spec.isOverAllocated e (allocated e))
        /\ (AnalyticsPage.isOverAllocated (AnalyticsPage.utilizationRow e)
            = true <-> Spec.isOverAllocated e (allocated e))
        /\ (EngineersPage.utilizationLabel
              (EngineersPage.utilizationPercentage e) = "Over-allocated"
            <-> Spec.isOverAllocated e (allocated e))
        /\ (allocated e = User.maxCapacity e ->
            ~ In e over
            /\ ManagerDashboard.isOverAllocated e = false
            /\ AnalyticsPage.isOverAllocated (AnalyticsPage.utilizationRow e)
               = false
            /\ EngineersPage.utilizationLabel
                 (EngineersPage.utilizationPercentage e)
               <> "Over-allocated")).
Proof.
  cbv zeta.
  assert (Hm : filter ManagerDashboard.isOverAllocated engineers
               = filter (fun e => User.maxCapacity e <? allocated e) engineers).
  { apply filter_ext_in. intros e He. apply over_bool_manager, Hcap, He. }
  assert (Ha : filter (fun e => AnalyticsPage.isOverAllocated
                                  (AnalyticsPage.utilizationRow e)) engineers
               = filter (fun e => User.maxCapacity e <? allocated e) engineers).
  { apply filter_ext_in. intros e He. apply over_bool_analytics, Hcap, He. }
  assert (Hcount : ManagerDashboard.overAllocatedEngineers engineers
                   = Z.of_nat (List.length
                       (filter (fun e => User.maxCapacity e <? allocated e)
                               engineers))).
  { unfold ManagerDashboard.overAllocatedEngineers. now rewrite Hm. }
  split; [exact Hcount|]. split; [|split].
  - destruct (AnalyticsPage.analyticsData engineers projects assignments)
      as [d|] eqn:E.
    + unfold AnalyticsPage.analyticsData in E.
      destruct (AnalyticsPage.hasData engineers projects assignments);
        [|discriminate].
      injection E as <-. cbn [AnalyticsPage.Data.kpis
        AnalyticsPage.Kpis.overAllocatedEngineers].
      unfold AnalyticsPage.overAllocatedEngineers,
        AnalyticsPage.utilizationAnalysis.
      now rewrite length_filter_map, Ha.
    + apply analyticsData_none, E.
  - rewrite Hcount.
    assert (Hz : forall n : nat, Z.of_nat n = 0 <-> n = 0%nat) by (intros; lia).
    rewrite Hz, length_filter_zero. split.
    + intros H e He. specialize (H e He). apply Z.ltb_ge in H. exact H.
    + intros H e He. apply Z.ltb_ge, H, He.
  - intros e He. specialize (Hcap e He).
    pose proof (over_bool_manager e Hcap) as Bm.
    pose proof (over_bool_analytics e Hcap) as Ba.
    pose proof (over_bool_label e Hcap) as Bl.
    unfold Spec.isOverAllocated.
    split; [|split; [|split; [|split]]].
    + rewrite filter_In, Z.ltb_lt. tauto.
    + rewrite Bm. apply Z.ltb_lt.
    + rewrite Ba. apply Z.ltb_lt.
    + exact Bl.
    + intros Heq. split; [|split; [|split]].
      * rewrite filter_In, Z.ltb_lt. lia.
      * rewrite Bm. apply Z.ltb_ge. lia.
      * rewrite Ba. apply Z.ltb_ge. lia.
      * rewrite Bl. lia.
Qed.

End Utilization.

(** ** Submitting an assignment *)

Section Submit.
Import AssignmentsPage.

Lemma loadEngineers_emits (resp : ApiResult (list User.t))
    (s : AppContext.AppState) :
  snd (AppContext.loadEngineers resp s) = [GetEngineers].
Proof. destruct resp; reflexivity. Qed.

Lemma createAssignment_emits (data : AssignmentCreate.t)
    (resp : ApiResult Assignment.t) (er : ApiResult (list User.t))
    (s : AppContext.AppState) :
  hd_error (AppContext.emitted (AppContext.createAssignment data resp er s))
  = Some (PostAssignment data).
Proof.
  unfold AppContext.createAssignment. destruct resp; [|reflexivity].
  destruct (AppContext.loadEngineers er _). reflexivity.
Qed.

Lemma updateAssignment_run (id : string) (data : AssignmentCreate.t)
    (resp : ApiResult Assignment.t) (er : ApiResult (list User.t))
    (s : AppContext.AppState) :
  let r := AppContext.updateAssignment id data resp er s in
  match resp with
  | ApiOk _ =>
      AppContext.emitted r = [PutAssignment id data; GetEngineers]
      /\ AppContext.settled r = AppContext.Resolved
  | ApiErr msg =>
      AppContext.emitted r = [PutAssignment id data]
      /\ AppContext.settled r = AppContext.Rejected msg
  end.
Proof.
  cbv zeta. unfold AppContext.updateAssignment. destruct resp.
  - pose proof (loadEngineers_emits er
      (AppContext.appReducer
         (AppContext.appReducer s AppContext.UPDATE_ASSIGNMENT_START)
         (AppContext.UPDATE_ASSIGNMENT_SUCCESS body))) as H.
    destruct (AppContext.loadEngineers er _) as [s3 ev]. simpl in *.
    subst ev. split; reflexivity.
  - split; reflexivity.
Qed.

(** C1, as the code has it.  For a new assignment the over-allocation
    check blocks the write: when capacity information is present and the
    proposed percentage exceeds the available capacity, [onSubmit] shows
    the alert and returns, with no request sent and page and application
    state untouched.  Otherwise the first thing it does is the create
    request.  A create or update request is sent exactly when the guard
    does not fire. *)
Theorem onSubmit_new_assignment (data : AssignmentFormData)
    (resp : ApiResult Assignment.t) (er : ApiResult (list User.t))
    (p : PageState) (app : AppContext.AppState)
    (Hnew : editingAssignment p = None) :
  let out := onSubmit data resp er p app in
  existsb is_write (events out) = negb (blocked p data)
  /\ (blocked p data = true ->
      page_after out = p /\ app_after out = app
      /\ exists ci, capacityInfo p = Some ci
                    /\ events out =
                       [Alert ("Engineer only has " ++ show (available ci)
                               ++ "% capacity available. Please reduce the allocation percentage.")])
  /\ (blocked p data = false ->
      hd_error (events out) = Some (PostAssignment data)).
Proof.
  cbv zeta. unfold onSubmit, exceedsAvailable, blocked. rewrite Hnew.
  pose proof (createAssignment_emits data resp er app) as Hhd.
  assert (Hcreate :
    let r := AppContext.createAssignment data resp er app in
    forall (pa : PageState) (tl1 tl2 : list Event),
      let out :=
        match AppContext.settled r with
        | AppContext.Resolved =>
            {| page_after := pa; app_after := AppContext.state_after r;
               events := AppContext.emitted r ++ tl1 |}
        | AppContext.Rejected _ =>
            {| page_after := p; app_after := AppContext.state_after r;
               events := AppContext.emitted r ++ tl2 |}
        end in
      existsb is_write (events out) = true
      /\ hd_error (events out) = Some (PostAssignment data)).
  { cbv zeta. intros pa tl1 tl2.
    destruct (AppContext.emitted
                (AppContext.createAssignment data resp er app))
      as [|ev evs] eqn:E; [discriminate|].
    injection Hhd as ->.
    destruct (AppContext.settled _); simpl; split; reflexivity. }
  cbv zeta in Hcreate.
  destruct (capacityInfo p) as [ci|].
  - destruct (available ci <? AssignmentCreate.allocationPercentage data).
    + simpl. split; [reflexivity|]. split; [|discriminate].
      intros _. split; [reflexivity|]. split; [reflexivity|].
      exists ci. split; reflexivity.
    + split; [apply Hcreate|]. split; [discriminate|].
      intros _. apply Hcreate.
  - split; [apply Hcreate|]. split; [discriminate|].
    intros _. apply Hcreate.
Qed.

(** C2, as the code has it.  An edit skips the capacity check: whatever
    capacity information the page holds, [onSubmit] sends the update
    request first, sends no capacity request, and shows no capacity
    warning; its effects do not depend on the capacity information. *)
Theorem onSubmit_edit_skips_check (data : AssignmentFormData)
    (resp : ApiResult Assignment.t) (er : ApiResult (list User.t))
    (p : PageState) (app : AppContext.AppState) (editing : Assignment.t)
    (Hedit : editingAssignment p = Some editing) :
  let out := onSubmit data resp er p app in
  exceedsAvailable p data = None
  /\ events out =
     PutAssignment (Assignment._id editing) data ::
     match resp with
     | ApiOk _ =>
         [GetEngineers; Alert "Assignment updated successfully!"; FormReset]
     | ApiErr _ =>
         [ConsoleError "Failed to save assignment:";
          Alert "Failed to update assignment. Please check the details and try again."]
     end
  /\ (forall c, events (onSubmit data resp er (setCapacityInfo c p) app)
                = events out).
Proof.
  assert (Hev : forall q, editingAssignment q = Some editing ->
            events (onSubmit data resp er q app) =
            PutAssignment (Assignment._id editing) data ::
            match resp with
            | ApiOk _ =>
                [GetEngineers; Alert "Assignment updated successfully!";
                 FormReset]
            | ApiErr _ =>
                [ConsoleError "Failed to save assignment:";
                 Alert "Failed to update assignment. Please check the details and try again."]
            end).
  { intros q Hq. unfold onSubmit, exceedsAvailable. rewrite Hq.
    pose proof (updateAssignment_run (Assignment._id editing) data resp er app)
      as Hr. cbv zeta in Hr.
    destruct resp; destruct Hr as [He Hs]; rewrite Hs; cbn [events];
      rewrite He; reflexivity. }
  cbv zeta. split; [|split].
  - unfold exceedsAvailable. rewrite Hedit. reflexivity.
  - apply Hev, Hedit.
  - intros c. rewrite (Hev p Hedit). apply Hev. exact Hedit.
Qed.

(** C3, as the code has it.  When the capacity request fails,
    [getEngineerCapacity] answers 0 available capacity: the engineer is
    treated as fully allocated, not as free.  The capacity check of the
    form sends the request and logs the failure; what it makes of the 0
    depends on whether the engineer is among the loaded engineers.  If
    so, it stores 0 with the fully-allocated message, and every new
    assignment of a positive percentage is blocked.  If not, it stores
    nothing: the page is left as it was, and when it held no capacity
    information a new assignment is sent, whatever its percentage. *)
Theorem failed_lookup_zero_available (engineers : list User.t)
    (engineerId startDate endDate msg : string) (p : PageState)
    (Hfields : truthy_str engineerId && truthy_str startDate
               && truthy_str endDate = true) :
  let run := checkCapacity engineers engineerId startDate endDate
               (ApiErr msg) p in
  fst (AppContext.getEngineerCapacity engineerId startDate endDate
         (ApiErr msg)) = 0
  /\ snd run = [GetEngineerCapacity engineerId startDate endDate;
                ConsoleError "Failed to get engineer capacity:"]
  /\ match find (fun x => String.eqb (User._id x) engineerId) engineers with
     | Some _ =>
         capacityInfo (fst run) =
         Some {| available := 0;
                 message := "Engineer is fully allocated during this period" |}
         /\ (editingAssignment p = None ->
             forall data resp er app,
               0 < AssignmentCreate.allocationPercentage data ->
               events (onSubmit data resp er (fst run) app) =
               [Alert "Engineer only has 0% capacity available. Please reduce the allocation percentage."])
     | None =>
         fst run = p
         /\ (editingAssignment p = None -> capacityInfo p = None ->
             forall data resp er app,
               hd_error (events (onSubmit data resp er (fst run) app))
               = Some (PostAssignment data))
     end.
Proof.
  cbv zeta. unfold checkCapacity. rewrite Hfields.
  cbn [AppContext.getEngineerCapacity fst].
  destruct (find (fun x => String.eqb (User._id x) engineerId) engineers)
    as [e|]; cbn [fst snd].
  - split; [reflexivity|]. split; [reflexivity|]. split; [reflexivity|].
    intros Hnew data resp er app Hpos.
    unfold onSubmit, exceedsAvailable.
    cbn [editingAssignment capacityInfo setCapacityInfo available].
    rewrite Hnew.
    replace (0 <? AssignmentCreate.allocationPercentage data) with true
      by (symmetry; now apply Z.ltb_lt).
    reflexivity.
  - split; [reflexivity|]. split; [reflexivity|]. split; [reflexivity|].
    intros Hnew Hnone data resp er app.
    unfold onSubmit, exceedsAvailable. rewrite Hnew, Hnone.
    pose proof (createAssignment_emits data resp er app) as Hhd.
    destruct (AppContext.emitted
                (AppContext.createAssignment data resp er app))
      as [|ev evs] eqn:E; [discriminate|].
    injection Hhd as ->.
    destruct (AppContext.settled _); reflexivity.
Qed.

End Submit.

Section Validation.
Context {DL : DateLib}.
Import AssignmentsPage.

Lemma assignmentSchema_accepts (v : FormValues) (data : AssignmentFormData) :
  assignmentSchema v = Some data ->
  exists s e, newDate (startDate v) = Some s
              /\ newDate (endDate v) = Some e /\ s < e.
Proof.
  unfold assignmentSchema. destruct (allocationPercentage v); [|discriminate].
  destruct (refine_dates (startDate v) (endDate v)) eqn:R.
  - intros _. unfold refine_dates, date_gt, isAfter in R.
    destruct (newDate (endDate v)) as [e|]; [|discriminate].
    destruct (newDate (startDate v)) as [s|]; [|discriminate].
    exists s, e. repeat split. now apply Z.ltb_lt.
  - rewrite andb_false_r. discriminate.
Qed.

(** C8, as the code has it.  A submission whose end date is before its
    start date does not pass [assignmentSchema]; [handleSubmit] then
    never runs [onSubmit]: neither its capacity guard nor a create or an
    update request happens, and page and application state stay as they
    are.  The capacity lookup is not behind that validation.  The
    capacity check of the form, which runs when the engineer or a date
    changes, tests only that the three fields are filled in: it then
    requests the capacity for the end-before-start range, and for a
    loaded engineer it stores the answer. *)
Theorem end_before_start_rejected (v : FormValues)
    (resp : ApiResult Assignment.t) (er : ApiResult (list User.t))
    (engineers : list User.t) (capacityResp : ApiResult Z)
    (p : PageState) (app : AppContext.AppState) (s e : Z)
    (Hstart : newDate (startDate v) = Some s)
    (Hend : newDate (endDate v) = Some e)
    (Hbefore : e < s) :
  assignmentSchema v = None
  /\ handleSubmit v resp er p app
     = {| page_after := p; app_after := app; events := [] |}
  /\ (let run := checkCapacity engineers (engineerId v) (startDate v)
                   (endDate v) capacityResp p in
      snd run
      = (if truthy_str (engineerId v) && truthy_str (startDate v)
            && truthy_str (endDate v)
         then GetEngineerCapacity (engineerId v) (startDate v) (endDate v)
              :: match capacityResp with
                 | ApiOk _ => []
                 | ApiErr _ => [ConsoleError "Failed to get engineer capacity:"]
                 end
         else [])
      /\ (truthy_str (engineerId v) && truthy_str (startDate v)
          && truthy_str (endDate v) = true ->
          forall x,
            find (fun y => String.eqb (User._id y) (engineerId v)) engineers
            = Some x ->
            exists m,
              capacityInfo (fst run)
              = Some {| available :=
                          match capacityResp with
                          | ApiOk capacity => capacity
                          | ApiErr _ => 0
                          end;
                        message := m |})).
Proof.
  assert (H : assignmentSchema v = None).
  { destruct (assignmentSchema v) as [data|] eqn:E; [|reflexivity].
    apply assignmentSchema_accepts in E.
    destruct E as [s' [e' [Hs [He Hlt]]]].
    rewrite Hstart in Hs. rewrite Hend in He.
    injection Hs as <-. injection He as <-. lia. }
  split; [exact H|]. split; [unfold handleSubmit; rewrite H; reflexivity|].
  cbv zeta. unfold checkCapacity.
  destruct (truthy_str (engineerId v) && truthy_str (startDate v)
            && truthy_str (endDate v)).
  - destruct capacityResp as [capacity|msg];
      cbn [AppContext.getEngineerCapacity];
      (split;
       [destruct (find _ engineers); reflexivity
       |intros _ x Hx; rewrite Hx; eexists; reflexivity]).
  - split; [reflexivity | discriminate].
Qed.

End Validation.

(** ** Concrete runs *)

Section Runs.
Import AssignmentsPage Samples.

#[local] Existing Instance IsoDate.lib.

(** A new 60% assignment for the sample engineer over 10-20 January, where
    50 of her 100 are already taken: the alert is the only effect. *)
Lemma over_allocation_blocks_create :
  let d := mkData "u1" 60 "2025-01-10" "2025-01-20" in
  let taken :=
    Spec.computeAllocation "u1" (AppContext.assignments app)
      "2025-01-10" "2025-01-20" in
  let out := onSubmit d (ApiOk (mkAssignment "a9" "u1" 60 "2025-01-10" "2025-01-20"))
               (ApiOk [ada]) (creating (Spec.availableCapacity ada taken)) app in
  User.maxCapacity ada < 60 + taken
  /\ events out =
     [Alert "Engineer only has 50% capacity available. Please reduce the allocation percentage."]
  /\ ~ In (PostAssignment d) (events out)
  /\ AppContext.assignments (app_after out) = AppContext.assignments app.
Proof.
  cbv zeta. split; [vm_compute; reflexivity|].
  split; [vm_compute; reflexivity|].
  split; [|reflexivity].
  vm_compute. intros [H|[]]. discriminate H.
Qed.

Lemma onSubmit_new_assignment_witness :
  editingAssignment (creating 50) = None
  /\ existsb is_write
       (events (onSubmit (mkData "u1" 60 "2025-01-10" "2025-01-20")
                  (ApiErr "Request failed") (ApiOk [ada]) (creating 50) app))
     = false.
Proof.
  split; [reflexivity|].
  exact (proj1 (onSubmit_new_assignment
                  (mkData "u1" 60 "2025-01-10" "2025-01-20")
                  (ApiErr "Request failed") (ApiOk [ada]) (creating 50) app
                  eq_refl)).
Defined.

(** The edit of [february] to 60% over 15 January - 15 February, where
    the other assignments of the engineer take 50 of her 100 in that
    range: the update is sent and nothing warns. *)
Lemma edit_sends_update_without_warning :
  let d := mkData "u1" 60 "2025-01-15" "2025-02-15" in
  let taken :=
    Spec.computeAllocation "u1" (others "a2" (AppContext.assignments app))
      "2025-01-15" "2025-02-15" in
  let out := onSubmit d (ApiOk (mkAssignment "a2" "u1" 60 "2025-01-15" "2025-02-15"))
               (ApiOk [ada]) (editing (Spec.availableCapacity ada taken)) app in
  User.maxCapacity ada < 60 + taken
  /\ events out =
     [PutAssignment "a2" d; GetEngineers;
      Alert "Assignment updated successfully!"; FormReset].
Proof. cbv zeta. split; vm_compute; reflexivity. Qed.

Lemma onSubmit_edit_skips_check_witness :
  editingAssignment (editing 50) = Some february
  /\ exceedsAvailable (editing 50) (mkData "u1" 60 "2025-01-15" "2025-02-15")
     = None.
Proof.
  split; [reflexivity|].
  exact (proj1 (onSubmit_edit_skips_check
                  (mkData "u1" 60 "2025-01-15" "2025-02-15")
                  (ApiErr "Request failed") (ApiOk [ada]) (editing 50) app
                  february eq_refl)).
Defined.

(** A failed capacity request for the sample engineer: the answer is 0,
    where zero allocation would leave her whole capacity of 100. *)
Lemma failed_lookup_is_not_full_capacity :
  fst (AppContext.getEngineerCapacity "u1" "2025-01-10" "2025-01-20"
         (ApiErr "Failed to load engineer capacity")) = 0
  /\ Spec.availableCapacity ada 0 = 100
  /\ fst (AppContext.getEngineerCapacity "u1" "2025-01-10" "2025-01-20"
            (ApiErr "Failed to load engineer capacity"))
     <> Spec.availableCapacity ada 0.
Proof. repeat split. vm_compute. discriminate. Qed.

Lemma failed_lookup_zero_available_witness :
  truthy_str "u1" && truthy_str "2025-01-10" && truthy_str "2025-01-20" = true
  /\ fst (AppContext.getEngineerCapacity "u1" "2025-01-10" "2025-01-20"
            (ApiErr "Failed to load engineer capacity")) = 0.
Proof.
  split; [reflexivity|].
  exact (proj1 (failed_lookup_zero_available [ada] "u1" "2025-01-10"
                  "2025-01-20" "Failed to load engineer capacity"
                  (creating 50) eq_refl)).
Defined.

(** The same failed request for an engineer who is not among the loaded
    engineers, on a fresh form: nothing is stored, and a new assignment
    of 100 percent is sent. *)
Example failed_lookup_unknown_engineer :
  let run := checkCapacity [] "u1" "2025-01-10" "2025-01-20"
               (ApiErr "Failed to load engineer capacity") fresh in
  let d := mkData "u1" 100 "2025-01-10" "2025-01-20" in
  fst run = fresh
  /\ events (onSubmit d (ApiOk (mkAssignment "a9" "u1" 100 "2025-01-10" "2025-01-20"))
               (ApiOk [ada]) (fst run) app)
     = [PostAssignment d; GetEngineers;
        Alert "Assignment created successfully!"; FormReset].
Proof. cbv zeta. split; reflexivity. Qed.

(** At midnight of 1 January the assignment that starts at that instant
    passes the spec's inclusive test and fails the activity test; so does,
    at midnight of 31 January, the assignment that ends there. *)
Lemma boundary_instant_not_in_range :
  parseISO (Assignment.startDate january) = Some jan01
  /\ parseISO (Assignment.endDate january) = Some 1738281600000
  /\ Spec.overlaps jan01 1738281600000 jan01 jan01 = true
  /\ EngineerDashboard.isActive jan01 january = false
  /\ Spec.overlaps jan01 1738281600000 1738281600000 1738281600000 = true
  /\ EngineerDashboard.isActive 1738281600000 january = false.
Proof. repeat split. Qed.

(** At that instant the spec's allocation of the sample engineer over the
    range [1 January, 1 January] is 50, the workload of the dashboard 0. *)
Lemma boundary_assignment_not_summed :
  Spec.computeAllocation "u1" (AppContext.assignments app)
    "2025-01-01" "2025-01-01" = 50
  /\ EngineerDashboard.currentWorkload jan01 (Some ada)
       (AppContext.assignments app) = 0
  /\ EngineerDashboard.currentWorkload jan01 (Some ada)
       (AppContext.assignments app)
     <> Spec.computeAllocation "u1" (AppContext.assignments app)
          "2025-01-01" "2025-01-01".
Proof. repeat split. vm_compute. discriminate. Qed.

(** The engineer of capacity 0 with no assignment is shown 100 available,
    where [max(0, maxCapacity - allocated)] is 0. *)
Lemma zero_capacity_shows_100 :
  User.maxCapacity idle = 0
  /\ EngineerDashboard.currentWorkload jan15 (Some idle) [] = 0
  /\ EngineerDashboard.availableCapacity jan15 (Some idle) [] = 100
  /\ EngineerDashboard.availableCapacity jan15 (Some idle) []
     <> Spec.availableCapacity idle
          (EngineerDashboard.currentWorkload jan15 (Some idle) []).
Proof. repeat split. vm_compute. discriminate. Qed.

(** The engineer of capacity 0 and allocation 0 has the finite
    utilization 0 on the engineers page. *)
Lemma zero_capacity_zero_allocation_is_finite :
  User.maxCapacity idle = 0
  /\ EngineersPage.utilizationPercentage idle = JsNum.of_Z 0
  /\ JsNum.isFinite (EngineersPage.utilizationPercentage idle) = true.
Proof. repeat split. Qed.

Lemma over_allocated_iff_witness :
  (forall e, In e [ada; overbooked; full] -> 0 <= User.maxCapacity e)
  /\ ManagerDashboard.overAllocatedEngineers [ada; overbooked; full]
     = Z.of_nat (List.length [overbooked])
  /\ option_map
       (fun d => AnalyticsPage.Kpis.overAllocatedEngineers
                   (AnalyticsPage.Data.kpis d))
       (AnalyticsPage.analyticsData [ada; overbooked; full] [portal] [january])
     = Some 1.
Proof.
  assert (H : forall e, In e [ada; overbooked; full] ->
                        0 <= User.maxCapacity e).
  { intros e [<-|[<-|[<-|[]]]]; simpl; lia. }
  split; [exact H|]. split.
  - exact (proj1 (over_allocated_iff [ada; overbooked; full] [portal]
                    [january] H)).
  - reflexivity.
Defined.

Lemma end_before_start_rejected_witness :
  newDate "2025-01-31" = Some 1738281600000
  /\ newDate "2025-01-01" = Some jan01
  /\ jan01 < 1738281600000
  /\ assignmentSchema (mkValues "u1" (Some 50) "2025-01-31" "2025-01-01")
     = None.
Proof.
  assert (H : jan01 < 1738281600000) by (unfold jan01; lia).
  split; [reflexivity|]. split; [reflexivity|]. split; [exact H|].
  exact (proj1 (end_before_start_rejected
                  (mkValues "u1" (Some 50) "2025-01-31" "2025-01-01")
                  (ApiErr "Request failed") (ApiOk [ada]) [ada] (ApiOk 50)
                  fresh app 1738281600000 jan01 eq_refl eq_refl H)).
Defined.

(** The form filled in for the sample engineer with the end date,
    1 January, before the start date, 31 January: the submission is
    rejected, yet the capacity check of the form has asked the server for
    the capacity over that reversed range and stored the answer. *)
Lemma reversed_dates_still_query_capacity :
  let v := mkValues "u1" (Some 50) "2025-01-31" "2025-01-01" in
  let run := checkCapacity [ada] (engineerId v) (startDate v) (endDate v)
               (ApiOk 50) fresh in
  newDate (endDate v) = Some jan01
  /\ newDate (startDate v) = Some 1738281600000
  /\ assignmentSchema v = None
  /\ snd run = [GetEngineerCapacity "u1" "2025-01-31" "2025-01-01"]
  /\ capacityInfo (fst run)
     = Some {| available := 50;
               message := "50% capacity available during this period" |}.
Proof. cbv zeta. repeat split. Qed.

Lemma assignment_mutations_atomic_witness :
  AppContext.assignments
    (AppContext.appReducer app (AppContext.DELETE_ASSIGNMENT_SUCCESS "a1"))
  = [february; other_engineer].
Proof.
  destruct (assignment_mutations_atomic app "Request failed" "a1"
              (mkData "u1" 60 "2025-01-10" "2025-01-20") (ApiOk [ada]))
    as (_ & _ & _ & _ & _ & _ & _ & _ & H).
  apply (H [] january [february; other_engineer]).
  - reflexivity.
  - reflexivity.
  - intros b [<-|[<-|[]]]; discriminate.
Defined.

(** The sample engineer on 15 January: her January assignment counts,
    the February one and the other engineer's do not. *)
Example dashboard_mid_january :
  EngineerDashboard.activeAssignments jan15 (Some ada)
    (AppContext.assignments app) = [january]
  /\ EngineerDashboard.currentWorkload jan15 (Some ada)
       (AppContext.assignments app) = 50
  /\ EngineerDashboard.availableCapacity jan15 (Some ada)
       (AppContext.assignments app) = 50
  /\ ManagerDashboard.isOverAllocated ada = false.
Proof. repeat split. Qed.

(** An engineer allocated at exactly her capacity is drawn in the red
    class of [getCapacityColor], whose threshold is [>= 100], while the
    label and the counters, which test [> 100], do not call her
    over-allocated. *)
Example full_allocation_is_red_only :
  let full := mkEngineer "u3" 100 (Some 100) in
  Utils.getCapacityColor (EngineersPage.utilizationPercentage full)
  = "text-red-600 bg-red-50"
  /\ EngineersPage.utilizationLabel (EngineersPage.utilizationPercentage full)
     = "High utilization"
  /\ ManagerDashboard.isOverAllocated full = false
  /\ AnalyticsPage.isOverAllocated (AnalyticsPage.utilizationRow full) = false.
Proof. repeat split. Qed.

(** The analytics rows and the engineers page subtract without clamping:
    an over-allocated engineer is shown a negative availability there. *)
Example unclamped_available_elsewhere :
  let over := mkEngineer "u4" 100 (Some 120) in
  AnalyticsPage.available (AnalyticsPage.utilizationRow over) = -20
  /\ EngineersPage.availableShown over = -20
  /\ ManagerDashboard.isOverAllocated over = true
  /\ AnalyticsPage.isOverAllocated (AnalyticsPage.utilizationRow over) = true.
Proof. repeat split. Qed.

(** A valid submission of a new assignment that fits: the create request
    goes out and the reducer puts the new assignment first. *)
Example fitting_create_is_sent :
  let v := mkValues "u1" (Some 40) "2025-01-10" "2025-01-20" in
  let created := mkAssignment "a9" "u1" 40 "2025-01-10" "2025-01-20" in
  let out := handleSubmit v (ApiOk created) (ApiOk [ada]) (creating 50) app in
  events out =
    [PostAssignment (mkData "u1" 40 "2025-01-10" "2025-01-20"); GetEngineers;
     Alert "Assignment created successfully!"; FormReset]
  /\ AppContext.assignments (app_after out)
     = created :: AppContext.assignments app
  /\ capacityInfo (page_after out) = None.
Proof. repeat split. Qed.

End Runs.

(** ** Rounding to a double *)

Section Doubles.

Lemma Qabs_le_both (x y : Q) : (- y <= x)%Q -> (x <= y)%Q -> (Qabs x <= y)%Q.
Proof. intros. apply Qabs_Qle_condition. split; assumption. Qed.

Lemma Qabs_ge_neg (x : Q) : (- x <= Qabs x)%Q.
Proof. rewrite <- Qabs_opp. apply Qle_Qabs. Qed.

(** [nearestEven x] is an integer nearest to [x]. *)
Lemma nearestEven_spec (x : Q) :
  (Qabs (x - inject_Z (JsNum.nearestEven x)) <= 1 # 2)%Q
  /\ forall j : Z,
       (Qabs (x - inject_Z (JsNum.nearestEven x)) <= Qabs (x - inject_Z j))%Q.
Proof.
  unfold JsNum.nearestEven. cbv zeta.
  set (f := Qfloor x).
  pose proof (Qfloor_le x) as Hlo. pose proof (Qlt_floor x) as Hhi.
  fold f in Hlo, Hhi. rewrite inject_Z_plus in Hhi.
  change (inject_Z 1) with 1%Q in Hhi.
  assert (Hj : forall j : Z, (inject_Z j <= inject_Z f)%Q
                             \/ (inject_Z f + 1 <= inject_Z j)%Q).
  { intros j. destruct (Z_le_gt_dec j f) as [L|G].
    - left. now rewrite Zle_Qle in L.
    - right. assert (f + 1 <= j) as L by lia. rewrite Zle_Qle in L.
      rewrite inject_Z_plus in L. exact L. }
  assert (Hf1 : (inject_Z (f + 1) == inject_Z f + 1)%Q)
    by (rewrite inject_Z_plus; reflexivity).
  assert (Hdown : (x - inject_Z f <= 1 # 2)%Q ->
            (Qabs (x - inject_Z f) <= 1 # 2)%Q
            /\ forall j : Z, (Qabs (x - inject_Z f) <= Qabs (x - inject_Z j))%Q).
  { intros H. split.
    - apply Qabs_le_both; lra.
    - intros j. pose proof (Qle_Qabs (x - inject_Z j)).
      pose proof (Qabs_ge_neg (x - inject_Z j)).
      apply Qabs_le_both; destruct (Hj j); lra. }
  assert (Hup : (1 # 2 <= x - inject_Z f)%Q ->
            (Qabs (x - inject_Z (f + 1)) <= 1 # 2)%Q
            /\ forall j : Z,
                 (Qabs (x - inject_Z (f + 1)) <= Qabs (x - inject_Z j))%Q).
  { intros H. rewrite Hf1. split.
    - apply Qabs_le_both; lra.
    - intros j. pose proof (Qle_Qabs (x - inject_Z j)).
      pose proof (Qabs_ge_neg (x - inject_Z j)).
      apply Qabs_le_both; destruct (Hj j); lra. }
  destruct (Qcompare (x - inject_Z f) (1 # 2)) eqn:C.
  - apply Qeq_alt in C. destruct (Z.even f); [apply Hdown|apply Hup]; lra.
  - apply Qlt_alt in C. apply Hdown. lra.
  - apply Qgt_alt in C. apply Hup. lra.
Qed.

Lemma nearestEven_between (x : Q) (lo hi : Z) :
  (inject_Z lo <= x)%Q -> (x <= inject_Z hi)%Q ->
  lo <= JsNum.nearestEven x <= hi.
Proof.
  intros Hlo Hhi. destruct (nearestEven_spec x) as [_ Hn].
  set (m := JsNum.nearestEven x) in *.
  split.
  - destruct (Z_le_gt_dec lo m) as [L|G]; [exact L|exfalso].
    specialize (Hn lo).
    assert (m + 1 <= lo) as L by lia. rewrite Zle_Qle in L.
    rewrite inject_Z_plus in L. change (inject_Z 1) with 1%Q in L.
    rewrite (Qabs_pos (x - inject_Z lo)) in Hn by lra.
    pose proof (Qle_Qabs (x - inject_Z m)). lra.
  - destruct (Z_le_gt_dec m hi) as [L|G]; [exact L|exfalso].
    specialize (Hn hi).
    assert (hi + 1 <= m) as L by lia. rewrite Zle_Qle in L.
    rewrite inject_Z_plus in L. change (inject_Z 1) with 1%Q in L.
    rewrite (Qabs_neg (x - inject_Z hi)) in Hn by lra.
    pose proof (Qabs_ge_neg (x - inject_Z m)). lra.
Qed.

Lemma pow2_pos (e : Z) : (0 < 2 ^ e)%Q.
Proof. apply Qpower_0_lt. reflexivity. Qed.

Lemma pow2_succ (e : Z) : (2 ^ (e + 1) == 2 * 2 ^ e)%Q.
Proof. rewrite Qpower_plus by discriminate. rewrite Qmult_comm. reflexivity. Qed.

Lemma pow2_pred (e : Z) : (2 * 2 ^ (e - 1) == 2 ^ e)%Q.
Proof.
  rewrite <- pow2_succ. replace (e - 1 + 1) with e by lia. reflexivity.
Qed.

Lemma pow2_Z (n : Z) : 0 <= n -> (inject_Z (2 ^ n) == 2 ^ n)%Q.
Proof. intros H. now rewrite Zpower_Qpower. Qed.

Lemma pow2_53 : (inject_Z (2 ^ 53) == 2 * inject_Z (2 ^ 52))%Q.
Proof. reflexivity. Qed.

Lemma pow2_le (b e : Z) : b <= e -> (2 ^ b <= 2 ^ e)%Q.
Proof. intros H. apply Qpower_le_compat_l; [exact H | lra]. Qed.

Lemma pow2_split (b e : Z) :
  e <= b -> (2 ^ b == inject_Z (2 ^ (b - e)) * 2 ^ e)%Q.
Proof.
  intros H. rewrite pow2_Z by lia. rewrite <- Qpower_plus by discriminate.
  replace (b - e + e) with b by lia. reflexivity.
Qed.

Lemma quotient_lt (x y z : Q) : (0 < y)%Q -> (x * y < z * y)%Q -> (x < z)%Q.
Proof. intros Hy H. nra. Qed.

Lemma binade_bounds (q nQ dQ QA QC Pt : Q) :
  (0 < Pt)%Q -> (0 < QC)%Q ->
  (QA <= nQ)%Q -> (nQ < 2 * QA)%Q -> (QC <= dQ)%Q -> (dQ < 2 * QC)%Q ->
  (Pt * QC == QA)%Q -> (q * dQ == nQ)%Q ->
  (Pt < 2 * q)%Q /\ (q < 2 * Pt)%Q.
Proof.
  intros HPt HQC Ha1 Ha2 Hc1 Hc2 Hk Hqd. split.
  - apply (quotient_lt _ dQ); [lra|].
    assert (Pt * dQ < Pt * (2 * QC))%Q by nra. lra.
  - apply (quotient_lt _ dQ); [lra|].
    assert (Pt * QC <= Pt * dQ)%Q by nra. lra.
Qed.

(** The exponent chosen for a positive [q] puts [q / 2^e] in
    [[2^52, 2^53)]. *)
Lemma ulpExponent_spec (q : Q) :
  (0 < q)%Q ->
  (inject_Z (2 ^ 52) * 2 ^ JsNum.ulpExponent q <= q)%Q
  /\ (q < inject_Z (2 ^ 53) * 2 ^ JsNum.ulpExponent q)%Q.
Proof.
  intros Hq. unfold JsNum.ulpExponent. cbv zeta.
  destruct q as [n d]. cbn [Qnum Qden].
  assert (Hn : 0 < n) by (unfold Qlt in Hq; simpl in Hq; lia).
  set (a := Z.log2 n). set (c := Z.log2 (Zpos d)).
  set (k := a - c - 52).
  pose proof (Z.log2_spec n Hn) as Ha. fold a in Ha.
  pose proof (Z.log2_spec (Zpos d) ltac:(lia)) as Hc. fold c in Hc.
  pose proof (Z.log2_nonneg n) as Ha0. fold a in Ha0.
  pose proof (Z.log2_nonneg (Zpos d)) as Hc0. fold c in Hc0.
  rewrite <- !Z.add_1_r in Ha, Hc.
  destruct Ha as [Ha1 Ha2], Hc as [Hc1 Hc2].
  rewrite Zle_Qle in Ha1, Hc1. rewrite Zlt_Qlt in Ha2, Hc2.
  rewrite !pow2_Z in Ha1, Ha2, Hc1, Hc2 by lia.
  rewrite pow2_succ in Ha2, Hc2.
  assert (Hk : (inject_Z (2 ^ 52) * 2 ^ k * 2 ^ c == 2 ^ a)%Q).
  { rewrite pow2_Z by lia. rewrite <- !Qpower_plus by discriminate.
    replace (52 + k + c) with a by lia. reflexivity. }
  assert (HPt : (0 < inject_Z (2 ^ 52) * 2 ^ k)%Q).
  { pose proof (pow2_pos k).
    assert (0 < inject_Z (2 ^ 52))%Q by reflexivity. nra. }
  assert (Hqd : ((n # d) * inject_Z (Zpos d) == inject_Z n)%Q).
  { unfold Qeq, Qmult, inject_Z. simpl. rewrite Pos.mul_1_r. lia. }
  destruct (binade_bounds (n # d) (inject_Z n) (inject_Z (Zpos d))
              (2 ^ a) (2 ^ c) (inject_Z (2 ^ 52) * 2 ^ k)
              HPt (pow2_pos c) Ha1 Ha2 Hc1 Hc2 Hk Hqd) as [Hlow Hhigh].
  rewrite pow2_53.
  destruct (Qle_bool (inject_Z (2 ^ 52) * 2 ^ k) (n # d)) eqn:E.
  - apply Qle_bool_iff in E. split; [exact E | lra].
  - assert (Hlt : (n # d < inject_Z (2 ^ 52) * 2 ^ k)%Q).
    { apply Qnot_le_lt. intros H. apply Qle_bool_iff in H. congruence. }
    pose proof (pow2_pred k) as Hpred.
    set (t := (2 ^ k)%Q) in *. set (t' := (2 ^ (k - 1))%Q) in *.
    set (P := inject_Z (2 ^ 52)) in *. set (q := (n # d)%Q) in *.
    clearbody t t' P q. split; nra.
Qed.

Lemma Qabs_scale (y u : Q) : (0 < u)%Q -> (Qabs (y * u) == Qabs y * u)%Q.
Proof.
  intros Hu. rewrite Qabs_Qmult. rewrite (Qabs_pos u) by lra. reflexivity.
Qed.

(** On a positive [q] the rounding is representable, positive and as
    near to [q] as any representable number. *)
Lemma rnPositive_spec (q : Q) :
  (0 < q)%Q ->
  representable (JsNum.rnPositive q)
  /\ (0 < JsNum.rnPositive q)%Q
  /\ forall f, representable f ->
               (Qabs (q - JsNum.rnPositive q) <= Qabs (q - f))%Q.
Proof.
  intros Hq. unfold JsNum.rnPositive. cbv zeta.
  destruct (ulpExponent_spec q Hq) as [Hlo Hhi].
  set (e := JsNum.ulpExponent q) in *.
  pose proof (pow2_pos e) as Hu.
  assert (Hx : (q / 2 ^ e * 2 ^ e == q)%Q) by (field; lra).
  set (u := (2 ^ e)%Q) in *. set (x := (q / u)%Q) in *.
  assert (Hxlo : (inject_Z (2 ^ 52) <= x)%Q).
  { apply Qnot_lt_le. intros H.
    assert (x * u < inject_Z (2 ^ 52) * u)%Q by nra. lra. }
  assert (Hxhi : (x <= inject_Z (2 ^ 53))%Q).
  { apply Qnot_lt_le. intros H.
    assert (inject_Z (2 ^ 53) * u < x * u)%Q by nra. lra. }
  pose proof (nearestEven_between x _ _ Hxlo Hxhi) as Hm.
  destruct (nearestEven_spec x) as [_ Hnear].
  set (m := JsNum.nearestEven x) in *.
  assert (Hscale : forall j : Z,
            (Qabs (q - inject_Z m * u) <= Qabs (q - inject_Z j * u))%Q).
  { intros j.
    assert (E1 : (q - inject_Z m * u == (x - inject_Z m) * u)%Q)
      by (rewrite <- Hx at 1; ring).
    assert (E2 : (q - inject_Z j * u == (x - inject_Z j) * u)%Q)
      by (rewrite <- Hx at 1; ring).
    rewrite E1, E2, !Qabs_scale by exact Hu.
    specialize (Hnear j). nra. }
  split; [|split].
  - exists m, e. split; [lia | reflexivity].
  - assert (0 < inject_Z m)%Q.
    { change 0%Q with (inject_Z 0). rewrite <- Zlt_Qlt. lia. }
    nra.
  - intros f [a [b [Ha Hf]]]. rewrite Hf.
    destruct (Z_le_gt_dec e b) as [L|G].
    + (* the same exponent or a larger one: [f] is a multiple of [u] *)
      rewrite (pow2_split b e L). fold u.
      rewrite Qmult_assoc, <- inject_Z_mult. apply Hscale.
    + (* a smaller exponent: [f] is at most the low end of the binade *)
      assert (Hb : (2 * 2 ^ b <= u)%Q).
      { rewrite <- pow2_succ. apply pow2_le. lia. }
      pose proof (pow2_pos b) as Hbp. set (v := (2 ^ b)%Q) in *.
      assert (Ha53 : (inject_Z a <= inject_Z (2 ^ 53))%Q)
        by (rewrite <- Zle_Qle; lia).
      assert (Hfle : (inject_Z a * v <= inject_Z (2 ^ 52) * u)%Q).
      { rewrite pow2_53 in Ha53.
        assert (inject_Z a * v <= 2 * inject_Z (2 ^ 52) * v)%Q by nra.
        assert (0 < inject_Z (2 ^ 52))%Q by reflexivity. nra. }
      eapply Qle_trans; [apply (Hscale (2 ^ 52))|].
      rewrite (Qabs_pos (q - inject_Z (2 ^ 52) * u)) by lra.
      pose proof (Qle_Qabs (q - inject_Z a * v)). lra.
Qed.

Lemma representable_opp (f : Q) : representable f -> representable (- f).
Proof.
  intros [m [e [Hm Hf]]]. exists (- m), e. split; [lia|].
  rewrite Hf, inject_Z_opp. ring.
Qed.

Lemma representable_Z (z : Z) :
  Z.abs z <= 2 ^ 53 -> representable (inject_Z z).
Proof.
  intros Hz. exists z, 0. split; [exact Hz|].
  change (2 ^ 0)%Q with 1%Q. ring.
Qed.

(** Equal rationals round to the same fraction. *)
Lemma rn_comp (q q' : Q) : (q == q')%Q -> JsNum.rn q = JsNum.rn q'.
Proof. intros H. unfold JsNum.rn. now rewrite (Qred_complete q q' H). Qed.

(** [rn q] is a representable number nearest to [q]. *)
Lemma rn_spec (q : Q) :
  representable (JsNum.rn q)
  /\ forall f, representable f ->
               (Qabs (q - JsNum.rn q) <= Qabs (q - f))%Q.
Proof.
  unfold JsNum.rn. cbv zeta. pose proof (Qred_correct q) as Hr.
  set (r := Qred q) in *.
  destruct (Qnum r) as [|p|p] eqn:En.
  - assert (Hq0 : (q == 0)%Q).
    { rewrite <- Hr. destruct r as [n d]. simpl in En. subst n. reflexivity. }
    split; [apply (representable_Z 0); simpl; lia|].
    intros f _. rewrite Hq0. apply Qabs_nonneg.
  - assert (Hpos : (0 < r)%Q).
    { destruct r as [n d]. simpl in En. subst n. reflexivity. }
    destruct (rnPositive_spec r Hpos) as [HF [_ Hnear]].
    split; [exact HF|]. intros f Hf. rewrite <- Hr. apply Hnear, Hf.
  - assert (Hpos : (0 < - r)%Q).
    { destruct r as [n d]. simpl in En. subst n. reflexivity. }
    destruct (rnPositive_spec (- r) Hpos) as [HF [_ Hnear]].
    split; [apply representable_opp, HF|]. intros f Hf.
    specialize (Hnear (- f)%Q (representable_opp f Hf)).
    rewrite <- Hr.
    assert (E1 : (r - - JsNum.rnPositive (- r)
                  == - (- r - JsNum.rnPositive (- r)))%Q) by ring.
    assert (E2 : (r - f == - (- r - - f))%Q) by ring.
    rewrite E1, E2, !Qabs_opp. exact Hnear.
Qed.

(** Rounding keeps the sign. *)
Lemma rn_sign (q : Q) :
  ((0 < q)%Q -> (0 < JsNum.rn q)%Q)
  /\ ((q < 0)%Q -> (JsNum.rn q < 0)%Q)
  /\ ((q == 0)%Q -> JsNum.rn q = 0%Q).
Proof.
  unfold JsNum.rn. cbv zeta. pose proof (Qred_correct q) as Hr.
  set (r := Qred q) in *.
  destruct (Qnum r) as [|p|p] eqn:En.
  - assert (Hq0 : (q == 0)%Q).
    { rewrite <- Hr. destruct r as [n d]. simpl in En. subst n. reflexivity. }
    repeat split; intros H; try reflexivity; lra.
  - assert (Hpos : (0 < r)%Q).
    { destruct r as [n d]. simpl in En. subst n. reflexivity. }
    destruct (rnPositive_spec r Hpos) as [_ [Hp _]].
    repeat split; intros H; try lra; exact Hp.
  - assert (Hpos : (0 < - r)%Q).
    { destruct r as [n d]. simpl in En. subst n. reflexivity. }
    destruct (rnPositive_spec (- r) Hpos) as [_ [Hp _]].
    repeat split; intros H; lra.
Qed.

(** A representable number is not changed. *)
Lemma rn_id (f : Q) : representable f -> (JsNum.rn f == f)%Q.
Proof.
  intros Hf. destruct (rn_spec f) as [_ Hnear]. specialize (Hnear f Hf).
  assert (E : (f - f == 0)%Q) by ring. rewrite E in Hnear.
  change (Qabs 0) with 0%Q in Hnear.
  pose proof (Qle_Qabs (f - JsNum.rn f)).
  pose proof (Qabs_ge_neg (f - JsNum.rn f)).
  lra.
Qed.

Lemma rn_Z (z : Z) :
  Z.abs z <= 2 ^ 53 -> (JsNum.rn (inject_Z z) == inject_Z z)%Q.
Proof. intros H. apply rn_id, representable_Z, H. Qed.

(** Rounding is monotone. *)
Lemma rn_mono (a b : Q) : (a <= b)%Q -> (JsNum.rn a <= JsNum.rn b)%Q.
Proof.
  intros Hab. destruct (Qeq_dec a b) as [E|N].
  - rewrite (rn_comp a b E). apply Qle_refl.
  - assert (Hlt : (a < b)%Q).
    { apply Qnot_le_lt. intros H. apply N. now apply Qle_antisym. }
    apply Qnot_lt_le. intros Hinv.
    destruct (rn_spec a) as [Fa Na], (rn_spec b) as [Fb Nb].
    specialize (Na (JsNum.rn b) Fb). specialize (Nb (JsNum.rn a) Fa).
    set (fa := JsNum.rn a) in *. set (fb := JsNum.rn b) in *.
    clearbody fa fb.
    pose proof (Qabs_ge_neg (a - fa)) as H1.
    pose proof (Qle_Qabs (b - fb)) as H2.
    destruct (Qlt_le_dec a fb) as [L1|L1].
    + rewrite (Qabs_neg (a - fb)) in Na by lra. lra.
    + rewrite (Qabs_pos (a - fb)) in Na by lra.
      destruct (Qlt_le_dec fa b) as [L2|L2].
      * rewrite (Qabs_pos (b - fa)) in Nb by lra. lra.
      * rewrite (Qabs_neg (b - fa)) in Nb by lra. lra.
Qed.

Lemma rn_opp (q : Q) : (JsNum.rn (- q) == - JsNum.rn q)%Q.
Proof.
  unfold JsNum.rn. cbv zeta. rewrite Qred_opp.
  destruct (Qred q) as [n d]. destruct n as [|p|p]; cbn [Qnum Qopp Z.opp].
  - reflexivity.
  - reflexivity.
  - change (- (Z.neg p # d))%Q with (Z.pos p # d)%Q. ring.
Qed.

Lemma rn_nonneg (q : Q) : (0 <= q)%Q -> (0 <= JsNum.rn q)%Q.
Proof.
  intros H. change 0%Q with (JsNum.rn 0) at 1. apply rn_mono, H.
Qed.

Lemma rn_le_Z (q : Q) (z : Z) :
  Z.abs z <= 2 ^ 53 -> (q <= inject_Z z)%Q -> (JsNum.rn q <= inject_Z z)%Q.
Proof. intros Hz H. rewrite <- (rn_Z z Hz). apply rn_mono, H. Qed.

(** What lies closer to a representable [hi] than to [lo] below it is
    rounded above [lo]. *)
Lemma rn_above (q lo hi : Q) :
  representable hi -> (lo < hi)%Q -> (hi - q < q - lo)%Q ->
  (lo < JsNum.rn q)%Q.
Proof.
  intros Fhi Hlo Hcloser. apply Qnot_le_lt. intros Hle.
  destruct (rn_spec q) as [_ Hnear]. specialize (Hnear hi Fhi).
  pose proof (Qle_Qabs (q - JsNum.rn q)) as H1.
  destruct (Qlt_le_dec q hi) as [L|L].
  - rewrite (Qabs_neg (q - hi)) in Hnear by lra. lra.
  - rewrite (Qabs_pos (q - hi)) in Hnear by lra. lra.
Qed.

Lemma Qsign_pos (q : Q) : (0 < q)%Q -> JsNum.Qsign q = 1.
Proof.
  destruct q as [n d]. unfold Qlt, JsNum.Qsign. simpl. intros H.
  destruct n; simpl; lia.
Qed.

Lemma Qsign_rn (q : Q) : JsNum.Qsign (JsNum.rn q) = JsNum.Qsign q.
Proof.
  destruct (rn_sign q) as [Hp [Hn Hz]].
  destruct q as [n d]. destruct n as [|p|p].
  - rewrite Hz by reflexivity. reflexivity.
  - rewrite (Qsign_pos _ (Hp eq_refl)). reflexivity.
  - specialize (Hn eq_refl). destruct (JsNum.rn (Z.neg p # d)) as [n' d'].
    unfold Qlt, JsNum.Qsign in *. simpl in *. destruct n'; simpl; lia.
Qed.

End Doubles.

Section UtilsDates.
Context {DL : DateLib}.

Lemma daysCovering_bounds (ms : Z) :
  0 <= ms ->
  0 <= daysCovering ms
  /\ (daysCovering ms - 1) * msPerDay < ms <= daysCovering ms * msPerDay.
Proof.
  intros H. unfold daysCovering, msPerDay.
  pose proof (Z.div_mod (- ms) 86400000 ltac:(lia)) as E.
  pose proof (Z.mod_pos_bound (- ms) 86400000 ltac:(lia)) as B.
  lia.
Qed.

Lemma Qceiling_unique (y : Q) (n : Z) :
  (inject_Z (n - 1) < y)%Q -> (y <= inject_Z n)%Q -> Qceiling y = n.
Proof.
  intros Hlo Hhi.
  pose proof (Qle_ceiling y) as H1. pose proof (Qceiling_lt y) as H2.
  assert (L1 : (inject_Z (n - 1) < inject_Z (Qceiling y))%Q) by lra.
  assert (L2 : (inject_Z (Qceiling y - 1) < inject_Z n)%Q) by lra.
  rewrite <- Zlt_Qlt in L1, L2. lia.
Qed.

Lemma sub64_times (x y : Z) :
  JsNum.sub64 (JsNum.of_Z x) (JsNum.of_Z y)
  = JsNum.Fin (JsNum.rn (inject_Z (x - y))).
Proof.
  unfold JsNum.sub64, JsNum.sub, JsNum.of_Z, JsNum.round64. f_equal.
  apply rn_comp. unfold Z.sub. rewrite inject_Z_plus, inject_Z_opp.
  reflexivity.
Qed.

(** On two valid dates [getDaysBetween] is [daysOf] of the difference of
    the time values. *)
Lemma getDaysBetween_valid (a b : DateArg) (s e : Z) :
  Utils.toDate a = Some s -> Utils.toDate b = Some e ->
  Utils.getDaysBetween a b = JsNum.of_Z (daysOf (e - s)).
Proof.
  intros Ha Hb. unfold Utils.getDaysBetween. cbv zeta. rewrite Ha, Hb.
  change (1000 * 60 * 60 * 24) with 86400000.
  unfold Utils.getTime. rewrite sub64_times. reflexivity.
Qed.

Lemma daysOf_opp (ms : Z) : daysOf (- ms) = daysOf ms.
Proof.
  unfold daysOf. f_equal. apply rn_comp.
  rewrite inject_Z_opp, rn_opp, Qabs_opp. reflexivity.
Qed.

Lemma daysOf_sign (ms : Z) : 0 <= daysOf ms /\ (daysOf ms = 0 <-> ms = 0).
Proof.
  unfold daysOf. destruct (Z.eq_dec ms 0) as [->|Hne].
  - split; [discriminate | split; reflexivity].
  - set (r := JsNum.rn (inject_Z ms)).
    assert (Hr : (0 < Qabs r)%Q).
    { destruct (rn_sign (inject_Z ms)) as [Hp [Hn _]]. fold r in Hp, Hn.
      destruct (Z_lt_le_dec 0 ms) as [L|L].
      - apply Qabs_gt, Hp. now rewrite Zlt_Qlt in L.
      - assert (ms < 0) as L' by lia. rewrite Zlt_Qlt in L'.
        rewrite <- Qabs_opp. apply Qabs_gt.
        specialize (Hn L'). lra. }
    set (q := (Qabs r / inject_Z msPerDay)%Q).
    assert (Hq : (0 < q)%Q).
    { unfold q, msPerDay.
      assert (E : (Qabs r == Qabs r / inject_Z 86400000 * (86400000 # 1))%Q)
        by (field; discriminate).
      set (y := (Qabs r / inject_Z 86400000)%Q) in *. lra. }
    destruct (rn_sign q) as [Hp _]. specialize (Hp Hq).
    pose proof (Qle_ceiling (JsNum.rn q)) as Hc.
    assert (L : (inject_Z 0 < inject_Z (Qceiling (JsNum.rn q)))%Q)
      by (change (inject_Z 0) with 0%Q; lra).
    rewrite <- Zlt_Qlt in L. split; [lia|]. split; intros; lia.
Qed.

(** For time values at most [2^53] ms apart the two roundings lose
    nothing: the result is the exact number of days covering the
    distance. *)
Lemma daysOf_exact (ms : Z) :
  Z.abs ms <= 2 ^ 53 -> daysOf ms = daysCovering (Z.abs ms).
Proof.
  intros Hms. unfold daysOf.
  rewrite (rn_comp _ _ (Qdiv_comp _ _ (Qabs_wd _ _ (rn_Z ms Hms)) _ _
                          (Qeq_refl (inject_Z msPerDay)))).
  change (Qabs (inject_Z ms)) with (inject_Z (Z.abs ms)).
  set (d := Z.abs ms) in *. assert (Hd : 0 <= d) by (unfold d; lia).
  destruct (daysCovering_bounds d Hd) as [Hn0 [Hlo Hhi]].
  set (n := daysCovering d) in *. unfold msPerDay in *.
  pose proof Hlo as HloZ. pose proof Hhi as HhiZ.
  rewrite Zle_Qle in Hhi. rewrite Zlt_Qlt in Hlo.
  rewrite inject_Z_mult in Hlo, Hhi.
  set (q := (inject_Z d / inject_Z 86400000)%Q).
  assert (Hq : (q * inject_Z 86400000 == inject_Z d)%Q)
    by (unfold q; field; discriminate).
  change (inject_Z 86400000) with (86400000 # 1)%Q in *.
  apply Qceiling_unique.
  - destruct (Z.eq_dec n 0) as [E0|N0].
    + rewrite E0. eapply Qlt_le_trans; [|apply rn_nonneg].
      * reflexivity.
      * rewrite E0 in Hlo. change (inject_Z (0 - 1)) with (- 1 # 1)%Q in Hlo.
        assert (0 <= inject_Z d)%Q
          by (change 0%Q with (inject_Z 0); rewrite <- Zle_Qle; exact Hd).
        lra.
    + (* [n - 1 + 2^-26] is representable and nearer to [q] than [n - 1] *)
      apply (rn_above q (inject_Z (n - 1))
               (inject_Z ((n - 1) * 2 ^ 26 + 1) * 2 ^ (- 26))%Q).
      * exists ((n - 1) * 2 ^ 26 + 1), (- 26). split; [|reflexivity].
        assert (n * 86400000 < 2 ^ 53 + 86400000) by lia. lia.
      * rewrite inject_Z_plus, inject_Z_mult.
        change (2 ^ (- 26))%Q with (1 # 67108864)%Q.
        change (inject_Z (2 ^ 26)) with (67108864 # 1)%Q.
        change (inject_Z 1) with 1%Q. lra.
      * rewrite inject_Z_plus, inject_Z_mult.
        change (2 ^ (- 26))%Q with (1 # 67108864)%Q.
        change (inject_Z (2 ^ 26)) with (67108864 # 1)%Q.
        change (inject_Z 1) with 1%Q.
        assert (Hd1 : (inject_Z (n - 1) * (86400000 # 1) + 1 <= inject_Z d)%Q).
        { assert ((n - 1) * 86400000 + 1 <= d) as L by lia.
          rewrite Zle_Qle in L. rewrite inject_Z_plus, inject_Z_mult in L.
          exact L. }
        lra.
  - apply rn_le_Z; [lia|]. lra.
Qed.

Lemma Qabs_rn (q : Q) : (Qabs (JsNum.rn q) == JsNum.rn (Qabs q))%Q.
Proof.
  destruct (Qlt_le_dec q 0) as [L|L].
  - destruct (rn_sign q) as [_ [Hn _]]. specialize (Hn L).
    rewrite (Qabs_neg (JsNum.rn q)) by lra.
    rewrite <- rn_opp. rewrite (rn_comp (- q) (Qabs q)); [reflexivity|].
    rewrite Qabs_neg by lra. reflexivity.
  - pose proof (rn_nonneg q L) as H.
    rewrite (Qabs_pos (JsNum.rn q)) by exact H.
    rewrite (rn_comp q (Qabs q)); [reflexivity|].
    rewrite Qabs_pos by exact L. reflexivity.
Qed.

Lemma representable_days (k : Z) :
  0 <= k <= 200000001 -> representable (inject_Z (k * msPerDay)).
Proof.
  intros Hk. exists (k * 84375), 10. split.
  - rewrite Z.abs_eq by lia. change (2 ^ 53) with 9007199254740992. lia.
  - change (2 ^ 10)%Q with (inject_Z 1024). rewrite <- inject_Z_mult.
    unfold msPerDay. replace (k * 86400000) with (k * 84375 * 1024) by lia.
    reflexivity.
Qed.

(** Between any two valid dates the two roundings lose at most one
    day, and never add one. *)
Lemma daysOf_close (ms : Z) :
  Z.abs ms <= 2 * maxTimeValue ->
  daysCovering (Z.abs ms) - 1 <= daysOf ms <= daysCovering (Z.abs ms).
Proof.
  intros Hms. unfold daysOf, maxTimeValue in *.
  rewrite (rn_comp _ _ (Qdiv_comp _ _ (Qabs_rn (inject_Z ms)) _ _
                          (Qeq_refl (inject_Z msPerDay)))).
  change (Qabs (inject_Z ms)) with (inject_Z (Z.abs ms)).
  set (d := Z.abs ms) in *. assert (Hd : 0 <= d) by (unfold d; lia).
  destruct (daysCovering_bounds d Hd) as [Hn0 [Hlo Hhi]].
  set (n := daysCovering d) in *.
  assert (Hn : n <= 200000001) by (unfold msPerDay in *; lia).
  assert (Hup : (JsNum.rn (inject_Z d) <= inject_Z (n * msPerDay))%Q).
  { rewrite <- (rn_id _ (representable_days n ltac:(lia))).
    apply rn_mono. rewrite <- Zle_Qle. exact Hhi. }
  assert (Hdown : (inject_Z (Z.max (n - 1) 0 * msPerDay)
                   <= JsNum.rn (inject_Z d))%Q).
  { rewrite <- (rn_id _ (representable_days (Z.max (n - 1) 0) ltac:(lia))).
    apply rn_mono. rewrite <- Zle_Qle. unfold msPerDay in *. lia. }
  set (rd := JsNum.rn (inject_Z d)) in *.
  rewrite inject_Z_mult in Hup, Hdown. unfold msPerDay in *.
  set (q := (rd / inject_Z 86400000)%Q).
  assert (Hq : (q * inject_Z 86400000 == rd)%Q)
    by (unfold q; field; discriminate).
  change (inject_Z 86400000) with (86400000 # 1)%Q in *.
  assert (Hq1 : (q <= inject_Z n)%Q) by lra.
  assert (Hq0 : (inject_Z (Z.max (n - 1) 0) <= q)%Q) by lra.
  pose proof (rn_le_Z q n ltac:(lia) Hq1) as H1.
  assert (H0 : (inject_Z (Z.max (n - 1) 0) <= JsNum.rn q)%Q).
  { rewrite <- (rn_Z (Z.max (n - 1) 0)) by lia. apply rn_mono, Hq0. }
  apply Qceiling_resp_le in H1, H0. rewrite Qceiling_Z in H1, H0. lia.
Qed.

(** X1. [getDaysBetween] does not depend on the order of its arguments.
    On two valid dates it is a whole number of days, 0 only for equal
    instants; when the dates are at most [2^53] ms apart (some 285,000
    years) it is the least number of whole days that covers the distance
    between them, hence 1 as soon as they differ by a millisecond.
    Farther apart the rounding of the difference and of the quotient can
    lose a day: between any two time values a [Date] can hold the
    result is that least number of days or one less, and one less does
    happen.  As soon as a date is invalid it is [NaN] (the 0 of its
    [catch] branch is never returned). *)
Theorem getDaysBetween_days (a b : DateArg) :
  Utils.getDaysBetween a b = Utils.getDaysBetween b a
  /\ match Utils.toDate a, Utils.toDate b with
     | Some s, Some e =>
         exists n, Utils.getDaysBetween a b = JsNum.of_Z n
                   /\ 0 <= n
                   /\ (n = 0 <-> s = e)
                   /\ (Z.abs (e - s) <= 2 ^ 53 ->
                       (n - 1) * msPerDay < Z.abs (e - s) <= n * msPerDay)
                   /\ (Z.abs s <= maxTimeValue -> Z.abs e <= maxTimeValue ->
                       daysCovering (Z.abs (e - s)) - 1 <= n
                       <= daysCovering (Z.abs (e - s)))
     | _, _ => Utils.getDaysBetween a b = JsNum.NaN
     end
  /\ (let s := - maxTimeValue in
      let e := s + 199999999 * msPerDay + 1 in
      Z.abs e <= maxTimeValue
      /\ Utils.getDaysBetween (DObj (Some s)) (DObj (Some e))
         = JsNum.of_Z (daysCovering (Z.abs (e - s)) - 1)).
Proof.
  rewrite <- and_assoc. split; [|split; vm_compute; [discriminate|reflexivity]].
  destruct (Utils.toDate a) as [s|] eqn:Ha, (Utils.toDate b) as [e|] eqn:Hb.
  - rewrite (getDaysBetween_valid a b s e Ha Hb),
            (getDaysBetween_valid b a e s Hb Ha).
    split.
    + replace (s - e) with (- (e - s)) by lia. now rewrite daysOf_opp.
    + exists (daysOf (e - s)).
      destruct (daysOf_sign (e - s)) as [H0 Hz].
      split; [reflexivity|]. split; [exact H0|]. split; [|split].
      * rewrite Hz. lia.
      * intros Hclose. rewrite (daysOf_exact _ Hclose).
        apply daysCovering_bounds. lia.
      * intros Hs He. apply daysOf_close. lia.
  - unfold Utils.getDaysBetween. cbv zeta. rewrite Ha, Hb. split; reflexivity.
  - unfold Utils.getDaysBetween. cbv zeta. rewrite Ha, Hb. split; reflexivity.
  - unfold Utils.getDaysBetween. cbv zeta. rewrite Ha, Hb. split; reflexivity.
Qed.

(** Whatever the two roundings do, the rounded percentage of a part of
    a positive whole stays between 0 and 100. *)
Lemma progressOf_bounds (el tot : Z) :
  0 <= el <= tot -> 0 < tot -> 0 <= progressOf el tot <= 100.
Proof.
  intros [Hel1 Hel2] Htot. unfold progressOf.
  rewrite Zle_Qle in Hel1, Hel2. rewrite Zlt_Qlt in Htot.
  change (inject_Z 0) with 0%Q in *.
  pose proof (rn_nonneg _ Hel1) as He0.
  pose proof (rn_mono _ _ Hel2) as Hle.
  destruct (rn_sign (inject_Z tot)) as [Hp _]. specialize (Hp Htot).
  set (x := JsNum.rn (inject_Z el)) in *.
  set (y := JsNum.rn (inject_Z tot)) in *.
  assert (Hxy : (x / y * y == x)%Q) by (field; lra).
  set (r := (x / y)%Q) in *.
  assert (Hr0 : (0 <= r)%Q).
  { apply Qnot_lt_le. intros H. assert (r * y < 0)%Q by nra. lra. }
  assert (Hr1 : (r <= 1)%Q).
  { apply Qnot_lt_le. intros H. assert (1 * y < r * y)%Q by nra. lra. }
  pose proof (rn_nonneg _ Hr0) as Hq0.
  pose proof (rn_le_Z r 1 ltac:(simpl; lia) Hr1) as Hq1.
  change (inject_Z 1) with 1%Q in Hq1.
  set (ratio := JsNum.rn r) in *.
  change (inject_Z 100) with (100 # 1)%Q.
  assert (Hp0 : (0 <= ratio * (100 # 1))%Q) by lra.
  assert (Hp1 : (ratio * (100 # 1) <= inject_Z 100)%Q)
    by (change (inject_Z 100) with (100 # 1)%Q; lra).
  pose proof (rn_nonneg _ Hp0) as Hs0.
  pose proof (rn_le_Z _ 100 ltac:(simpl; lia) Hp1) as Hs1.
  change (inject_Z 100) with (100 # 1)%Q in Hs1.
  set (pct := JsNum.rn (ratio * (100 # 1))) in *.
  split.
  - change 0 with (Qfloor (inject_Z 0)). apply Qfloor_resp_le.
    change (inject_Z 0) with 0%Q. lra.
  - assert (L : (Qfloor (pct + (1 # 2)) <= Qfloor ((100 # 1) + (1 # 2)))%Z)
      by (apply Qfloor_resp_le; lra).
    exact L.
Qed.

(** Between two distinct valid dates [calculateProgress] is [progressOf]
    of the two differences of time values. *)
Lemma calculateProgress_valid (now s e : Z) :
  s <= now <= e -> s < e ->
  JsNum.round
    (JsNum.mul64
       (JsNum.div64 (JsNum.sub64 (JsNum.of_Z now) (JsNum.of_Z s))
                    (JsNum.sub64 (JsNum.of_Z e) (JsNum.of_Z s)))
       (JsNum.of_Z 100))
  = JsNum.of_Z (progressOf (now - s) (e - s)).
Proof.
  intros Hnow Hlt. rewrite !sub64_times.
  unfold JsNum.div64, JsNum.div. rewrite Qsign_rn.
  assert (Hs : JsNum.Qsign (inject_Z (e - s)) = 1).
  { apply Qsign_pos. change 0%Q with (inject_Z 0). rewrite <- Zlt_Qlt. lia. }
  rewrite Hs. reflexivity.
Qed.

(** X2. [calculateProgress] answers [NaN] or a whole percentage between
    0 and 100, never anything else, whatever the rounding of the
    division and of the product does.  On two valid dates it is [NaN]
    exactly when start, end and the current instant coincide; with an
    invalid end date it is [NaN] from the start date on, with an invalid
    start date up to the end date (the 0 of the [catch] branch is never
    returned).  The percentage is that of the doubles: 23 days into a
    range of 40 the product is just below 57.5 and the progress is 57. *)
Theorem calculateProgress_range (now : Z) (a b : DateArg) :
  (Utils.calculateProgress now a b = JsNum.NaN
   \/ exists p, Utils.calculateProgress now a b = JsNum.of_Z p
                /\ 0 <= p <= 100)
  /\ match Utils.toDate a, Utils.toDate b with
     | Some s, Some e =>
         Utils.calculateProgress now a b = JsNum.NaN <-> s = now /\ e = now
     | Some s, None =>
         Utils.calculateProgress now a b = JsNum.NaN <-> s <= now
     | None, Some e =>
         Utils.calculateProgress now a b = JsNum.NaN <-> now <= e
     | None, None => Utils.calculateProgress now a b = JsNum.NaN
     end
  /\ (forall s,
        Utils.calculateProgress (s + 23 * msPerDay)
          (DObj (Some s)) (DObj (Some (s + 40 * msPerDay)))
        = JsNum.of_Z 57).
Proof.
  rewrite <- and_assoc. split.
  2:{ intros s. unfold Utils.calculateProgress. cbv zeta.
      cbn [Utils.toDate isBefore isAfter Utils.getTime]. unfold msPerDay.
      replace (s + 23 * 86400000 <? s) with false
        by (symmetry; apply Z.ltb_ge; lia).
      replace (s + 40 * 86400000 <? s + 23 * 86400000) with false
        by (symmetry; apply Z.ltb_ge; lia).
      rewrite (calculateProgress_valid _ s _) by lia.
      replace (s + 23 * 86400000 - s) with 1987200000 by lia.
      replace (s + 40 * 86400000 - s) with 3456000000 by lia.
      vm_compute. reflexivity. }
  unfold Utils.calculateProgress. cbv zeta.
  destruct (Utils.toDate a) as [s|], (Utils.toDate b) as [e|];
    cbn [isBefore isAfter Utils.getTime].
  - destruct (Z.ltb_spec now s) as [Hs|Hs].
    { split; [right; exists 0; split; [reflexivity|lia]|].
      split; [discriminate | lia]. }
    destruct (Z.ltb_spec e now) as [He|He].
    { split; [right; exists 100; split; [reflexivity|lia]|].
      split; [discriminate | lia]. }
    destruct (Z.eq_dec s e) as [->|Hne].
    + assert (now = e) by lia. subst now.
      rewrite sub64_times. replace (e - e) with 0 by lia.
      split; [left; reflexivity|]. split; auto.
    + rewrite (calculateProgress_valid now s e) by lia.
      pose proof (progressOf_bounds (now - s) (e - s)) as Hb.
      split; [right; eexists; split; [reflexivity | apply Hb; lia]|].
      split; [discriminate | lia].
  - destruct (Z.ltb_spec now s) as [Hs|Hs].
    + split; [right; exists 0; split; [reflexivity|lia]|].
      split; [discriminate | lia].
    + simpl. split; [left; reflexivity|]. split; auto.
  - destruct (Z.ltb_spec e now) as [He|He].
    + split; [right; exists 100; split; [reflexivity|lia]|].
      split; [discriminate | lia].
    + simpl. split; [left; reflexivity|]. split; auto.
  - simpl. split; [left|]; reflexivity.
Qed.

End UtilsDates.

Section UtilsText.

Lemma length_substring0 (n : nat) (s : string) :
  String.length (String.substring 0 n s) = Nat.min n (String.length s).
Proof.
  revert n. induction s as [|c s IH]; intros [|n]; simpl; auto.
Qed.

Lemma length_append (s1 s2 : string) :
  String.length (s1 ++ s2)%string = (String.length s1 + String.length s2)%nat.
Proof. induction s1 as [|c s1 IH]; simpl; auto. Qed.

Lemma substring0_prefix (n : nat) (s : string) :
  String.prefix (String.substring 0 n s) s = true.
Proof.
  revert n. induction s as [|c s IH]; intros [|n]; simpl; auto.
  rewrite IH. destruct (Ascii.ascii_dec c c); [reflexivity|contradiction].
Qed.

(** X3. [truncateText(text, maxLength)] returns a text of at most
    [maxLength] code units as it is.  A longer text is cut: the result is
    a prefix of the text followed by three dots and nothing else; the
    prefix kept has [maxLength] code units, or for a negative
    [maxLength] the text without its last [-maxLength] code units.  The
    result is thus three longer than [maxLength], and can be longer than
    the text it shortens. *)
Theorem truncateText_length (text : string) (maxLength : Z) :
  (JsString.len text <= maxLength -> Utils.truncateText text maxLength = text)
  /\ (maxLength < JsString.len text ->
      exists kept,
        Utils.truncateText text maxLength = (kept ++ "...")%string
        /\ String.prefix kept text = true
        /\ JsString.len kept
           = (if maxLength <? 0 then Z.max (JsString.len text + maxLength) 0
              else maxLength))
  /\ JsString.len (Utils.truncateText text maxLength)
     = (if JsString.len text <=? maxLength then JsString.len text
        else if maxLength <? 0
             then Z.max (JsString.len text + maxLength) 0 + 3
             else maxLength + 3)
  /\ (JsString.len text = maxLength + 1 ->
      JsString.len text < JsString.len (Utils.truncateText text maxLength)).
Proof.
  assert (Hkept : maxLength < JsString.len text ->
            JsString.len (JsString.slice0 text maxLength)
            = (if maxLength <? 0 then Z.max (JsString.len text + maxLength) 0
               else maxLength)).
  { intros H. unfold JsString.slice0, JsString.len in *.
    rewrite length_substring0.
    destruct (Z.ltb_spec maxLength 0); lia. }
  assert (Hlen : JsString.len (Utils.truncateText text maxLength)
                 = (if JsString.len text <=? maxLength then JsString.len text
                    else if maxLength <? 0
                         then Z.max (JsString.len text + maxLength) 0 + 3
                         else maxLength + 3)).
  { unfold Utils.truncateText.
    destruct (Z.leb_spec (JsString.len text) maxLength) as [H|H];
      [reflexivity|].
    specialize (Hkept H). unfold JsString.len in *. rewrite length_append.
    simpl String.length at 2.
    destruct (maxLength <? 0); lia. }
  split; [|split; [|split]].
  - intros H. unfold Utils.truncateText.
    now replace (JsString.len text <=? maxLength) with true
      by (symmetry; apply Z.leb_le; exact H).
  - intros H. exists (JsString.slice0 text maxLength). split; [|split].
    + unfold Utils.truncateText.
      now replace (JsString.len text <=? maxLength) with false
        by (symmetry; apply Z.leb_gt; exact H).
    + apply substring0_prefix.
    + apply Hkept, H.
  - exact Hlen.
  - intros H. rewrite Hlen.
    replace (JsString.len text <=? maxLength) with false
      by (symmetry; apply Z.leb_gt; lia).
    destruct (Z.ltb_spec maxLength 0); lia.
Qed.

Lemma filter_id_length_le (l : list bool) :
  (List.length (filter (fun b : bool => b) l) <= List.length l)%nat.
Proof. induction l as [|[] l IH]; simpl; lia. Qed.

Lemma class_only (lo hi : Z) (p : ascii -> bool) (l : list ascii) :
  forallb (Utils.in_range lo hi) l = true ->
  (forall c, Utils.in_range lo hi c = true -> p c = false) ->
  existsb p l = false.
Proof.
  intros Hall Hp. induction l as [|c l IH]; simpl in *; [reflexivity|].
  apply andb_true_iff in Hall. destruct Hall as [Hc Hl].
  rewrite (Hp c Hc), IH; auto.
Qed.

(** X4. [validatePassword] accepts exactly the passwords of at least 8
    code units that meet at least two of the four character classes; the
    strength is weak exactly for the rejected ones and strong exactly for
    accepted ones meeting three classes.  A password made of lower-case
    letters only, or of digits only, is rejected whatever its length. *)
Theorem validatePassword_criteria (password : string) :
  let r := Utils.validatePassword password in
  (Utils.isValid r = true <->
   8 <= JsString.len password /\ 2 <= Utils.criteriaCount password)
  /\ (Utils.strength r = Utils.weak <-> Utils.isValid r = false)
  /\ (Utils.strength r = Utils.strong <->
      8 <= JsString.len password /\ 3 <= Utils.criteriaCount password)
  /\ (forallb (Utils.in_range 97 122) (list_ascii_of_string password) = true ->
      Utils.isValid r = false)
  /\ (forallb (Utils.in_range 48 57) (list_ascii_of_string password) = true ->
      Utils.isValid r = false).
Proof.
  cbv zeta.
  assert (Hiff : (Utils.isValid (Utils.validatePassword password) = true <->
                  8 <= JsString.len password
                  /\ 2 <= Utils.criteriaCount password)).
  { unfold Utils.validatePassword.
    destruct (Z.ltb_spec (JsString.len password) 8);
      [simpl; split; [discriminate|lia]|].
    destruct (Z.ltb_spec (Utils.criteriaCount password) 2);
      [simpl; split; [discriminate|lia]|].
    destruct (Z.ltb_spec (Utils.criteriaCount password) 3);
      simpl; split; auto; lia. }
  split; [exact Hiff|]. split; [|split; [|split]].
  - unfold Utils.validatePassword.
    destruct (JsString.len password <? 8); [simpl; tauto|].
    destruct (Utils.criteriaCount password <? 2); [simpl; tauto|].
    destruct (Utils.criteriaCount password <? 3); simpl;
      split; discriminate.
  - unfold Utils.validatePassword.
    destruct (Z.ltb_spec (JsString.len password) 8);
      [simpl; split; [discriminate|lia]|].
    destruct (Z.ltb_spec (Utils.criteriaCount password) 2);
      [simpl; split; [discriminate|lia]|].
    destruct (Z.ltb_spec (Utils.criteriaCount password) 3);
      simpl; split; try discriminate; auto; lia.
  - intros Hall. apply not_true_is_false. intros Hv. apply Hiff in Hv.
    destruct Hv as [_ Hc]. unfold Utils.criteriaCount in Hc.
    assert (HU : Utils.hasUpperCase password = false).
    { apply (class_only 97 122); [exact Hall|].
      intros c. unfold Utils.in_range. lia. }
    assert (HN : Utils.hasNumbers password = false).
    { apply (class_only 97 122); [exact Hall|].
      intros c. unfold Utils.in_range. lia. }
    assert (HS : Utils.hasSpecialChar password = false).
    { apply (class_only 97 122); [exact Hall|].
      intros c. unfold Utils.in_range, Utils.specialChars. simpl. lia. }
    rewrite HU, HN, HS in Hc.
    destruct (Utils.hasLowerCase password); simpl in Hc; lia.
  - intros Hall. apply not_true_is_false. intros Hv. apply Hiff in Hv.
    destruct Hv as [_ Hc]. unfold Utils.criteriaCount in Hc.
    assert (HU : Utils.hasUpperCase password = false).
    { apply (class_only 48 57); [exact Hall|].
      intros c. unfold Utils.in_range. lia. }
    assert (HL : Utils.hasLowerCase password = false).
    { apply (class_only 48 57); [exact Hall|].
      intros c. unfold Utils.in_range. lia. }
    assert (HS : Utils.hasSpecialChar password = false).
    { apply (class_only 48 57); [exact Hall|].
      intros c. unfold Utils.in_range, Utils.specialChars. simpl. lia. }
    rewrite HU, HL, HS in Hc.
    destruct (Utils.hasNumbers password); simpl in Hc; lia.
Qed.

(** X5. [generateAvatarColor] answers one of its eight colour classes for
    every seed: the index it computes from the hash is never out of
    range. *)
Theorem generateAvatarColor_defined (seed : string) :
  exists c, Utils.generateAvatarColor seed = Some c
            /\ In c Utils.avatarColors.
Proof.
  unfold Utils.generateAvatarColor. cbv zeta.
  set (i := Z.abs (Utils.avatarHash seed)
            mod Z.of_nat (List.length Utils.avatarColors)).
  assert (Hi : 0 <= i < 8) by (apply Z.mod_pos_bound; simpl; lia).
  destruct (nth_error Utils.avatarColors (Z.to_nat i)) as [c|] eqn:E.
  - exists c. split; [reflexivity|]. eapply nth_error_In; eauto.
  - apply nth_error_None in E. simpl in E. lia.
Qed.

(** X6. The colour of [getCapacityColor] and the label of the engineers
    page agree on over-allocation except at one point: whenever the label
    says over-allocated the colour is the red class, and the colour is
    red without that label exactly at a utilization of 100.  On [NaN]
    the colour is the blue class and the label says available. *)
Theorem capacity_colour_and_label (u : JsNum.t) :
  (EngineersPage.utilizationLabel u = "Over-allocated" ->
   Utils.getCapacityColor u = "text-red-600 bg-red-50")
  /\ (Utils.getCapacityColor u = "text-red-600 bg-red-50"
      /\ EngineersPage.utilizationLabel u <> "Over-allocated"
      <-> exists q, u = JsNum.Fin q /\ (q == 100)%Q)
  /\ (u = JsNum.NaN ->
      Utils.getCapacityColor u = "text-blue-600 bg-blue-50"
      /\ EngineersPage.utilizationLabel u = "Available").
Proof.
  assert (Hred : Utils.getCapacityColor u = "text-red-600 bg-red-50"
                 <-> JsNum.ge u (JsNum.of_Z 100) = true).
  { unfold Utils.getCapacityColor.
    destruct (JsNum.ge u (JsNum.of_Z 100)); [tauto|].
    split; [|discriminate].
    destruct (JsNum.ge u (JsNum.of_Z 80)); [discriminate|].
    destruct (JsNum.ge u (JsNum.of_Z 60)); discriminate. }
  split; [|split].
  - rewrite utilizationLabel_over, Hred.
    destruct u as [q| | |]; simpl; try discriminate; auto.
    rewrite negb_true_iff. intros H.
    apply Qle_bool_iff. destruct (Qle_bool q (inject_Z 100)) eqn:E;
      [discriminate|].
    apply Qlt_le_weak, Qnot_le_lt. intros Hle.
    apply Qle_bool_iff in Hle. congruence.
  - rewrite utilizationLabel_over, Hred. split.
    + intros [Hge Hgt]. destruct u as [q| | |]; simpl in *;
        try discriminate; try (exfalso; apply Hgt; reflexivity).
      exists q. split; [reflexivity|].
      apply Qle_bool_iff in Hge.
      assert (Hle : (q <= inject_Z 100)%Q).
      { apply Qle_bool_iff.
        destruct (Qle_bool q (inject_Z 100)); [reflexivity|].
        exfalso. apply Hgt. reflexivity. }
      apply Qle_antisym; assumption.
    + intros [q [-> Hq]]. simpl. split.
      * apply Qle_bool_iff. rewrite Hq. apply Qle_refl.
      * assert (Qle_bool q (inject_Z 100) = true) as ->
          by (apply Qle_bool_iff; rewrite Hq; apply Qle_refl).
        discriminate.
  - intros ->. split; reflexivity.
Qed.

End UtilsText.

(** ** More on the reducer and the context operations *)

Section ReducerMore.
Import AppContext.

Lemma map_replace_ids (payload : Assignment.t) (l : list Assignment.t) :
  map Assignment._id
    (map (fun a => if String.eqb (Assignment._id a) (Assignment._id payload)
                   then payload else a) l)
  = map Assignment._id l.
Proof.
  induction l as [|a l IH]; simpl; [reflexivity|].
  rewrite IH. destruct (String.eqb_spec (Assignment._id a)
                          (Assignment._id payload)) as [E|E];
    [rewrite E|]; reflexivity.
Qed.

Lemma map_replace_others (payload : Assignment.t) (l : list Assignment.t) :
  others (Assignment._id payload)
    (map (fun a => if String.eqb (Assignment._id a) (Assignment._id payload)
                   then payload else a) l)
  = others (Assignment._id payload) l.
Proof.
  unfold others. induction l as [|a l IH]; simpl; [reflexivity|].
  destruct (String.eqb (Assignment._id a) (Assignment._id payload)) eqn:E;
    simpl.
  - rewrite String.eqb_refl. simpl. exact IH.
  - rewrite E. simpl. now rewrite IH.
Qed.

Lemma map_replace_absent (payload : Assignment.t) (l : list Assignment.t) :
  existsb (fun a => String.eqb (Assignment._id a) (Assignment._id payload)) l
  = false ->
  map (fun a => if String.eqb (Assignment._id a) (Assignment._id payload)
                then payload else a) l = l.
Proof.
  induction l as [|a l IH]; simpl; [reflexivity|].
  intros H. apply orb_false_iff in H. destruct H as [Ha Hl].
  rewrite Ha, IH; auto.
Qed.

(** X7. A successful update replaces assignments in place: the ids of the
    collection and their order are unchanged, every assignment with
    another id is untouched, every assignment with the payload's id is
    the payload, and when no assignment has that id the collection is
    left as it was (the updated assignment is not added). *)
Theorem update_assignment_in_place (s : AppState) (payload : Assignment.t) :
  let s' := appReducer s (UPDATE_ASSIGNMENT_SUCCESS payload) in
  map Assignment._id (assignments s') = map Assignment._id (assignments s)
  /\ others (Assignment._id payload) (assignments s')
     = others (Assignment._id payload) (assignments s)
  /\ (forall a, In a (assignments s') ->
                Assignment._id a = Assignment._id payload -> a = payload)
  /\ (existsb (fun a => String.eqb (Assignment._id a) (Assignment._id payload))
              (assignments s) = false ->
      assignments s' = assignments s).
Proof.
  cbv zeta. simpl. split; [apply map_replace_ids|].
  split; [apply map_replace_others|]. split.
  - intros a Hin Hid. apply in_map_iff in Hin.
    destruct Hin as [b [Hb _]].
    destruct (String.eqb_spec (Assignment._id b) (Assignment._id payload))
      as [E|E]; [congruence|]. subst b. contradiction.
  - apply map_replace_absent.
Qed.

(** X8. Creating an assignment whose id is not yet in the collection and
    then deleting that id gives back the collection as it was. *)
Theorem create_then_delete_restores (s : AppState) (payload : Assignment.t)
    (Hfresh : existsb (fun a => String.eqb (Assignment._id a)
                                           (Assignment._id payload))
                      (assignments s) = false) :
  assignments
    (appReducer (appReducer s (CREATE_ASSIGNMENT_SUCCESS payload))
       (DELETE_ASSIGNMENT_SUCCESS (Assignment._id payload)))
  = assignments s.
Proof.
  simpl. rewrite String.eqb_refl. simpl.
  fold (others (Assignment._id payload) (assignments s)).
  apply others_all. intros b Hb E.
  assert (existsb (fun a => String.eqb (Assignment._id a)
                                       (Assignment._id payload))
                  (assignments s) = true); [|congruence].
  apply existsb_exists. exists b. split; [exact Hb|].
  now apply String.eqb_eq.
Qed.

(** X9. Each collection changes only through its own success actions (and
    [RESET_STATE]): start, failure and [CLEAR_ERROR] actions, and the
    actions of another resource, leave it unchanged. *)
Theorem reducer_frame (s : AppState) (action : AppAction) :
  (writes Engineers action = false ->
   engineers (appReducer s action) = engineers s)
  /\ (writes Projects action = false ->
      projects (appReducer s action) = projects s)
  /\ (writes Assignments action = false ->
      assignments (appReducer s action) = assignments s)
  /\ (writes Analytics action = false ->
      utilizationData (appReducer s action) = utilizationData s).
Proof.
  assert (Hclear : forall e,
             engineers (clear_error_key e s) = engineers s
             /\ projects (clear_error_key e s) = projects s
             /\ assignments (clear_error_key e s) = assignments s
             /\ utilizationData (clear_error_key e s) = utilizationData s).
  { intros e. unfold clear_error_key.
    destruct (String.eqb e "engineers"); [repeat split|].
    destruct (String.eqb e "projects"); [repeat split|].
    destruct (String.eqb e "assignments"); [repeat split|].
    destruct (String.eqb e "analytics"); repeat split. }
  destruct action; simpl; repeat split; intros H;
    try reflexivity; try discriminate H; apply Hclear.
Qed.

(** X10. From a state with no create in flight and no assignments error,
    a failed [createAssignment] followed by [clearError("assignments")]
    restores the whole application state. *)
Theorem failed_create_then_clearError (s : AppState)
    (data : AssignmentCreate.t) (msg : string)
    (engineersResp : ApiResult (list User.t))
    (Hidle : isCreating s = false) (Hclean : assignmentsError s = None) :
  clearError "assignments"
    (state_after (createAssignment data (ApiErr msg) engineersResp s)) = s.
Proof.
  destruct s. simpl in *. subst. reflexivity.
Qed.

Lemma replace_project_ids (p : Project.t) (l : list Project.t) :
  map Project._id
    (map (fun project =>
            if String.eqb (Project._id project) (Project._id p)
            then p else project) l)
  = map Project._id l.
Proof.
  induction l as [|q l IH]; simpl; [reflexivity|].
  rewrite IH. destruct (String.eqb_spec (Project._id q) (Project._id p))
    as [E|E]; [rewrite E|]; reflexivity.
Qed.

(** X11. Project mutations.  A failed create, update or delete leaves
    the projects as they were, rejects with the message of the failure
    and stores it, with the flag of the operation cleared.  A successful
    one resolves, clears the error and the flag; the create puts the
    project first, the update keeps ids and order and leaves every
    project of another id untouched, and the delete removes exactly the
    projects with the given id, keeps the others in order and does not
    touch the assignments of that project. *)
Theorem project_mutations (s : AppState) (msg id : string) (p : Project.t) :
  (* failures *)
  (let r := createProject (ApiErr msg) s in
   projects (fst r) = projects s /\ snd r = Rejected msg
   /\ projectsError (fst r) = Some msg /\ isCreating (fst r) = false)
  /\ (let r := updateProject id (ApiErr msg) s in
      projects (fst r) = projects s /\ snd r = Rejected msg
      /\ projectsError (fst r) = Some msg /\ isUpdating (fst r) = false)
  /\ (let r := deleteProject id (ApiErr msg) s in
      projects (fst r) = projects s /\ snd r = Rejected msg
      /\ projectsError (fst r) = Some msg /\ isDeleting (fst r) = false)
  (* successes *)
  /\ (let r := createProject (ApiOk p) s in
      projects (fst r) = p :: projects s /\ snd r = Resolved
      /\ projectsError (fst r) = None /\ isCreating (fst r) = false)
  /\ (let r := updateProject id (ApiOk p) s in
      map Project._id (projects (fst r)) = map Project._id (projects s)
      /\ other_projects (Project._id p) (projects (fst r))
         = other_projects (Project._id p) (projects s)
      /\ (forall q, In q (projects (fst r)) ->
                    Project._id q = Project._id p -> q = p)
      /\ snd r = Resolved
      /\ projectsError (fst r) = None /\ isUpdating (fst r) = false)
  /\ (let r := deleteProject id (ApiOk tt) s in
      (forall q, In q (projects (fst r)) <->
                 In q (projects s) /\ Project._id q <> id)
      /\ projects (fst r) = other_projects id (projects s)
      /\ assignments (fst r) = assignments s
      /\ snd r = Resolved
      /\ projectsError (fst r) = None /\ isDeleting (fst r) = false).
Proof.
  cbv zeta.
  split; [repeat split|]. split; [repeat split|]. split; [repeat split|].
  split; [repeat split|]. split.
  - cbn [updateProject fst snd]. split; [|split; [|split; [|repeat split]]].
    + simpl. apply replace_project_ids.
    + simpl. unfold other_projects.
      induction (projects s) as [|q l IH]; simpl; [reflexivity|].
      destruct (String.eqb (Project._id q) (Project._id p)) eqn:E; simpl.
      * rewrite String.eqb_refl. simpl. exact IH.
      * rewrite E. simpl. now rewrite IH.
    + simpl. intros q Hin Hid. apply in_map_iff in Hin.
      destruct Hin as [b [Hb _]].
      destruct (String.eqb_spec (Project._id b) (Project._id p)) as [E|E];
        [congruence|]. subst b. contradiction.
  - cbn [deleteProject fst snd]. split; [|repeat split].
    intros q. simpl. rewrite filter_In, negb_true_iff, String.eqb_neq.
    reflexivity.
Qed.

(** X12. A failed load keeps the data loaded before: the collection is
    unchanged, the error message is stored and the loading flag is
    cleared, for engineers, projects, assignments and analytics alike.
    A successful load, also after a failed one, replaces the collection
    by what the server sent, clears the error and the flag, again for
    each of the four.  No load touches the collection of another
    resource. *)
Theorem loaders_keep_data_on_failure (s : AppState) (msg : string) :
  (* failures *)
  (let s' := fst (loadEngineers (ApiErr msg) s) in
   engineers s' = engineers s /\ engineersError s' = Some msg
   /\ engineersLoading s' = false)
  /\ (let s' := loadProjects (ApiErr msg) s in
      projects s' = projects s /\ projectsError s' = Some msg
      /\ projectsLoading s' = false)
  /\ (let s' := loadAssignments (ApiErr msg) s in
      assignments s' = assignments s /\ assignmentsError s' = Some msg
      /\ assignmentsLoading s' = false)
  /\ (let s' := loadAnalytics (ApiErr msg) s in
      utilizationData s' = utilizationData s /\ analyticsError s' = Some msg
      /\ analyticsLoading s' = false)
  (* successes, after a failure *)
  /\ (forall l, let s' := fst (loadEngineers (ApiOk l)
                                 (fst (loadEngineers (ApiErr msg) s))) in
                engineers s' = l /\ engineersError s' = None
                /\ engineersLoading s' = false)
  /\ (forall l, let s' := loadProjects (ApiOk l)
                            (loadProjects (ApiErr msg) s) in
                projects s' = l /\ projectsError s' = None
                /\ projectsLoading s' = false)
  /\ (forall l, let s' := loadAssignments (ApiOk l)
                            (loadAssignments (ApiErr msg) s) in
                assignments s' = l /\ assignmentsError s' = None
                /\ assignmentsLoading s' = false)
  /\ (forall l, let s' := loadAnalytics (ApiOk l)
                            (loadAnalytics (ApiErr msg) s) in
                utilizationData s' = l /\ analyticsError s' = None
                /\ analyticsLoading s' = false)
  (* the other collections *)
  /\ (forall r, let s' := fst (loadEngineers r s) in
                projects s' = projects s /\ assignments s' = assignments s
                /\ utilizationData s' = utilizationData s)
  /\ (forall r, let s' := loadProjects r s in
                engineers s' = engineers s /\ assignments s' = assignments s
                /\ utilizationData s' = utilizationData s)
  /\ (forall r, let s' := loadAssignments r s in
                engineers s' = engineers s /\ projects s' = projects s
                /\ utilizationData s' = utilizationData s)
  /\ (forall r, let s' := loadAnalytics r s in
                engineers s' = engineers s /\ projects s' = projects s
                /\ assignments s' = assignments s).
Proof.
  cbv zeta.
  repeat match goal with
         | |- _ /\ _ => split
         | |- forall _ : ApiResult _, _ =>
             let r := fresh "r" in intros r; destruct r; cbv zeta
         | |- forall _, _ => intro; cbv zeta
         end; reflexivity.
Qed.

(** X13. The refresh of the engineers that follows a successful create,
    update or delete of an assignment cannot undo or fail it.  When the
    refresh fails the operation still resolves with the assignment added
    (replaced, removed), no assignments error, its flag cleared, the
    engineers those loaded before and [engineersError] recording the
    failure.  When the refresh succeeds the engineers are replaced by the
    fresh list and the assignments are the same as with a failed
    refresh. *)
Theorem write_survives_failed_refresh (s : AppState)
    (data : AssignmentCreate.t) (a : Assignment.t) (id msg : string)
    (fresh : list User.t) :
  (* the refresh fails *)
  (let r := createAssignment data (ApiOk a) (ApiErr msg) s in
   settled r = Resolved
   /\ assignments (state_after r) = a :: assignments s
   /\ engineers (state_after r) = engineers s
   /\ engineersError (state_after r) = Some msg
   /\ assignmentsError (state_after r) = None
   /\ isCreating (state_after r) = false)
  /\ (let r := updateAssignment id data (ApiOk a) (ApiErr msg) s in
      settled r = Resolved
      /\ assignments (state_after r)
         = assignments (appReducer s (UPDATE_ASSIGNMENT_SUCCESS a))
      /\ engineers (state_after r) = engineers s
      /\ engineersError (state_after r) = Some msg
      /\ assignmentsError (state_after r) = None
      /\ isUpdating (state_after r) = false)
  /\ (let r := deleteAssignment id (ApiOk tt) (ApiErr msg) s in
      settled r = Resolved
      /\ assignments (state_after r) = others id (assignments s)
      /\ engineers (state_after r) = engineers s
      /\ engineersError (state_after r) = Some msg
      /\ assignmentsError (state_after r) = None
      /\ isDeleting (state_after r) = false)
  (* the refresh succeeds *)
  /\ (let r := createAssignment data (ApiOk a) (ApiOk fresh) s in
      settled r = Resolved
      /\ assignments (state_after r) = a :: assignments s
      /\ engineers (state_after r) = fresh
      /\ engineersError (state_after r) = None
      /\ assignmentsError (state_after r) = None
      /\ isCreating (state_after r) = false)
  /\ (let r := updateAssignment id data (ApiOk a) (ApiOk fresh) s in
      settled r = Resolved
      /\ assignments (state_after r)
         = assignments (appReducer s (UPDATE_ASSIGNMENT_SUCCESS a))
      /\ engineers (state_after r) = fresh
      /\ engineersError (state_after r) = None
      /\ assignmentsError (state_after r) = None
      /\ isUpdating (state_after r) = false)
  /\ (let r := deleteAssignment id (ApiOk tt) (ApiOk fresh) s in
      settled r = Resolved
      /\ assignments (state_after r) = others id (assignments s)
      /\ engineers (state_after r) = fresh
      /\ engineersError (state_after r) = None
      /\ assignmentsError (state_after r) = None
      /\ isDeleting (state_after r) = false)
  (* what each operation asks of the server *)
  /\ (forall er,
        emitted (createAssignment data (ApiOk a) er s)
        = [PostAssignment data; GetEngineers]
        /\ emitted (updateAssignment id data (ApiOk a) er s)
           = [PutAssignment id data; GetEngineers]
        /\ emitted (deleteAssignment id (ApiOk tt) er s)
           = [DeleteAssignment id; GetEngineers]).
Proof.
  cbv zeta.
  repeat match goal with
         | |- _ /\ _ => split
         | |- forall _ : ApiResult _, _ =>
             let r := fresh "r" in intros r; destruct r; cbv zeta
         | |- forall _, _ => intro; cbv zeta
         end; reflexivity.
Qed.

End ReducerMore.

Section Auth.
Import AuthContext.

Lemma authReducer_consistent (s : AuthState) (a : AuthAction) :
  auth_consistent s -> auth_consistent (authReducer s a).
Proof.
  unfold auth_consistent. intros [H1 H2].
  destruct a; simpl; split;
    try (split; [discriminate | congruence]);
    try (split; [congruence | discriminate]);
    try congruence; try tauto;
    try (split; [intros _; discriminate | reflexivity]).
Qed.

(** X14. After any sequence of actions from the initial state, the
    authentication state is consistent: it is authenticated exactly when
    a user is present, and an error never stands beside a user.  A
    manager is authenticated, nobody is both manager and engineer,
    [withManagerAuth] shows the component only to a present user whose
    role is manager, and [withAuth] only when a user is present. *)
Theorem auth_state_consistent (actions : list AuthAction) :
  let s := fold_left authReducer actions initialState in
  auth_consistent s
  /\ (isManager s = true -> isAuthenticated s = true)
  /\ (isManager s && isEngineer s = false)
  /\ (withManagerAuth s = Component ->
      exists u, user s = Some u /\ User.role u = manager)
  /\ (withAuth s = Component -> exists u, user s = Some u).
Proof.
  cbv zeta.
  assert (Hinv : forall acts s0, auth_consistent s0 ->
                   auth_consistent (fold_left authReducer acts s0)).
  { induction acts as [|a acts IH]; intros s0 H; simpl; [exact H|].
    apply IH, authReducer_consistent, H. }
  assert (H0 : auth_consistent initialState).
  { unfold auth_consistent. simpl. split; [split|];
      [discriminate | congruence | reflexivity]. }
  specialize (Hinv actions initialState H0).
  set (s := fold_left authReducer actions initialState) in *.
  destruct Hinv as [Hauth Herr].
  split; [split; assumption|]. split; [|split; [|split]].
  - unfold isManager. destruct (user s) as [u|] eqn:E; [|discriminate].
    intros _. apply Hauth. discriminate.
  - unfold isManager, isEngineer. destruct (user s) as [u|]; [|reflexivity].
    destruct (User.role u); reflexivity.
  - unfold withManagerAuth, isManager.
    destruct (isLoading s); [discriminate|].
    destruct (isAuthenticated s); [|discriminate]. simpl.
    destruct (user s) as [u|]; [|discriminate].
    destruct (User.role u) eqn:R; [discriminate|].
    intros _. exists u. auto.
  - unfold withAuth. destruct (isLoading s); [discriminate|].
    destruct (isAuthenticated s) eqn:A; [|discriminate]. simpl.
    intros _. destruct (user s) as [u|] eqn:E; [eauto|].
    exfalso. apply (proj1 Hauth); auto.
Qed.

(** X15. A failed [login] rejects with the message and leaves no user,
    even when one was signed in before, so guarded pages ask for
    authentication; a successful one signs the user in.  On start-up an
    expired session ends signed out with the session message, and
    without a stored token nothing changes.  [LOGIN_START] itself keeps
    the current user, and [logout] returns to the initial state. *)
Theorem failed_login_signs_out (s : AuthState) (msg : string) (u : User.t) :
  (let r := login (ApiErr msg) s in
   user (fst r) = None /\ isAuthenticated (fst r) = false
   /\ error (fst r) = Some msg /\ isLoading (fst r) = false
   /\ snd r = AppContext.Rejected msg
   /\ withAuth (fst r) = AuthenticationRequired)
  /\ (let r := login (ApiOk u) s in
      user (fst r) = Some u /\ isAuthenticated (fst r) = true
      /\ error (fst r) = None /\ isLoading (fst r) = false
      /\ snd r = AppContext.Resolved)
  /\ (let s' := initializeAuth true (ApiErr msg) s in
      user s' = None /\ isAuthenticated s' = false
      /\ error s' = Some "Session expired. Please log in again.")
  /\ initializeAuth false (ApiOk u) s = s
  /\ logout (fst (login (ApiOk u) s)) = initialState
  /\ user (authReducer s LOGIN_START) = user s.
Proof. repeat split. Qed.

End Auth.

(** ** The pages *)

Section Search.

Lemma includes_empty (s : string) : JsString.includes s "" = true.
Proof. destruct s; reflexivity. Qed.

Lemma lower_idem (c : ascii) :
  JsString.lower (JsString.lower c) = JsString.lower c.
Proof. destruct c as [[] [] [] [] [] [] [] []]; vm_compute; reflexivity. Qed.

Lemma toLowerCase_idem (s : string) :
  JsString.toLowerCase (JsString.toLowerCase s) = JsString.toLowerCase s.
Proof.
  induction s as [|c s IH]; simpl; [reflexivity|].
  now rewrite lower_idem, IH.
Qed.

Lemma includes_refl (s : string) : JsString.includes s s = true.
Proof.
  assert (forall t, String.prefix t t = true) as Hp.
  { induction t as [|d t IHt]; simpl; [reflexivity|].
    destruct (Ascii.ascii_dec d d); [exact IHt|contradiction]. }
  destruct s as [|c s]; [reflexivity|].
  change (String.prefix (String c s) (String c s)
          || JsString.includes s (String c s) = true).
  rewrite Hp. reflexivity.
Qed.

(** X16. The search of the engineers page.  The result holds, in their
    order, exactly the engineers of the list whose name, whose e-mail or
    one of whose skills contains the search term, upper and lower case
    taken as the same; an engineer without skills can match by name or
    e-mail only.  An empty search term keeps every engineer, the case of
    the term does not matter, and an engineer whose name or e-mail is
    the term up to case is always found. *)
Theorem filteredEngineers_search (term : string) (engineers : list User.t) :
  (forall e, In e (EngineersPage.filteredEngineers term engineers) <->
     In e engineers
     /\ (JsString.includes (JsString.toLowerCase (User.name e))
                           (JsString.toLowerCase term) = true
         \/ JsString.includes (JsString.toLowerCase (User.email e))
                              (JsString.toLowerCase term) = true
         \/ exists skills skill,
              User.skills e = Some skills /\ In skill skills
              /\ JsString.includes (JsString.toLowerCase skill)
                                   (JsString.toLowerCase term) = true))
  /\ (exists keep,
        EngineersPage.filteredEngineers term engineers = filter keep engineers)
  /\ EngineersPage.filteredEngineers "" engineers = engineers
  /\ EngineersPage.filteredEngineers (JsString.toLowerCase term) engineers
     = EngineersPage.filteredEngineers term engineers
  /\ (forall e, In e engineers ->
                JsString.toLowerCase (User.name e) = JsString.toLowerCase term
                \/ JsString.toLowerCase (User.email e)
                   = JsString.toLowerCase term ->
                In e (EngineersPage.filteredEngineers term engineers)).
Proof.
  assert (Hin : forall e,
            In e (EngineersPage.filteredEngineers term engineers) <->
            In e engineers
            /\ (JsString.includes (JsString.toLowerCase (User.name e))
                                  (JsString.toLowerCase term) = true
                \/ JsString.includes (JsString.toLowerCase (User.email e))
                                     (JsString.toLowerCase term) = true
                \/ exists skills skill,
                     User.skills e = Some skills /\ In skill skills
                     /\ JsString.includes (JsString.toLowerCase skill)
                                          (JsString.toLowerCase term) = true)).
  { intros e. unfold EngineersPage.filteredEngineers.
    rewrite filter_In. unfold EngineersPage.matchesSearch.
    rewrite !orb_true_iff.
    assert (Hsk : match User.skills e with
                  | Some skills =>
                      existsb (fun skill =>
                                 JsString.includes (JsString.toLowerCase skill)
                                   (JsString.toLowerCase term)) skills
                  | None => false
                  end = true
                  <-> exists skills skill,
                        User.skills e = Some skills /\ In skill skills
                        /\ JsString.includes (JsString.toLowerCase skill)
                                             (JsString.toLowerCase term)
                           = true).
    { destruct (User.skills e) as [skills|].
      - rewrite existsb_exists. split.
        + intros [skill [H1 H2]]. exists skills, skill. auto.
        + intros [sk [skill [E [H1 H2]]]]. injection E as <-.
          exists skill. auto.
      - split; [discriminate|]. intros [sk [skill [E _]]]. discriminate. }
    rewrite Hsk. tauto. }
  split; [exact Hin|]. split; [|split; [|split]].
  - exists (EngineersPage.matchesSearch term). reflexivity.
  - clear Hin. unfold EngineersPage.filteredEngineers.
    induction engineers as [|e l IH]; simpl; [reflexivity|].
    unfold EngineersPage.matchesSearch at 1. simpl JsString.toLowerCase.
    rewrite includes_empty. simpl. now rewrite IH.
  - unfold EngineersPage.filteredEngineers, EngineersPage.matchesSearch.
    rewrite toLowerCase_idem. reflexivity.
  - intros e He Hname. apply Hin. split; [exact He|].
    destruct Hname as [Hn|Hn]; rewrite Hn; [left|right; left];
      apply includes_refl.
Qed.

End Search.

Section Dashboards.
Context {DL : DateLib}.

(** X17. When the two date parsers agree on the start dates, no
    assignment of the engineer dashboard is both active and upcoming.
    Every upcoming assignment is one of the user's own assignments and
    has a valid start date strictly after the current instant. *)
Theorem active_and_upcoming_disjoint (now : Z) (user : option User.t)
    (l : list Assignment.t)
    (Hagree : forall a, In a l ->
                parseISO (Assignment.startDate a)
                = newDate (Assignment.startDate a)) :
  (forall a, In a (EngineerDashboard.activeAssignments now user l) ->
             ~ In a (EngineerDashboard.upcomingAssignments now user l))
  /\ (forall a, In a (EngineerDashboard.upcomingAssignments now user l) ->
                In a (EngineerDashboard.myAssignments user l)
                /\ exists s, newDate (Assignment.startDate a) = Some s
                             /\ now < s).
Proof.
  split.
  - intros a Hact Hup.
    unfold EngineerDashboard.activeAssignments in Hact.
    unfold EngineerDashboard.upcomingAssignments in Hup.
    apply filter_In in Hact. destruct Hact as [Hmy Hact].
    apply filter_In in Hup. destruct Hup as [_ Hup].
    assert (Hin : In a l).
    { unfold EngineerDashboard.myAssignments in Hmy.
      apply filter_In in Hmy. tauto. }
    unfold EngineerDashboard.isActive in Hact.
    apply isDateInRange_iff in Hact.
    destruct Hact as [s [e [Hs [He [Hlt _]]]]]. simpl in Hs.
    unfold EngineerDashboard.isUpcoming, date_gt in Hup.
    rewrite <- (Hagree a Hin), Hs in Hup. simpl in Hup.
    apply Z.ltb_lt in Hup. lia.
  - intros a Hup. unfold EngineerDashboard.upcomingAssignments in Hup.
    apply filter_In in Hup. destruct Hup as [Hmy Hup]. split; [exact Hmy|].
    unfold EngineerDashboard.isUpcoming, date_gt, isAfter in Hup.
    destruct (newDate (Assignment.startDate a)) as [s|]; [|discriminate].
    exists s. split; [reflexivity|]. now apply Z.ltb_lt.
Qed.

End Dashboards.

Section Analytics.

Lemma count_partition (projects : list Project.t) :
  ManagerDashboard.countStatus planning projects
  + ManagerDashboard.countStatus active projects
  + ManagerDashboard.countStatus completed projects
  = Z.of_nat (List.length projects).
Proof.
  unfold ManagerDashboard.countStatus.
  induction projects as [|p l IH]; [reflexivity|].
  cbn [filter List.length].
  destruct (Project.status p); cbn [ManagerDashboard.status_eqb List.length];
    rewrite !Nat2Z.inj_succ; lia.
Qed.

(** X18. The status counts of the manager dashboard add up to the number
    of projects, and each lies between 0 and that number.  The analytics
    page computes its status rows only once engineers, projects and
    assignments are all loaded: then there is at least one project, the
    rows carry the same three counts as the dashboard, and every
    percentage is the finite [(value / total) * 100], so that the guard
    of the source against an empty project list is never needed.  Before
    that the page has no rows at all. *)
Theorem project_status_counts (engineers : list User.t)
    (projects : list Project.t) (assignments : list Assignment.t) :
  let n := Z.of_nat (List.length projects) in
  sumZ (map snd (ManagerDashboard.projectStatusData projects)) = n
  /\ Forall (fun r => 0 <= snd r <= n)
            (ManagerDashboard.projectStatusData projects)
  /\ match AnalyticsPage.analyticsData engineers projects assignments with
     | Some d =>
         let rows := AnalyticsPage.Data.projectStatusData d in
         0 < n
         /\ sumZ (map AnalyticsPage.value rows) = n
         /\ Forall (fun r => 0 <= AnalyticsPage.value r <= n
                             /\ AnalyticsPage.percentage r
                                = percent_of (AnalyticsPage.value r) n
                             /\ JsNum.isFinite (AnalyticsPage.percentage r)
                                = true)
                   rows
         /\ (forall r, In r rows ->
                In (AnalyticsPage.statusName r, AnalyticsPage.value r)
                   (ManagerDashboard.projectStatusData projects))
     | None => engineers = [] \/ projects = [] \/ assignments = []
     end.
Proof.
  cbv zeta.
  pose proof (count_partition projects) as H.
  assert (Hpos : forall st, 0 <= ManagerDashboard.countStatus st projects)
    by (intros st; unfold ManagerDashboard.countStatus; lia).
  pose proof (Hpos planning). pose proof (Hpos active).
  pose proof (Hpos completed).
  split; [simpl; lia|]. split.
  { unfold ManagerDashboard.projectStatusData.
    apply Forall_cons; [|apply Forall_cons; [|apply Forall_cons;
      [|apply Forall_nil]]]; simpl; lia. }
  destruct (AnalyticsPage.analyticsData engineers projects assignments)
    as [d|] eqn:E; [|apply analyticsData_none, E].
  unfold AnalyticsPage.analyticsData in E.
  destruct (AnalyticsPage.hasData engineers projects assignments) eqn:Hd;
    [|discriminate].
  injection E as <-. cbn [AnalyticsPage.Data.projectStatusData].
  assert (Hn : 0 < Z.of_nat (List.length projects)).
  { unfold AnalyticsPage.hasData in Hd.
    destruct projects; [|simpl; lia].
    simpl in Hd. rewrite andb_false_r in Hd. discriminate. }
  split; [exact Hn|]. split; [simpl; lia|]. split.
  - assert (Hrow : forall name st,
              let r := AnalyticsPage.statusRow name st projects in
              AnalyticsPage.percentage r
              = percent_of (AnalyticsPage.value r)
                           (Z.of_nat (List.length projects))
              /\ JsNum.isFinite (AnalyticsPage.percentage r) = true).
    { intros name st. cbv zeta. unfold AnalyticsPage.statusRow.
      cbn [AnalyticsPage.percentage AnalyticsPage.value].
      replace (0 <? Z.of_nat (List.length projects)) with true
        by (symmetry; apply Z.ltb_lt; exact Hn).
      split; [reflexivity|].
      change (JsNum.isFinite
                (percent_of (ManagerDashboard.countStatus st projects)
                            (Z.of_nat (List.length projects))) = true).
      rewrite percent_of_finite.
      destruct (Z.eqb_spec (Z.of_nat (List.length projects)) 0);
        [lia|reflexivity]. }
    unfold AnalyticsPage.projectStatusData.
    apply Forall_cons; [|apply Forall_cons; [|apply Forall_cons;
      [|apply Forall_nil]]];
      (split; [simpl; lia | apply Hrow]).
  - intros r [<-|[<-|[<-|[]]]]; simpl; auto.
Qed.

Lemma percent_of_bounds (m n : Z) :
  0 <= m <= n -> 0 < n ->
  exists q, percent_of m n = JsNum.Fin q /\ (0 <= q)%Q /\ (q <= 100)%Q.
Proof.
  intros Hm Hn. unfold percent_of, JsNum.of_Z, JsNum.div.
  rewrite Qsign_inject_Z. destruct n as [|p|p]; try lia.
  cbn [Z.sgn Z.eqb JsNum.mul]. eexists. split; [reflexivity|].
  unfold Qle. simpl. rewrite !Pos.mul_1_r. split; nia.
Qed.

Lemma percent_of_zero (n : Z) :
  0 < n -> exists q, percent_of 0 n = JsNum.Fin q /\ (q == 0)%Q.
Proof.
  intros Hn. unfold percent_of, JsNum.of_Z, JsNum.div.
  rewrite Qsign_inject_Z. destruct n as [|p|p]; try lia.
  cbn [Z.sgn Z.eqb JsNum.mul]. eexists. split; [reflexivity|].
  unfold Qeq. simpl. reflexivity.
Qed.

Lemma filter_length_le {A : Type} (f : A -> bool) (l : list A) :
  (List.length (filter f l) <= List.length l)%nat.
Proof. induction l as [|a l IH]; simpl; [lia|]. destruct (f a); simpl; lia. Qed.

(** X19. The skill match of an assignment is always a finite number
    between 0 and 100.  The engineer is looked up by the optional [id]
    field: when no loaded engineer carries it, every skill match is 0. *)
Theorem skillMatch_range (engineers : list User.t) (projects : list Project.t)
    (assignment : Assignment.t) :
  (exists q, AnalyticsPage.skillMatch engineers projects assignment
             = JsNum.Fin q /\ (0 <= q)%Q /\ (q <= 100)%Q)
  /\ (forallb (fun e => match User.id e with Some _ => false | None => true end)
              engineers = true ->
      exists q, AnalyticsPage.skillMatch engineers projects assignment
                = JsNum.Fin q /\ (q == 0)%Q).
Proof.
  unfold AnalyticsPage.skillMatch. cbv zeta.
  set (engineer := find _ engineers).
  set (project := find _ projects).
  set (engineerSkills := match engineer with
                         | Some e => match User.skills e with
                                     | Some l => l | None => [] end
                         | None => [] end).
  set (requiredSkills := match project with
                         | Some p => Project.requiredSkills p
                         | None => [] end).
  set (matching := filter _ requiredSkills).
  assert (Hle : (List.length matching <= List.length requiredSkills)%nat)
    by apply filter_length_le.
  split.
  - destruct (Z.ltb_spec 0 (Z.of_nat (List.length requiredSkills))) as [L|L].
    + apply (percent_of_bounds (Z.of_nat (List.length matching))
               (Z.of_nat (List.length requiredSkills))); lia.
    + exists 0%Q. split; [reflexivity|]. split; [apply Qle_refl|].
      unfold Qle; simpl; lia.
  - intros Hnoid.
    assert (Hnone : engineer = None).
    { subst engineer. clear -Hnoid.
      induction engineers as [|e l IH]; simpl in *; [reflexivity|].
      apply andb_true_iff in Hnoid. destruct Hnoid as [He Hl].
      destruct (User.id e); [discriminate|]. apply IH, Hl. }
    assert (Hm : matching = []).
    { subst matching engineerSkills. rewrite Hnone. clear.
      induction requiredSkills as [|k l IH]; simpl; auto. }
    destruct (Z.ltb_spec 0 (Z.of_nat (List.length requiredSkills))) as [L|L].
    + rewrite Hm. apply (percent_of_zero _ L).
    + exists 0%Q. split; reflexivity.
Qed.

Lemma manager_over_iff (e : User.t) :
  0 <= User.maxCapacity e ->
  (ManagerDashboard.isOverAllocated e = true
   <-> User.maxCapacity e < allocated e).
Proof.
  intros Hcap. unfold ManagerDashboard.isOverAllocated, allocated, num_or,
    truthy_num.
  destruct (User.currentAllocation e) as [a|].
  - destruct (Z.eqb_spec a 0) as [->|Ha]; simpl.
    + split; [discriminate | lia].
    + apply Z.ltb_lt.
  - split; [discriminate | lia].
Qed.

Lemma over_predicates_agree (e : User.t) :
  0 <= User.maxCapacity e ->
  AnalyticsPage.isOverAllocated (AnalyticsPage.utilizationRow e)
  = ManagerDashboard.isOverAllocated e.
Proof.
  intros Hcap.
  pose proof (manager_over_iff e Hcap) as Hm.
  pose proof (percent_of_gt_100 (allocated e) (User.maxCapacity e) Hcap) as Ha.
  change (JsNum.gt (percent_of (allocated e) (User.maxCapacity e))
                   (JsNum.of_Z 100)
          = ManagerDashboard.isOverAllocated e).
  destruct Ha as [Ha1 Ha2], Hm as [Hm1 Hm2].
  destruct (JsNum.gt _ _), (ManagerDashboard.isOverAllocated e);
    try reflexivity.
  - specialize (Hm2 (Ha1 eq_refl)). discriminate.
  - specialize (Ha2 (Hm1 eq_refl)). discriminate.
Qed.

Lemma over_not_under (u : JsNum.t) :
  JsNum.gt u (JsNum.of_Z 100) = true -> JsNum.lt u (JsNum.of_Z 60) = false.
Proof.
  destruct u as [q| | |]; simpl; try discriminate; try reflexivity.
  rewrite negb_true_iff, negb_false_iff. intros H.
  apply Qle_bool_iff.
  assert (Hlt : (inject_Z 100 < q)%Q).
  { apply Qnot_le_lt. intros Hle. apply Qle_bool_iff in Hle. congruence. }
  apply Qlt_le_weak. eapply Qle_lt_trans; [|exact Hlt].
  unfold Qle; simpl; lia.
Qed.

Lemma length_filter_partition {A : Type} (f g : A -> bool) (l : list A) :
  (forall a, f a = true -> g a = false) ->
  (List.length (filter f l) + List.length (filter g l) <= List.length l)%nat.
Proof.
  intros H. induction l as [|a l IH]; simpl; [lia|].
  destruct (f a) eqn:F; [rewrite (H a F)|destruct (g a)]; simpl; lia.
Qed.

(** X20. On engineers whose [maxCapacity] is not negative the analytics
    page and the manager dashboard count the same over-allocated
    engineers.  No engineer is counted both as over-allocated and as
    under-utilized, so the two counts add up to at most the team size; an
    engineer with capacity 0 and allocation 0 is counted in neither. *)
Theorem over_allocated_counts (engineers : list User.t) :
  (forallb (fun e => 0 <=? User.maxCapacity e) engineers = true ->
   AnalyticsPage.overAllocatedEngineers engineers
   = ManagerDashboard.overAllocatedEngineers engineers)
  /\ AnalyticsPage.overAllocatedEngineers engineers
     + AnalyticsPage.underUtilizedEngineers engineers
     <= Z.of_nat (List.length engineers)
  /\ (forall e, User.maxCapacity e = 0 -> allocated e = 0 ->
                AnalyticsPage.isOverAllocated (AnalyticsPage.utilizationRow e)
                = false
                /\ AnalyticsPage.isUnderUtilized (AnalyticsPage.utilizationRow e)
                   = false).
Proof.
  split; [|split].
  - intros Hall. unfold AnalyticsPage.overAllocatedEngineers,
      ManagerDashboard.overAllocatedEngineers, AnalyticsPage.utilizationAnalysis.
    f_equal. induction engineers as [|e l IH]; [reflexivity|].
    simpl in Hall. apply andb_true_iff in Hall. destruct Hall as [He Hl].
    apply Z.leb_le in He. cbn [map filter].
    rewrite (over_predicates_agree e He).
    destruct (ManagerDashboard.isOverAllocated e); cbn [List.length];
      rewrite (IH Hl); reflexivity.
  - unfold AnalyticsPage.overAllocatedEngineers,
      AnalyticsPage.underUtilizedEngineers.
    pose proof (length_filter_partition AnalyticsPage.isOverAllocated
                  AnalyticsPage.isUnderUtilized
                  (AnalyticsPage.utilizationAnalysis engineers)
                  (fun r => over_not_under (AnalyticsPage.utilization r))) as H.
    unfold AnalyticsPage.utilizationAnalysis in H at 3.
    rewrite length_map in H. lia.
  - intros e Hm Ha. unfold AnalyticsPage.isOverAllocated,
      AnalyticsPage.isUnderUtilized, AnalyticsPage.utilizationRow.
    cbn [AnalyticsPage.utilization]. fold (allocated e).
    rewrite Hm, Ha. split; reflexivity.
Qed.

Lemma fold_left_add_map {A : Type} (f : A -> Z) (l : list A) :
  fold_left (fun sum a => sum + f a) l 0 = sumZ (map f l).
Proof. rewrite fold_left_add_acc. lia. Qed.

(** X21. The rows of the utilization analysis are one per engineer; their
    allocations add up to the total allocated capacity and their
    (unclamped) availabilities to the total team capacity minus the total
    allocated capacity. *)
Theorem team_capacity_identity (engineers : list User.t) :
  sumZ (map AnalyticsPage.available (AnalyticsPage.utilizationAnalysis engineers))
  = AnalyticsPage.totalTeamCapacity engineers
    - AnalyticsPage.totalAllocatedCapacity engineers
  /\ sumZ (map AnalyticsPage.allocated
             (AnalyticsPage.utilizationAnalysis engineers))
     = AnalyticsPage.totalAllocatedCapacity engineers
  /\ List.length (AnalyticsPage.utilizationAnalysis engineers)
     = List.length engineers.
Proof.
  unfold AnalyticsPage.totalTeamCapacity, AnalyticsPage.totalAllocatedCapacity,
    AnalyticsPage.utilizationAnalysis.
  rewrite !fold_left_add_map, !map_map, length_map.
  split; [|split; reflexivity].
  unfold sumZ. induction engineers as [|e l IH]; [reflexivity|].
  cbn [map fold_right]. rewrite IH.
  cbn [AnalyticsPage.available AnalyticsPage.utilizationRow]. lia.
Qed.


Lemma addTo_counts (k : string) (e : User.t)
    (acc : list (string * AnalyticsPage.Workload)) :
  sumZ (map (fun kw => AnalyticsPage.count (snd kw))
            (AnalyticsPage.addTo k e acc))
  = sumZ (map (fun kw => AnalyticsPage.count (snd kw)) acc) + 1.
Proof.
  induction acc as [|[k' w] r IH]; simpl; [reflexivity|].
  destruct (String.eqb k' k); simpl; [|rewrite IH]; lia.
Qed.

Lemma addTo_allocation (k : string) (e : User.t)
    (acc : list (string * AnalyticsPage.Workload)) :
  sumZ (map (fun kw => AnalyticsPage.totalAllocation (snd kw))
            (AnalyticsPage.addTo k e acc))
  = sumZ (map (fun kw => AnalyticsPage.totalAllocation (snd kw)) acc)
    + allocated e.
Proof.
  unfold allocated.
  induction acc as [|[k' w] r IH]; simpl; [lia|].
  destruct (String.eqb k' k); simpl; [|rewrite IH]; lia.
Qed.

Lemma addTo_keys (k : string) (e : User.t)
    (acc : list (string * AnalyticsPage.Workload)) (x : string) :
  In x (map fst (AnalyticsPage.addTo k e acc)) ->
  x = k \/ In x (map fst acc).
Proof.
  induction acc as [|[k' w] r IH]; simpl.
  - intros [H|[]]; auto.
  - destruct (String.eqb k' k); simpl; intros [H|H]; auto.
    destruct (IH H); auto.
Qed.

Lemma addTo_NoDup (k : string) (e : User.t)
    (acc : list (string * AnalyticsPage.Workload)) :
  NoDup (map fst acc) -> NoDup (map fst (AnalyticsPage.addTo k e acc)).
Proof.
  induction acc as [|[k' w] r IH]; simpl; intros H.
  - constructor; [intros []|constructor].
  - destruct (String.eqb_spec k' k) as [E|E]; simpl; [exact H|].
    inversion H as [|? ? Hnot Hr]; subst. constructor; [|apply IH, Hr].
    intros Hin. apply addTo_keys in Hin. destruct Hin; [congruence|auto].
Qed.

Lemma addTo_Forall (P : AnalyticsPage.Workload -> Prop) (k : string)
    (e : User.t) (acc : list (string * AnalyticsPage.Workload)) :
  (forall w, (w = {| AnalyticsPage.count := 0;
                     AnalyticsPage.totalAllocation := 0;
                     AnalyticsPage.totalCapacity := 0 |} \/ P w) ->
             P {| AnalyticsPage.count := AnalyticsPage.count w + 1;
                  AnalyticsPage.totalAllocation :=
                    AnalyticsPage.totalAllocation w
                    + num_or (User.currentAllocation e) 0;
                  AnalyticsPage.totalCapacity :=
                    AnalyticsPage.totalCapacity w
                    + num_or (Some (User.maxCapacity e)) 100 |}) ->
  Forall (fun kw => P (snd kw)) acc ->
  Forall (fun kw => P (snd kw)) (AnalyticsPage.addTo k e acc).
Proof.
  intros Hstep. induction acc as [|[k' w] r IH]; simpl; intros H.
  - constructor; [|constructor].
    exact (Hstep {| AnalyticsPage.count := 0;
                    AnalyticsPage.totalAllocation := 0;
                    AnalyticsPage.totalCapacity := 0 |} (or_introl eq_refl)).
  - inversion H as [|? ? Hw Hr]; subst. simpl in Hw.
    destruct (String.eqb k' k); constructor; simpl; auto.
Qed.

Lemma capacity_or_100 (e : User.t) :
  0 <= User.maxCapacity e -> 1 <= num_or (Some (User.maxCapacity e)) 100.
Proof.
  intros H. unfold num_or, truthy_num.
  destruct (Z.eqb_spec (User.maxCapacity e) 0); simpl; lia.
Qed.

(** X22. The seniority breakdown loses nobody: the engineers of its rows
    add up to the team size, every row has at least one engineer (its
    guard against an empty group is never needed), the levels are
    distinct and the allocations add up to the total allocated capacity.
    Because a capacity of 0 is replaced by 100, on engineers whose
    [maxCapacity] is not negative every row has a capacity at least its
    number of engineers and a finite average utilization. *)
Theorem seniority_totals (team : list User.t) :
  sumZ (map AnalyticsPage.engineers (AnalyticsPage.seniorityData team))
  = Z.of_nat (List.length team)
  /\ Forall (fun r => 1 <= AnalyticsPage.engineers r)
            (AnalyticsPage.seniorityData team)
  /\ sumZ (map (fun kw => AnalyticsPage.totalAllocation (snd kw))
             (AnalyticsPage.seniorityWorkload team))
     = AnalyticsPage.totalAllocatedCapacity team
  /\ NoDup (map fst (AnalyticsPage.seniorityWorkload team))
  /\ (forallb (fun e => 0 <=? User.maxCapacity e) team = true ->
      Forall (fun r => JsNum.isFinite (AnalyticsPage.avgUtilization r) = true
                       /\ AnalyticsPage.engineers r
                          <= AnalyticsPage.rowCapacity r)
             (AnalyticsPage.seniorityData team)).
Proof.
  unfold AnalyticsPage.seniorityData, AnalyticsPage.seniorityWorkload.
  set (step := fun acc engineer =>
                 AnalyticsPage.addTo (AnalyticsPage.seniorityKey engineer)
                                     engineer acc).
  assert (Hcnt : forall l acc,
             sumZ (map (fun kw => AnalyticsPage.count (snd kw))
                       (fold_left step l acc))
             = sumZ (map (fun kw => AnalyticsPage.count (snd kw)) acc)
               + Z.of_nat (List.length l)).
  { induction l as [|e l IH]; intros acc; [simpl; lia|].
    cbn [fold_left List.length]. rewrite IH. unfold step.
    rewrite addTo_counts. lia. }
  assert (Hall : forall l acc,
             sumZ (map (fun kw => AnalyticsPage.totalAllocation (snd kw))
                       (fold_left step l acc))
             = sumZ (map (fun kw => AnalyticsPage.totalAllocation (snd kw)) acc)
               + sumZ (map allocated l)).
  { induction l as [|e l IH]; intros acc; [simpl; lia|].
    cbn [fold_left map]. rewrite IH. unfold step.
    rewrite addTo_allocation. simpl. lia. }
  assert (Hone : forall l acc,
             Forall (fun kw => 1 <= AnalyticsPage.count (snd kw)) acc ->
             Forall (fun kw => 1 <= AnalyticsPage.count (snd kw))
                    (fold_left step l acc)).
  { induction l as [|e l IH]; intros acc H; [exact H|].
    cbn [fold_left]. apply IH. unfold step.
    apply (addTo_Forall (fun w => 1 <= AnalyticsPage.count w)); [|exact H].
    intros w [->|Hw]; simpl; lia. }
  assert (Hnd : forall l acc,
             NoDup (map fst acc) -> NoDup (map fst (fold_left step l acc))).
  { induction l as [|e l IH]; intros acc H; [exact H|].
    cbn [fold_left]. apply IH. unfold step. apply addTo_NoDup, H. }
  assert (Hcap : forall l acc,
             forallb (fun e => 0 <=? User.maxCapacity e) l = true ->
             Forall (fun kw => 1 <= AnalyticsPage.count (snd kw)
                               <= AnalyticsPage.totalCapacity (snd kw)) acc ->
             Forall (fun kw => 1 <= AnalyticsPage.count (snd kw)
                               <= AnalyticsPage.totalCapacity (snd kw))
                    (fold_left step l acc)).
  { induction l as [|e l IH]; intros acc Hl H; [exact H|].
    simpl in Hl. apply andb_true_iff in Hl. destruct Hl as [He Hl].
    apply Z.leb_le in He. pose proof (capacity_or_100 e He) as Hc.
    cbn [fold_left]. apply IH; [exact Hl|]. unfold step.
    apply (addTo_Forall (fun w => 1 <= AnalyticsPage.count w
                                  <= AnalyticsPage.totalCapacity w));
      [|exact H].
    intros w [->|Hw];
      cbn [AnalyticsPage.count AnalyticsPage.totalCapacity]; lia. }
  split; [|split; [|split; [|split]]].
  - rewrite map_map.
    rewrite (map_ext _ (fun kw => AnalyticsPage.count (snd kw)))
      by (intros [k w]; reflexivity).
    rewrite Hcnt. simpl. lia.
  - apply Forall_map.
    eapply Forall_impl; [|apply (Hone team []); constructor].
    intros [k w] H. exact H.
  - rewrite Hall. unfold AnalyticsPage.totalAllocatedCapacity.
    rewrite fold_left_add_map. simpl. reflexivity.
  - apply Hnd. constructor.
  - intros Hteam. apply Forall_map.
    eapply Forall_impl; [|apply (Hcap team [] Hteam); constructor].
    intros [k w] [H1 H2]. cbn [snd] in *.
    cbn [AnalyticsPage.avgUtilization AnalyticsPage.engineers
         AnalyticsPage.rowCapacity].
    split; [|exact H2].
    destruct (0 <? AnalyticsPage.count w); [|reflexivity].
    change (JsNum.isFinite
              (percent_of (AnalyticsPage.totalAllocation w)
                          (AnalyticsPage.totalCapacity w)) = true).
    rewrite percent_of_finite.
    destruct (Z.eqb_spec (AnalyticsPage.totalCapacity w) 0); [lia|reflexivity].
Qed.

End Analytics.

Section Timeline.
Context {DL : DateLib}.

Lemma clamp_percent (x : JsNum.t) :
  match x with
  | JsNum.NaN =>
      JsNum.min (JsNum.of_Z 100) (JsNum.max (JsNum.of_Z 0) x) = JsNum.NaN
  | _ =>
      exists q, JsNum.min (JsNum.of_Z 100) (JsNum.max (JsNum.of_Z 0) x)
                = JsNum.Fin q /\ (0 <= q)%Q /\ (q <= 100)%Q
  end.
Proof.
  destruct x as [q| | |]; try reflexivity.
  - unfold JsNum.max, JsNum.of_Z. cbn [JsNum.gt].
    destruct (Qle_bool q (inject_Z 0)) eqn:E0; cbn [negb].
    + exists (inject_Z 0). split; [reflexivity|].
      split; unfold Qle; simpl; lia.
    + unfold JsNum.min. cbn [JsNum.gt].
      assert (H0 : (inject_Z 0 <= q)%Q).
      { apply Qlt_le_weak, Qnot_le_lt. intros H.
        apply Qle_bool_iff in H.
        exact (Bool.diff_true_false (eq_trans (eq_sym H) E0)). }
      destruct (Qle_bool (inject_Z 100) q) eqn:E1; cbn [negb].
      * exists (inject_Z 100). split; [reflexivity|].
        split; unfold Qle; simpl; lia.
      * exists q. split; [reflexivity|]. split; [exact H0|].
        apply Qlt_le_weak, Qnot_le_lt. intros H.
        apply Qle_bool_iff in H.
        exact (Bool.diff_true_false (eq_trans (eq_sym H) E1)).
  - exists (inject_Z 100). split; [reflexivity|].
    split; unfold Qle; simpl; lia.
  - exists (inject_Z 0). split; [reflexivity|].
    split; unfold Qle; simpl; lia.
Qed.

Lemma clamp_range (x : JsNum.t) :
  JsNum.min (JsNum.of_Z 100) (JsNum.max (JsNum.of_Z 0) x) = JsNum.NaN
  \/ exists q, JsNum.min (JsNum.of_Z 100) (JsNum.max (JsNum.of_Z 0) x)
               = JsNum.Fin q /\ (0 <= q)%Q /\ (q <= 100)%Q.
Proof. pose proof (clamp_percent x) as H. destruct x; auto. Qed.

Lemma clamp_nan_iff (x : JsNum.t) :
  JsNum.min (JsNum.of_Z 100) (JsNum.max (JsNum.of_Z 0) x) = JsNum.NaN
  <-> x = JsNum.NaN.
Proof.
  pose proof (clamp_percent x) as H.
  destruct x as [q| | |].
  - destruct H as [q' [Hq _]]. rewrite Hq. split; discriminate.
  - destruct H as [q' [Hq _]]. rewrite Hq. split; discriminate.
  - destruct H as [q' [Hq _]]. rewrite Hq. split; discriminate.
  - split; auto.
Qed.

Lemma ratio_nan (n1 n2 : Z) :
  0 <= n1 -> 0 <= n2 ->
  (percent_of n1 n2 = JsNum.NaN <-> n1 = 0 /\ n2 = 0).
Proof.
  intros H1 H2. unfold percent_of, JsNum.of_Z, JsNum.div.
  rewrite !Qsign_inject_Z.
  destruct n2 as [|p|p]; try lia; destruct n1 as [|r|r]; try lia;
    simpl; split; try discriminate; try tauto; intros [? ?]; discriminate.
Qed.

(** X23. The progress of a project timeline is [NaN] or a number between
    0 and 100.  It is 100 for a completed project and 0 for a planned
    one; for an active project it is [NaN] when a date is invalid, and on
    valid dates exactly when start and end coincide with the current
    instant. *)
Theorem timelineProgress_range (now : Z) (project : Project.t) :
  (AnalyticsPage.timelineProgress now project = JsNum.NaN
   \/ exists q, AnalyticsPage.timelineProgress now project = JsNum.Fin q
                /\ (0 <= q)%Q /\ (q <= 100)%Q)
  /\ match Project.status project with
     | completed =>
         AnalyticsPage.timelineProgress now project = JsNum.of_Z 100
     | planning => AnalyticsPage.timelineProgress now project = JsNum.of_Z 0
     | active =>
         match parseISO (Project.startDate project),
               parseISO (Project.endDate project) with
         | Some s, Some e =>
             AnalyticsPage.timelineProgress now project = JsNum.NaN
             <-> s = e /\ now = s
         | _, _ => AnalyticsPage.timelineProgress now project = JsNum.NaN
         end
     end.
Proof.
  unfold AnalyticsPage.timelineProgress.
  destruct (Project.status project).
  - split; [right; exists (inject_Z 0); split; [reflexivity|];
            split; unfold Qle; simpl; lia | reflexivity].
  - cbv zeta. split; [apply clamp_range|].
    destruct (parseISO (Project.startDate project)) as [s|] eqn:Hs;
      [destruct (parseISO (Project.endDate project)) as [e|] eqn:He|].
    + rewrite clamp_nan_iff.
      rewrite (getDaysBetween_valid (DStr (Project.startDate project))
                 (DStr (Project.endDate project)) s e Hs He).
      rewrite (getDaysBetween_valid (DStr (Project.startDate project))
                 (DObj (Some now)) s now Hs eq_refl).
      destruct (daysOf_sign (e - s)) as [B1 Z1].
      destruct (daysOf_sign (now - s)) as [B2 Z2].
      change (percent_of (daysOf (now - s)) (daysOf (e - s)) = JsNum.NaN
              <-> s = e /\ now = s).
      rewrite ratio_nan by lia. lia.
    + apply clamp_nan_iff. unfold Utils.getDaysBetween. cbv zeta.
      simpl Utils.toDate. rewrite Hs, He. reflexivity.
    + apply clamp_nan_iff. unfold Utils.getDaysBetween. cbv zeta.
      simpl Utils.toDate. rewrite Hs.
      destruct (parseISO (Project.endDate project)); reflexivity.
  - split; [right; exists (inject_Z 100); split; [reflexivity|];
            split; unfold Qle; simpl; lia | reflexivity].
Qed.

End Timeline.

Section Forms.
Context {DL : DateLib}.
Import AssignmentsPage.

(** X24. What [assignmentSchema] accepts: exactly the form values with a
    percentage between 1 and 100, non-empty engineer, project, role and
    dates, and two valid dates with the end strictly after the start (an
    assignment that ends on the instant it starts is rejected); the
    parsed data are the form values, unchanged. *)
Theorem assignmentSchema_accepts_iff (v : FormValues)
    (data : AssignmentFormData) :
  assignmentSchema v = Some data <->
  (exists p s e,
      allocationPercentage v = Some p /\ 1 <= p <= 100
      /\ engineerId v <> "" /\ projectId v <> "" /\ role v <> ""
      /\ startDate v <> "" /\ endDate v <> ""
      /\ newDate (startDate v) = Some s /\ newDate (endDate v) = Some e
      /\ s < e
      /\ data = {| AssignmentCreate.engineerId := engineerId v;
                   AssignmentCreate.projectId := projectId v;
                   AssignmentCreate.allocationPercentage := p;
                   AssignmentCreate.startDate := startDate v;
                   AssignmentCreate.endDate := endDate v;
                   AssignmentCreate.role := role v |}).
Proof.
  assert (Hmin : forall s, min1 s = true <-> s <> "").
  { intros s. unfold min1. destruct s as [|c s].
    + split; [discriminate | congruence].
    + split; [discriminate |].
      intros _. apply Z.leb_le. cbn [String.length]. lia. }
  unfold assignmentSchema. split.
  - destruct (allocationPercentage v) as [p|]; [|discriminate].
    destruct (min1 (engineerId v) && min1 (projectId v) && (1 <=? p)
              && (p <=? 100) && min1 (startDate v) && min1 (endDate v)
              && min1 (role v) && refine_dates (startDate v) (endDate v))
      eqn:E; [|discriminate].
    intros H. injection H as <-.
    repeat (apply andb_true_iff in E; destruct E as [E ?]).
    unfold refine_dates, date_gt, isAfter in *.
    destruct (newDate (endDate v)) as [e|]; [|discriminate].
    destruct (newDate (startDate v)) as [s|]; [|discriminate].
    exists p, s, e.
    repeat match goal with |- _ /\ _ => split end;
      try (apply Hmin; assumption); try reflexivity; lia.
  - intros [p [s [e [Hp [Hr [H1 [H2 [H3 [H4 [H5 [Hs [He [Hlt ->]]]]]]]]]]]]].
    rewrite Hp.
    apply Hmin in H1, H2, H3, H4, H5. rewrite H1, H2, H3, H4, H5.
    unfold refine_dates, date_gt, isAfter. rewrite Hs, He.
    replace (1 <=? p) with true by (symmetry; apply Z.leb_le; lia).
    replace (p <=? 100) with true by (symmetry; apply Z.leb_le; lia).
    replace (s <? e) with true by (symmetry; apply Z.ltb_lt; lia).
    reflexivity.
Qed.

(** [split_head sep s] is what stands in [s] before the first [sep]. *)
Lemma split_head_spec (sep : ascii) (s : string) :
  JsString.includes (JsString.split_head sep s) (String sep "") = false
  /\ exists rest,
       s = (JsString.split_head sep s ++ rest)%string
       /\ (rest = "" \/ exists r, rest = String sep r).
Proof.
  induction s as [|c s [IH1 [rest [IH2 IH3]]]].
  - split; [reflexivity|]. exists "". split; [reflexivity | left; reflexivity].
  - simpl JsString.split_head. destruct (Ascii.eqb_spec c sep) as [->|Hne].
    + split; [reflexivity|]. exists (String sep s).
      split; [reflexivity | right; exists s; reflexivity].
    + split.
      * change (String.prefix (String sep "")
                   (String c (JsString.split_head sep s))
                || JsString.includes (JsString.split_head sep s)
                     (String sep "")
                = false).
        rewrite IH1. simpl.
        destruct (Ascii.ascii_dec sep c); [congruence|reflexivity].
      * exists rest. split; [|exact IH3]. simpl. now rewrite <- IH2.
Qed.

(** X25. Opening an assignment for edit marks it as the one being edited
    and fills the form from it, each date being what stands in the
    stored date before its first [T] (the whole date when it has none).
    Submitting that form, when it validates, sends first the update of
    that very assignment with its own engineer, project, percentage and
    role; when it does not validate nothing is sent.  The Cancel button
    closes the dialog and clears the edited assignment and the capacity
    information.  Closing the dialog by its own controls clears neither:
    the assignment stays the one being edited, so that a form submitted
    afterwards from the create dialog sends an update of that assignment
    instead of creating one. *)
Theorem edit_then_submit (assignment : Assignment.t) (p : PageState)
    (app : AppContext.AppState) (resp : ApiResult Assignment.t)
    (er : ApiResult (list User.t)) :
  let '(p1, v) := handleEditAssignment assignment p in
  editingAssignment p1 = Some assignment
  /\ isEditDialogOpen p1 = true
  (* the dates of the form *)
  /\ JsString.includes (startDate v) "T" = false
  /\ JsString.includes (endDate v) "T" = false
  /\ (exists rest, Assignment.startDate assignment
                   = (startDate v ++ rest)%string
                   /\ (rest = "" \/ exists r, rest = String "T" r))
  /\ (exists rest, Assignment.endDate assignment
                   = (endDate v ++ rest)%string
                   /\ (rest = "" \/ exists r, rest = String "T" r))
  (* submitting the form *)
  /\ match assignmentSchema v with
     | Some data =>
         hd_error (events (handleSubmit v resp er p1 app))
         = Some (PutAssignment (Assignment._id assignment) data)
         /\ AssignmentCreate.engineerId data
            = EngineerRef._id (Assignment.engineerId assignment)
         /\ AssignmentCreate.projectId data
            = ProjectRef._id (Assignment.projectId assignment)
         /\ AssignmentCreate.allocationPercentage data
            = Assignment.allocationPercentage assignment
         /\ AssignmentCreate.role data = Assignment.role assignment
     | None => events (handleSubmit v resp er p1 app) = []
     end
  (* the Cancel button *)
  /\ handleDialogClose true p1
     = setCapacityInfo None (setIsEditDialogOpen false
                               (setEditingAssignment None p))
  (* the dialog's own close *)
  /\ (let p2 := setIsEditDialogOpen false p1 in
      isEditDialogOpen p2 = false
      /\ editingAssignment p2 = Some assignment
      /\ capacityInfo p2 = capacityInfo p
      /\ forall data,
           hd_error (events (onSubmit data resp er
                               (setIsCreateDialogOpen true p2) app))
           = Some (PutAssignment (Assignment._id assignment) data)).
Proof.
  unfold handleEditAssignment.
  pose proof (split_head_spec "T" (Assignment.startDate assignment))
    as [Hs1 Hs2].
  pose proof (split_head_spec "T" (Assignment.endDate assignment))
    as [He1 He2].
  assert (Hput : forall q data,
            editingAssignment q = Some assignment ->
            hd_error (events (onSubmit data resp er q app))
            = Some (PutAssignment (Assignment._id assignment) data)).
  { intros q data Hq. unfold onSubmit, exceedsAvailable. rewrite Hq.
    pose proof (updateAssignment_run (Assignment._id assignment) data resp
                  er app) as Hr. cbv zeta in Hr.
    destruct resp; destruct Hr as [Hem Hse]; rewrite Hse; cbn [events];
      rewrite Hem; reflexivity. }
  split; [reflexivity|]. split; [reflexivity|].
  split; [exact Hs1|]. split; [exact He1|].
  split; [exact Hs2|]. split; [exact He2|].
  split; [|split; [reflexivity|]].
  - unfold handleSubmit.
    destruct (assignmentSchema _) as [data|] eqn:E; [|reflexivity].
    split; [apply Hput; reflexivity|].
    unfold assignmentSchema in E. cbn [allocationPercentage] in E.
    match type of E with (if ?c then _ else _) = _ =>
      destruct c; [|discriminate] end.
    injection E as <-. repeat split.
  - cbv zeta. split; [reflexivity|]. split; [reflexivity|].
    split; [reflexivity|]. intros data. apply Hput. reflexivity.
Qed.

(** X26. [handleDeleteAssignment] sends nothing and changes nothing when
    the confirmation is declined.  When confirmed and successful it sends
    the delete, reloads the engineers, reports success, and no assignment
    with that id is left; when the request fails the assignments are kept
    and the failure is reported and stored. *)
Theorem delete_needs_confirmation (id : string) (resp : ApiResult unit)
    (er : ApiResult (list User.t)) (p : PageState)
    (app : AppContext.AppState) (msg : string) :
  handleDeleteAssignment id false resp er p app
  = {| page_after := p; app_after := app; events := [] |}
  /\ (let out := handleDeleteAssignment id true (ApiOk tt) er p app in
      events out = [DeleteAssignment id; GetEngineers;
                    Alert "Assignment removed successfully!"]
      /\ AppContext.assignments (app_after out)
         = others id (AppContext.assignments app)
      /\ forall a, In a (AppContext.assignments (app_after out)) ->
                   Assignment._id a <> id)
  /\ (let out := handleDeleteAssignment id true (ApiErr msg) er p app in
      events out = [DeleteAssignment id;
                    ConsoleError "Failed to delete assignment:";
                    Alert "Failed to remove assignment. Please try again."]
      /\ AppContext.assignments (app_after out) = AppContext.assignments app
      /\ AppContext.assignmentsError (app_after out) = Some msg).
Proof.
  split; [reflexivity|]. split.
  - cbv zeta. unfold handleDeleteAssignment, AppContext.deleteAssignment.
    pose proof (loadEngineers_emits er
      (AppContext.appReducer
         (AppContext.appReducer app AppContext.DELETE_ASSIGNMENT_START)
         (AppContext.DELETE_ASSIGNMENT_SUCCESS id))) as Hev.
    destruct (AppContext.loadEngineers er _) as [s3 ev] eqn:El.
    simpl in Hev. subst ev. cbn [AppContext.settled events app_after
      AppContext.state_after AppContext.emitted].
    split; [reflexivity|].
    assert (Hs3 : AppContext.assignments s3
                  = others id (AppContext.assignments app)).
    { destruct er; simpl in El; injection El as <-; reflexivity. }
    split; [exact Hs3|]. intros a Ha. rewrite Hs3 in Ha.
    apply others_In in Ha. tauto.
  - cbv zeta. repeat split.
Qed.

(** X27. After a successful capacity check for a known engineer, the
    page holds the reported capacity, and a new assignment is written
    exactly when its percentage does not exceed it; with a reported
    capacity of 0 or less no assignment of a positive percentage is
    written. *)
Theorem capacity_check_then_submit (engineers : list User.t)
    (eid sd ed : string) (capacity : Z) (e : User.t)
    (data : AssignmentFormData) (resp : ApiResult Assignment.t)
    (er : ApiResult (list User.t)) (p : PageState)
    (app : AppContext.AppState)
    (Hfields : truthy_str eid && truthy_str sd && truthy_str ed = true)
    (Hfound : find (fun x => String.eqb (User._id x) eid) engineers = Some e)
    (Hnew : editingAssignment p = None) :
  let '(p1, ev) := checkCapacity engineers eid sd ed (ApiOk capacity) p in
  ev = [GetEngineerCapacity eid sd ed]
  /\ (exists m, capacityInfo p1 = Some {| available := capacity; message := m |})
  /\ existsb is_write (events (onSubmit data resp er p1 app))
     = (AssignmentCreate.allocationPercentage data <=? capacity)
  /\ (capacity <= 0 -> 0 < AssignmentCreate.allocationPercentage data ->
      existsb is_write (events (onSubmit data resp er p1 app)) = false).
Proof.
  unfold checkCapacity. rewrite Hfields. cbn [AppContext.getEngineerCapacity].
  rewrite Hfound.
  assert (Hw : existsb is_write
                 (events (onSubmit data resp er
                    (setCapacityInfo
                       (Some {| available := capacity;
                                message :=
                                  if 0 <? capacity
                                  then (show capacity ++ "% capacity available during this period")%string
                                  else "Engineer is fully allocated during this period" |})
                       p) app))
               = (AssignmentCreate.allocationPercentage data <=? capacity)).
  { unfold onSubmit, exceedsAvailable.
    cbn [editingAssignment capacityInfo setCapacityInfo available].
    rewrite Hnew.
    destruct (Z.ltb_spec capacity (AssignmentCreate.allocationPercentage data))
      as [L|L].
    - replace (AssignmentCreate.allocationPercentage data <=? capacity)
        with false by (symmetry; apply Z.leb_gt; lia). reflexivity.
    - replace (AssignmentCreate.allocationPercentage data <=? capacity)
        with true by (symmetry; apply Z.leb_le; lia).
      pose proof (createAssignment_emits data resp er app) as Hhd.
      destruct (AppContext.emitted
                  (AppContext.createAssignment data resp er app))
        as [|x xs] eqn:E; [discriminate|]. injection Hhd as ->.
      destruct (AppContext.settled _); reflexivity. }
  split; [reflexivity|]. split; [eexists; reflexivity|]. split; [exact Hw|].
  intros Hc Hp. rewrite Hw. apply Z.leb_gt. lia.
Qed.

End Forms.

(** ** More concrete runs *)

Section MoreRuns.
Import AssignmentsPage Samples.

#[local] Existing Instance IsoDate.lib.

Lemma create_then_delete_restores_witness :
  existsb (fun a => String.eqb (Assignment._id a) "a9")
          (AppContext.assignments app) = false
  /\ AppContext.assignments
       (AppContext.appReducer
          (AppContext.appReducer app
             (AppContext.CREATE_ASSIGNMENT_SUCCESS
                (mkAssignment "a9" "u1" 20 "2025-03-01" "2025-03-31")))
          (AppContext.DELETE_ASSIGNMENT_SUCCESS "a9"))
     = AppContext.assignments app.
Proof.
  split; [reflexivity|].
  exact (create_then_delete_restores app
           (mkAssignment "a9" "u1" 20 "2025-03-01" "2025-03-31") eq_refl).
Defined.

Lemma failed_create_then_clearError_witness :
  AppContext.isCreating app = false
  /\ AppContext.assignmentsError app = None
  /\ AppContext.clearError "assignments"
       (AppContext.state_after
          (AppContext.createAssignment
             (mkData "u1" 60 "2025-01-10" "2025-01-20")
             (ApiErr "Request failed") (ApiOk [ada]) app)) = app.
Proof.
  split; [reflexivity|]. split; [reflexivity|].
  exact (failed_create_then_clearError app
           (mkData "u1" 60 "2025-01-10" "2025-01-20") "Request failed"
           (ApiOk [ada]) eq_refl eq_refl).
Defined.

Lemma active_and_upcoming_disjoint_witness :
  (forall a, In a (AppContext.assignments app) ->
             parseISO (Assignment.startDate a)
             = newDate (Assignment.startDate a))
  /\ ~ In january
         (EngineerDashboard.upcomingAssignments jan15 (Some ada)
            (AppContext.assignments app)).
Proof.
  assert (H : forall a, In a (AppContext.assignments app) ->
                parseISO (Assignment.startDate a)
                = newDate (Assignment.startDate a))
    by (intros a _; reflexivity).
  split; [exact H|].
  apply (proj1 (active_and_upcoming_disjoint jan15 (Some ada)
                  (AppContext.assignments app) H) january).
  simpl. left. reflexivity.
Defined.

Lemma capacity_check_then_submit_witness :
  truthy_str "u1" && truthy_str "2025-01-10" && truthy_str "2025-01-20" = true
  /\ find (fun x => String.eqb (User._id x) "u1") [ada] = Some ada
  /\ editingAssignment (creating 0) = None
  /\ existsb is_write
       (events
          (onSubmit (mkData "u1" 60 "2025-01-10" "2025-01-20")
             (ApiErr "Request failed") (ApiOk [ada])
             (fst (checkCapacity [ada] "u1" "2025-01-10" "2025-01-20"
                     (ApiOk 50) (creating 0)))
             app))
     = false.
Proof.
  split; [reflexivity|]. split; [reflexivity|]. split; [reflexivity|].
  pose proof (capacity_check_then_submit [ada] "u1" "2025-01-10" "2025-01-20"
                50 ada (mkData "u1" 60 "2025-01-10" "2025-01-20")
                (ApiErr "Request failed") (ApiOk [ada]) (creating 0) app
                eq_refl eq_refl eq_refl) as H.
  destruct (checkCapacity [ada] "u1" "2025-01-10" "2025-01-20" (ApiOk 50)
              (creating 0)) as [p1 ev].
  destruct H as (_ & _ & H & _). exact H.
Defined.

(** Where the rounding of doubles shows.  One tenth is held as
    3602879701896397 / 2^55, and an odd integer just above [2^53] goes to
    the neighbour with the even significand.  On 24 January, 23 days into the
    40 days of the sample project, the quotient 0.575 is not a double and
    the product is 57.49999999999999: the progress is 57, where the
    exact 57.5 would round to 58.  Between two valid dates more than
    [2^53] ms apart, one millisecond over 199999999 days, the rounded
    difference and quotient give 199999999 days where 200000000 are
    needed to cover the distance. *)
Example date_helpers_round_as_doubles :
  (* one tenth, and two ties above 2^53, as doubles *)
  (JsNum.rn (1 # 10) == 3602879701896397 # 36028797018963968)%Q
  /\ (JsNum.rn (inject_Z (2 ^ 53 + 1)) == inject_Z (2 ^ 53))%Q
  /\ (JsNum.rn (inject_Z (2 ^ 53 + 3)) == inject_Z (2 ^ 53 + 4))%Q
  /\ Utils.calculateProgress (jan01 + 23 * msPerDay)
    (DStr (Project.startDate portal)) (DStr (Project.endDate portal))
  = JsNum.of_Z 57
  /\ JsNum.round (percent_of 23 40) = JsNum.of_Z 58
  /\ (let s := -8640000000000000 in
      let e := 8639999913600001 in
      2 ^ 53 < e - s
      /\ e - s = 199999999 * msPerDay + 1
      /\ daysCovering (e - s) = 200000000
      /\ Utils.getDaysBetween (DObj (Some s)) (DObj (Some e))
         = JsNum.of_Z 199999999).
Proof. cbv zeta. repeat split; vm_compute; reflexivity. Qed.

(** Closing the edit dialog of [february] by its own controls and then
    submitting a form from the create dialog: the request is an update
    of [february], not a create. *)
Example stale_edit_turns_create_into_update :
  let p1 := fst (handleEditAssignment february fresh) in
  let p2 := setIsCreateDialogOpen true (setIsEditDialogOpen false p1) in
  let d := mkData "u1" 20 "2025-03-01" "2025-03-31" in
  events (onSubmit d (ApiOk (mkAssignment "a2" "u1" 20 "2025-03-01" "2025-03-31"))
            (ApiOk [ada]) p2 app)
  = [PutAssignment "a2" d; GetEngineers;
     Alert "Assignment updated successfully!"; FormReset].
Proof. reflexivity. Qed.

(** Runs of the helpers on the sample data. *)
Example utils_on_samples :
  Utils.getDaysBetween (DStr "2025-01-01") (DStr "2025-01-31") = JsNum.of_Z 30
  /\ Utils.getDaysBetween (DStr "2025-01-31") (DStr "2025-01-01")
     = JsNum.of_Z 30
  /\ Utils.getDaysBetween (DStr "soon") (DStr "2025-01-01") = JsNum.NaN
  /\ Utils.calculateProgress jan15 (DStr "2025-01-01") (DStr "2025-01-31")
     = JsNum.of_Z 47
  /\ Utils.calculateProgress jan01 (DStr "2025-01-01") (DStr "2025-01-01")
     = JsNum.NaN
  /\ Utils.truncateText "Customer portal" 8 = "Customer..."
  /\ Utils.truncateText "abcd" 3 = "abc..."
  /\ Utils.truncateText "Customer portal" (-7) = "Customer..."
  /\ Utils.isValid (Utils.validatePassword "abcdefghijkl") = false
  /\ Utils.isValid (Utils.validatePassword "abcdefg1") = true
  /\ Utils.strength (Utils.validatePassword "Abcdefg1") = Utils.strong
  /\ Utils.generateAvatarColor "" = Some "bg-red-500"
  /\ Utils.avatarHash "Ada Byron" = -2163734568
  /\ Utils.generateAvatarColor "Grace Hopper" = Some "bg-purple-500"
  /\ EngineersPage.filteredEngineers "ADA" [ada; idle] = [ada; idle]
  /\ EngineersPage.filteredEngineers "react" [ada] = [ada]
  /\ EngineersPage.filteredEngineers "vue" [ada] = [].
Proof. repeat split. Qed.

End MoreRuns.

Section Skills.
Import ProfilePage.

Lemma includes_In (skill : string) (l : list string) :
  existsb (String.eqb skill) l = true <-> In skill l.
Proof.
  rewrite existsb_exists. split.
  - intros [x [Hx E]]. apply String.eqb_eq in E. now subst.
  - intros H. exists skill. split; [exact H | apply String.eqb_refl].
Qed.

Lemma remove_absent (skill : string) (l : list string) :
  ~ In skill l -> filter (fun s => negb (String.eqb s skill)) l = l.
Proof.
  induction l as [|x l IH]; simpl; intros H; [reflexivity|].
  destruct (String.eqb_spec x skill) as [E|E]; simpl.
  - exfalso. apply H. left. exact E.
  - f_equal. apply IH. intros Hin. apply H. right. exact Hin.
Qed.

(** X28. Toggling a skill flips its membership and nothing else: every
    other skill stays, in its order.  Toggling an absent skill adds it at
    the end and toggling it again restores the list; toggling a present
    one removes every copy of it, so that a second toggle puts a single
    copy at the end.  A list without duplicates stays so. *)
Theorem handleSkillToggle_flips (skill : string) (prev : list string) :
  (In skill (handleSkillToggle skill prev) <-> ~ In skill prev)
  /\ filter (fun s => negb (String.eqb s skill)) (handleSkillToggle skill prev)
     = filter (fun s => negb (String.eqb s skill)) prev
  /\ handleSkillToggle skill (handleSkillToggle skill prev)
     = (if existsb (String.eqb skill) prev
        then filter (fun s => negb (String.eqb s skill)) prev ++ [skill]
        else prev)%list
  /\ (NoDup prev -> NoDup (handleSkillToggle skill prev)).
Proof.
  assert (Hgone : ~ In skill (filter (fun s => negb (String.eqb s skill)) prev)).
  { intros H. apply filter_In in H. destruct H as [_ H].
    rewrite String.eqb_refl in H. discriminate. }
  assert (Hidem : forall l,
             filter (fun s => negb (String.eqb s skill))
                    (filter (fun s => negb (String.eqb s skill)) l)
             = filter (fun s => negb (String.eqb s skill)) l).
  { intros l. apply remove_absent. intros H. apply filter_In in H.
    destruct H as [_ H]. rewrite String.eqb_refl in H. discriminate. }
  unfold handleSkillToggle.
  destruct (existsb (String.eqb skill) prev) eqn:E.
  - assert (Hin : In skill prev) by (apply includes_In; exact E).
    split; [tauto|]. split; [apply Hidem|]. split.
    + replace (existsb (String.eqb skill)
                 (filter (fun s => negb (String.eqb s skill)) prev))
        with false; [reflexivity|].
      symmetry. apply not_true_is_false. intros H.
      apply includes_In in H. contradiction.
    + intros Hnd. apply NoDup_filter. exact Hnd.
  - assert (Hout : ~ In skill prev).
    { intros H. apply includes_In in H. congruence. }
    split; [|split; [|split]].
    + split; [intros _; exact Hout|]. intros _. apply in_or_app.
      right. left. reflexivity.
    + rewrite filter_app. simpl. rewrite String.eqb_refl. simpl.
      apply app_nil_r.
    + replace (existsb (String.eqb skill) (prev ++ [skill])) with true.
      * rewrite filter_app. simpl. rewrite String.eqb_refl. simpl.
        rewrite app_nil_r. apply remove_absent, Hout.
      * symmetry. apply includes_In, in_or_app. right. left. reflexivity.
    + intros Hnd. apply NoDup_app; [exact Hnd | repeat constructor; intros [] |].
      intros x Hx [<-|[]]. contradiction.
Qed.

End Skills.
